(** * A shallow embedding of [zork_expanded.py]

    The Python program is a single class, [ZorkGame], whose methods read and
    mutate the attributes of [self], print lines, read lines, draw random
    numbers and raise exceptions.  The embedding keeps that shape: the
    attributes become the record [ZorkGame], the rest of the machine (standard
    output, standard input, the files on disk, the random draws) is gathered
    in [Sys], and a method is a function in the state-and-exception monad
    [M] over [Sys].  Dictionaries that are only ever indexed are [gmap]s,
    the set of visited rooms is a [gset], and the dictionaries whose
    iteration order is observable ([objects], [actors]) are insertion-ordered
    association lists. *)

From Stdlib Require Import ZArith String Ascii List Bool DecimalString Lia.
From stdpp Require Import gmap strings list.
Import ListNotations.

Local Open Scope string_scope.
Local Open Scope Z_scope.

(** ** Python strings *)

Module Py.

Definition nl : string := String "010" EmptyString.
Definition dq : string := String "034" EmptyString.

  (** [str.isspace] on the ASCII range: tab to carriage return, the four
      separators 0x1c-0x1f and the blank. *)
Definition isspace (c : ascii) : bool :=
    let n := nat_of_ascii c in
    ((9 <=? n)%nat && (n <=? 13)%nat) || ((28 <=? n)%nat && (n <=? 32)%nat).

Definition lower_char (c : ascii) : ascii :=
    let n := nat_of_ascii c in
    if ((65 <=? n)%nat && (n <=? 90)%nat) then ascii_of_nat (n + 32) else c.

Fixpoint lower (s : string) : string :=
    match s with
    | EmptyString => EmptyString
    | String c s' => String (lower_char c) (lower s')
    end.

Fixpoint lstrip (s : string) : string :=
    match s with
    | EmptyString => EmptyString
    | String c s' => if isspace c then lstrip s' else s
    end.

Fixpoint rstrip (s : string) : string :=
    match s with
    | EmptyString => EmptyString
    | String c s' =>
        match rstrip s' with
        | EmptyString => if isspace c then EmptyString else String c EmptyString
        | r => String c r
        end
    end.

Definition strip (s : string) : string := rstrip (lstrip s).

  (** [s.split()]: the maximal runs of non-blank characters, in order.
      [cur] is the run being read. *)
Fixpoint split_from (cur : string) (s : string) : list string :=
    match s with
    | EmptyString => match cur with EmptyString => [] | _ => [cur] end
    | String c s' =>
        if isspace c
        then match cur with
             | EmptyString => split_from EmptyString s'
             | _ => cur :: split_from EmptyString s'
             end
        else split_from (cur +:+ String c EmptyString) s'
    end.

Definition split (s : string) : list string := split_from EmptyString s.

  (** [sep.join(l)] *)
Fixpoint join (sep : string) (l : list string) : string :=
    match l with
    | [] => EmptyString
    | [x] => x
    | x :: l' => x +:+ sep +:+ join sep l'
    end.

Definition startswith (s p : string) : bool := String.prefix p s.

  (** [s[n:]] *)
Fixpoint drop (n : nat) (s : string) : string :=
    match n, s with
    | O, _ => s
    | S n', String _ s' => drop n' s'
    | S _, EmptyString => EmptyString
    end.

  (** [needle in hay] on strings *)
Fixpoint contains (needle hay : string) : bool :=
    String.prefix needle hay ||
    match hay with
    | EmptyString => false
    | String _ hay' => contains needle hay'
    end.

  (** truth value of a string: empty is false *)
Definition truthy (s : string) : bool :=
    match s with EmptyString => false | _ => true end.

  (** truth value of an [Optional[str]] *)
Definition truthy_opt (o : option string) : bool :=
    match o with Some s => truthy s | None => false end.

  (** [str(n)] for an int *)
Definition str_of_int (n : Z) : string := NilZero.string_of_int (Z.to_int n).

  (** [x in l] on a list of strings *)
Definition mem (x : string) (l : list string) : bool :=
    existsb (String.eqb x) l.

  (** [l.remove(x)]: drops the first occurrence; [None] stands for the
      [ValueError] Python raises when there is none. *)
Fixpoint remove (x : string) (l : list string) : option (list string) :=
    match l with
    | [] => None
    | y :: l' => if String.eqb x y then Some l'
                 else option_map (cons y) (remove x l')
    end.

(** [a == b] for an [Optional[str]] and a string *)
Definition opt_is (o : option string) (s : string) : bool :=
  match o with Some x => String.eqb x s | None => false end.

(** The dictionary a display [{k1: v1, k2: v2, ...}] builds: entries are
    stored left to right, so a repeated key keeps its last value. *)
Definition dict {K V} `{Countable K} (l : list (K * V)) : gmap K V :=
  fold_left (fun m kv => <[fst kv := snd kv]> m) l ∅.

End Py.

(** ** Insertion-ordered dictionaries

    [dict] keeps insertion order, and the game iterates over [self.objects]
    and [self.actors]; the first hit of a search depends on that order. *)

Module OrderedDict.

Section WithValue.
Context {V : Type}.

Definition t := list (string * V).

Fixpoint get (k : string) (d : list (string * V)) : option V :=
      match d with
      | [] => None
      | (k', v) :: d' => if String.eqb k k' then Some v else get k d'
      end.

Definition contains (k : string) (d : list (string * V)) : bool :=
      match get k d with Some _ => true | None => false end.

    (** [d[k] = v]: overwrite in place, or append a new key at the end *)
Fixpoint set (k : string) (v : V) (d : list (string * V)) : list (string * V) :=
      match d with
      | [] => [(k, v)]
      | (k', v') :: d' =>
          if String.eqb k k' then (k, v) :: d' else (k', v') :: set k v d'
      end.

    (** [del d[k]], for a key that is present *)
Fixpoint del (k : string) (d : list (string * V)) : list (string * V) :=
      match d with
      | [] => []
      | (k', v') :: d' =>
          if String.eqb k k' then d' else (k', v') :: del k d'
      end.

Definition keys (d : list (string * V)) : list string := map fst d.
Definition values (d : list (string * V)) : list V := map snd d.

    (** Build the dictionary a sequence of assignments [d[k] = v] leaves. *)
Definition of_assignments (l : list (string * V)) : list (string * V) :=
      fold_left (fun d kv => set (fst kv) (snd kv) d) l [].
End WithValue.

Arguments t : clear implicits.

End OrderedDict.

(** ** Constants and enumerations *)

Module Direction.
Inductive t :=
  | NORTH | SOUTH | EAST | WEST | NE | NW | SE | SW | UP | DOWN | IN | OUT | LAND.

Definition to_nat (d : t) : nat :=
    match d with
    | NORTH => 0 | SOUTH => 1 | EAST => 2 | WEST => 3 | NE => 4 | NW => 5
    | SE => 6 | SW => 7 | UP => 8 | DOWN => 9 | IN => 10 | OUT => 11
    | LAND => 12
    end%nat.

Definition of_nat (n : nat) : t :=
    match n with
    | 0 => NORTH | 1 => SOUTH | 2 => EAST | 3 => WEST | 4 => NE | 5 => NW
    | 6 => SE | 7 => SW | 8 => UP | 9 => DOWN | 10 => IN | 11 => OUT
    | _ => LAND
    end%nat.

#[export] Instance eq_dec : EqDecision t.
Proof. solve_decision. Defined.

#[export] Instance countable : Countable t.
Proof. apply (inj_countable' to_nat of_nat). intros []; reflexivity. Defined.

Definition eqb (a b : t) : bool := bool_decide (a = b).
End Direction.
Export (hints) Direction.

Module VerbType.
Inductive t :=
  | TAKE | DROP | OPEN | CLOSE | LIGHT | EXTINGUISH | MOVE | ATTACK | EXAMINE
  | READ | THROW | PUT | TURN | JUMP | INVENTORY | QUIT | SAVE | RESTORE
  | RESTART | VERBOSE | BRIEF | SCORE | VERSION | LOOK | WAIT | AGAIN | ENTER
  | EXIT | CLIMB | GIVE | DRINK | EAT | BREAK | KILL | WAVE | RAISE | LOWER
  | TURN_ON | TURN_OFF | DIAGNOSE | UNLOCK | LOCK | TIE | UNTIE | BURN | RING
  | WIND | DIG | FILL | POUR | PRAY | PUSH.

#[export] Instance eq_dec : EqDecision t.
Proof. solve_decision. Defined.

Definition eqb (a b : t) : bool := bool_decide (a = b).
End VerbType.
Export (hints) VerbType.

Module ObjectFlag.
Inductive t :=
  | VISIBLE | TAKEABLE | CONTAINER | OPEN | CLOSED | LOCKED | LIGHT | READABLE
  | DOOR | TRANSPARENT | WEAPON | TURNNABLE | TURNEDON | EDIBLE | DRINKABLE
  | TREASURE | VEHICLE | SACRED | TOOL | FLAMMABLE.

Definition value (f : t) : Z :=
    match f with
    | VISIBLE => 0x0001
    | TAKEABLE => 0x0002
    | CONTAINER => 0x0008
    | OPEN => 0x0010
    | CLOSED => 0x0020
    | LOCKED => 0x0040
    | LIGHT => 0x0080
    | READABLE => 0x0100
    | DOOR => 0x0200
    | TRANSPARENT => 0x0400
    | WEAPON => 0x0800
    | TURNNABLE => 0x1000
    | TURNEDON => 0x2000
    | EDIBLE => 0x4000
    | DRINKABLE => 0x8000
    | TREASURE => 0x10000
    | VEHICLE => 0x20000
    | SACRED => 0x40000
    | TOOL => 0x80000
    | FLAMMABLE => 0x100000
    end.

End ObjectFlag.

Module RoomFlag.
Inductive t := LIT | DEATH | SACRED | NOPIRATE | ONWATER.

Definition value (f : t) : Z :=
    match f with
    | LIT => 0x0001
    | DEATH => 0x0002
    | SACRED => 0x0008
    | NOPIRATE => 0x0010
    | ONWATER => 0x0020
    end.
End RoomFlag.

(** ** The data classes *)

Module GameObject.
Record t := mk {
    id : string;
    name : string;
    description : string;
    examine_text : string;
    initial_text : string;
    flags : Z;
    location : option string;
    capacity : Z;
    size : Z;
    value : Z
  }.

Definition has_flag (self : t) (flag : ObjectFlag.t) : bool :=
    negb (Z.land (flags self) (ObjectFlag.value flag) =? 0).

Definition with_flags (v : Z) (self : t) : t :=
    mk (id self) (name self) (description self) (examine_text self)
       (initial_text self) v (location self) (capacity self) (size self)
       (value self).

Definition with_location (v : option string) (self : t) : t :=
    mk (id self) (name self) (description self) (examine_text self)
       (initial_text self) (flags self) v (capacity self) (size self)
       (value self).

Definition with_examine_text (v : string) (self : t) : t :=
    mk (id self) (name self) (description self) v
       (initial_text self) (flags self) (location self) (capacity self)
       (size self) (value self).

Definition with_value (v : Z) (self : t) : t :=
    mk (id self) (name self) (description self) (examine_text self)
       (initial_text self) (flags self) (location self) (capacity self)
       (size self) v.

Definition set_flag (flag : ObjectFlag.t) (value : bool) (self : t) : t :=
    if value
    then with_flags (Z.lor (flags self) (ObjectFlag.value flag)) self
    else with_flags (Z.land (flags self) (Z.lnot (ObjectFlag.value flag))) self.
End GameObject.

Module Room.
Record t := mk {
    id : string;
    name : string;
    description : string;
    flags : Z;
    exits : gmap Direction.t string
  }.

Definition has_flag (self : t) (flag : RoomFlag.t) : bool :=
    negb (Z.land (flags self) (RoomFlag.value flag) =? 0).

Definition with_description (v : string) (self : t) : t :=
    mk (id self) (name self) v (flags self) (exits self).

Definition with_flags (v : Z) (self : t) : t :=
    mk (id self) (name self) (description self) v (exits self).

Definition with_exits (v : gmap Direction.t string) (self : t) : t :=
    mk (id self) (name self) (description self) (flags self) v.

Definition set_flag (flag : RoomFlag.t) (value : bool) (self : t) : t :=
    if value
    then with_flags (Z.lor (flags self) (RoomFlag.value flag)) self
    else with_flags (Z.land (flags self) (Z.lnot (RoomFlag.value flag))) self.
End Room.

Module Actor.
Record t := mk {
    id : string;
    name : string;
    description : string;
    location : option string;
    health : Z;
    hostile : bool;
    active : bool;
    messages : gmap string string
  }.

Definition with_location (v : option string) (self : t) : t :=
    mk (id self) (name self) (description self) v (health self)
       (hostile self) (active self) (messages self).

Definition with_health (v : Z) (self : t) : t :=
    mk (id self) (name self) (description self) (location self) v
       (hostile self) (active self) (messages self).

Definition with_active (v : bool) (self : t) : t :=
    mk (id self) (name self) (description self) (location self)
       (health self) (hostile self) v (messages self).
End Actor.

Module ParsedCommand.
Record t := mk {
    verb : option VerbType.t;
    direct_object : option string;
    indirect_object : option string;
    direction : option Direction.t;
    raw_input : string
  }.

Definition with_verb (v : option VerbType.t) (self : t) : t :=
    mk v (direct_object self) (indirect_object self) (direction self)
       (raw_input self).

Definition with_direct_object (v : option string) (self : t) : t :=
    mk (verb self) v (indirect_object self) (direction self) (raw_input self).

Definition with_direction (v : option Direction.t) (self : t) : t :=
    mk (verb self) (direct_object self) (indirect_object self) v
       (raw_input self).
End ParsedCommand.
(** ** The game object

    One field per attribute that [ZorkGame.__init__] creates, under the
    attribute's name. *)

Record ZorkGame := mkZorkGame {
  player_name : string;
  rooms : gmap string Room.t;
  objects : list (string * GameObject.t);
  actors : list (string * Actor.t);
  current_room : string;
  player_inventory : list string;
  score : Z;
  moves : Z;
  verbose : bool;
  game_over : bool;
  visited_rooms : gset string;
  deaths : Z;
  lamp_on : bool;
  lamp_life : Z;
  grating_unlocked : bool;
  trap_door_open : bool;
  rainbow_solid : bool;
  dam_open : bool;
  loud_room_level : Z;
  coffin_open : bool;
  bell_rung : bool;
  candles_lit : bool;
  book_read : bool;
  spirits_released : bool;
  cyclops_fled : bool;
  mirror_broken : bool;
  troll_payment : bool;
  thief_here : bool;
  treasures_deposited : Z
}.

(** Attribute assignment, [self.f = v], one function per attribute. *)

Definition set_player_name (v : string) (self : ZorkGame) : ZorkGame :=
  mkZorkGame v (rooms self) (objects self) (actors self) (current_room self)
    (player_inventory self) (score self) (moves self) (verbose self)
    (game_over self) (visited_rooms self) (deaths self) (lamp_on self)
    (lamp_life self) (grating_unlocked self) (trap_door_open self)
    (rainbow_solid self) (dam_open self) (loud_room_level self) (coffin_open
    self) (bell_rung self) (candles_lit self) (book_read self)
    (spirits_released self) (cyclops_fled self) (mirror_broken self)
    (troll_payment self) (thief_here self) (treasures_deposited self).

Definition set_rooms (v : gmap string Room.t) (self : ZorkGame) : ZorkGame :=
  mkZorkGame (player_name self) v (objects self) (actors self) (current_room
    self) (player_inventory self) (score self) (moves self) (verbose self)
    (game_over self) (visited_rooms self) (deaths self) (lamp_on self)
    (lamp_life self) (grating_unlocked self) (trap_door_open self)
    (rainbow_solid self) (dam_open self) (loud_room_level self) (coffin_open
    self) (bell_rung self) (candles_lit self) (book_read self)
    (spirits_released self) (cyclops_fled self) (mirror_broken self)
    (troll_payment self) (thief_here self) (treasures_deposited self).

Definition set_objects (v : list (string * GameObject.t)) (self : ZorkGame) : ZorkGame :=
  mkZorkGame (player_name self) (rooms self) v (actors self) (current_room
    self) (player_inventory self) (score self) (moves self) (verbose self)
    (game_over self) (visited_rooms self) (deaths self) (lamp_on self)
    (lamp_life self) (grating_unlocked self) (trap_door_open self)
    (rainbow_solid self) (dam_open self) (loud_room_level self) (coffin_open
    self) (bell_rung self) (candles_lit self) (book_read self)
    (spirits_released self) (cyclops_fled self) (mirror_broken self)
    (troll_payment self) (thief_here self) (treasures_deposited self).

Definition set_actors (v : list (string * Actor.t)) (self : ZorkGame) : ZorkGame :=
  mkZorkGame (player_name self) (rooms self) (objects self) v (current_room
    self) (player_inventory self) (score self) (moves self) (verbose self)
    (game_over self) (visited_rooms self) (deaths self) (lamp_on self)
    (lamp_life self) (grating_unlocked self) (trap_door_open self)
    (rainbow_solid self) (dam_open self) (loud_room_level self) (coffin_open
    self) (bell_rung self) (candles_lit self) (book_read self)
    (spirits_released self) (cyclops_fled self) (mirror_broken self)
    (troll_payment self) (thief_here self) (treasures_deposited self).

Definition set_current_room (v : string) (self : ZorkGame) : ZorkGame :=
  mkZorkGame (player_name self) (rooms self) (objects self) (actors self) v
    (player_inventory self) (score self) (moves self) (verbose self)
    (game_over self) (visited_rooms self) (deaths self) (lamp_on self)
    (lamp_life self) (grating_unlocked self) (trap_door_open self)
    (rainbow_solid self) (dam_open self) (loud_room_level self) (coffin_open
    self) (bell_rung self) (candles_lit self) (book_read self)
    (spirits_released self) (cyclops_fled self) (mirror_broken self)
    (troll_payment self) (thief_here self) (treasures_deposited self).

Definition set_player_inventory (v : list string) (self : ZorkGame) : ZorkGame :=
  mkZorkGame (player_name self) (rooms self) (objects self) (actors self)
    (current_room self) v (score self) (moves self) (verbose self)
    (game_over self) (visited_rooms self) (deaths self) (lamp_on self)
    (lamp_life self) (grating_unlocked self) (trap_door_open self)
    (rainbow_solid self) (dam_open self) (loud_room_level self) (coffin_open
    self) (bell_rung self) (candles_lit self) (book_read self)
    (spirits_released self) (cyclops_fled self) (mirror_broken self)
    (troll_payment self) (thief_here self) (treasures_deposited self).

Definition set_score (v : Z) (self : ZorkGame) : ZorkGame :=
  mkZorkGame (player_name self) (rooms self) (objects self) (actors self)
    (current_room self) (player_inventory self) v (moves self) (verbose
    self) (game_over self) (visited_rooms self) (deaths self) (lamp_on self)
    (lamp_life self) (grating_unlocked self) (trap_door_open self)
    (rainbow_solid self) (dam_open self) (loud_room_level self) (coffin_open
    self) (bell_rung self) (candles_lit self) (book_read self)
    (spirits_released self) (cyclops_fled self) (mirror_broken self)
    (troll_payment self) (thief_here self) (treasures_deposited self).

Definition set_moves (v : Z) (self : ZorkGame) : ZorkGame :=
  mkZorkGame (player_name self) (rooms self) (objects self) (actors self)
    (current_room self) (player_inventory self) (score self) v (verbose
    self) (game_over self) (visited_rooms self) (deaths self) (lamp_on self)
    (lamp_life self) (grating_unlocked self) (trap_door_open self)
    (rainbow_solid self) (dam_open self) (loud_room_level self) (coffin_open
    self) (bell_rung self) (candles_lit self) (book_read self)
    (spirits_released self) (cyclops_fled self) (mirror_broken self)
    (troll_payment self) (thief_here self) (treasures_deposited self).

Definition set_verbose (v : bool) (self : ZorkGame) : ZorkGame :=
  mkZorkGame (player_name self) (rooms self) (objects self) (actors self)
    (current_room self) (player_inventory self) (score self) (moves self) v
    (game_over self) (visited_rooms self) (deaths self) (lamp_on self)
    (lamp_life self) (grating_unlocked self) (trap_door_open self)
    (rainbow_solid self) (dam_open self) (loud_room_level self) (coffin_open
    self) (bell_rung self) (candles_lit self) (book_read self)
    (spirits_released self) (cyclops_fled self) (mirror_broken self)
    (troll_payment self) (thief_here self) (treasures_deposited self).

Definition set_game_over (v : bool) (self : ZorkGame) : ZorkGame :=
  mkZorkGame (player_name self) (rooms self) (objects self) (actors self)
    (current_room self) (player_inventory self) (score self) (moves self)
    (verbose self) v (visited_rooms self) (deaths self) (lamp_on self)
    (lamp_life self) (grating_unlocked self) (trap_door_open self)
    (rainbow_solid self) (dam_open self) (loud_room_level self) (coffin_open
    self) (bell_rung self) (candles_lit self) (book_read self)
    (spirits_released self) (cyclops_fled self) (mirror_broken self)
    (troll_payment self) (thief_here self) (treasures_deposited self).

Definition set_visited_rooms (v : gset string) (self : ZorkGame) : ZorkGame :=
  mkZorkGame (player_name self) (rooms self) (objects self) (actors self)
    (current_room self) (player_inventory self) (score self) (moves self)
    (verbose self) (game_over self) v (deaths self) (lamp_on self)
    (lamp_life self) (grating_unlocked self) (trap_door_open self)
    (rainbow_solid self) (dam_open self) (loud_room_level self) (coffin_open
    self) (bell_rung self) (candles_lit self) (book_read self)
    (spirits_released self) (cyclops_fled self) (mirror_broken self)
    (troll_payment self) (thief_here self) (treasures_deposited self).

Definition set_deaths (v : Z) (self : ZorkGame) : ZorkGame :=
  mkZorkGame (player_name self) (rooms self) (objects self) (actors self)
    (current_room self) (player_inventory self) (score self) (moves self)
    (verbose self) (game_over self) (visited_rooms self) v (lamp_on self)
    (lamp_life self) (grating_unlocked self) (trap_door_open self)
    (rainbow_solid self) (dam_open self) (loud_room_level self) (coffin_open
    self) (bell_rung self) (candles_lit self) (book_read self)
    (spirits_released self) (cyclops_fled self) (mirror_broken self)
    (troll_payment self) (thief_here self) (treasures_deposited self).

Definition set_lamp_on (v : bool) (self : ZorkGame) : ZorkGame :=
  mkZorkGame (player_name self) (rooms self) (objects self) (actors self)
    (current_room self) (player_inventory self) (score self) (moves self)
    (verbose self) (game_over self) (visited_rooms self) (deaths self) v
    (lamp_life self) (grating_unlocked self) (trap_door_open self)
    (rainbow_solid self) (dam_open self) (loud_room_level self) (coffin_open
    self) (bell_rung self) (candles_lit self) (book_read self)
    (spirits_released self) (cyclops_fled self) (mirror_broken self)
    (troll_payment self) (thief_here self) (treasures_deposited self).

Definition set_lamp_life (v : Z) (self : ZorkGame) : ZorkGame :=
  mkZorkGame (player_name self) (rooms self) (objects self) (actors self)
    (current_room self) (player_inventory self) (score self) (moves self)
    (verbose self) (game_over self) (visited_rooms self) (deaths self)
    (lamp_on self) v (grating_unlocked self) (trap_door_open self)
    (rainbow_solid self) (dam_open self) (loud_room_level self) (coffin_open
    self) (bell_rung self) (candles_lit self) (book_read self)
    (spirits_released self) (cyclops_fled self) (mirror_broken self)
    (troll_payment self) (thief_here self) (treasures_deposited self).

Definition set_grating_unlocked (v : bool) (self : ZorkGame) : ZorkGame :=
  mkZorkGame (player_name self) (rooms self) (objects self) (actors self)
    (current_room self) (player_inventory self) (score self) (moves self)
    (verbose self) (game_over self) (visited_rooms self) (deaths self)
    (lamp_on self) (lamp_life self) v (trap_door_open self) (rainbow_solid
    self) (dam_open self) (loud_room_level self) (coffin_open self)
    (bell_rung self) (candles_lit self) (book_read self) (spirits_released
    self) (cyclops_fled self) (mirror_broken self) (troll_payment self)
    (thief_here self) (treasures_deposited self).

Definition set_trap_door_open (v : bool) (self : ZorkGame) : ZorkGame :=
  mkZorkGame (player_name self) (rooms self) (objects self) (actors self)
    (current_room self) (player_inventory self) (score self) (moves self)
    (verbose self) (game_over self) (visited_rooms self) (deaths self)
    (lamp_on self) (lamp_life self) (grating_unlocked self) v (rainbow_solid
    self) (dam_open self) (loud_room_level self) (coffin_open self)
    (bell_rung self) (candles_lit self) (book_read self) (spirits_released
    self) (cyclops_fled self) (mirror_broken self) (troll_payment self)
    (thief_here self) (treasures_deposited self).

Definition set_rainbow_solid (v : bool) (self : ZorkGame) : ZorkGame :=
  mkZorkGame (player_name self) (rooms self) (objects self) (actors self)
    (current_room self) (player_inventory self) (score self) (moves self)
    (verbose self) (game_over self) (visited_rooms self) (deaths self)
    (lamp_on self) (lamp_life self) (grating_unlocked self) (trap_door_open
    self) v (dam_open self) (loud_room_level self) (coffin_open self)
    (bell_rung self) (candles_lit self) (book_read self) (spirits_released
    self) (cyclops_fled self) (mirror_broken self) (troll_payment self)
    (thief_here self) (treasures_deposited self).

Definition set_dam_open (v : bool) (self : ZorkGame) : ZorkGame :=
  mkZorkGame (player_name self) (rooms self) (objects self) (actors self)
    (current_room self) (player_inventory self) (score self) (moves self)
    (verbose self) (game_over self) (visited_rooms self) (deaths self)
    (lamp_on self) (lamp_life self) (grating_unlocked self) (trap_door_open
    self) (rainbow_solid self) v (loud_room_level self) (coffin_open self)
    (bell_rung self) (candles_lit self) (book_read self) (spirits_released
    self) (cyclops_fled self) (mirror_broken self) (troll_payment self)
    (thief_here self) (treasures_deposited self).

Definition set_loud_room_level (v : Z) (self : ZorkGame) : ZorkGame :=
  mkZorkGame (player_name self) (rooms self) (objects self) (actors self)
    (current_room self) (player_inventory self) (score self) (moves self)
    (verbose self) (game_over self) (visited_rooms self) (deaths self)
    (lamp_on self) (lamp_life self) (grating_unlocked self) (trap_door_open
    self) (rainbow_solid self) (dam_open self) v (coffin_open self)
    (bell_rung self) (candles_lit self) (book_read self) (spirits_released
    self) (cyclops_fled self) (mirror_broken self) (troll_payment self)
    (thief_here self) (treasures_deposited self).

Definition set_coffin_open (v : bool) (self : ZorkGame) : ZorkGame :=
  mkZorkGame (player_name self) (rooms self) (objects self) (actors self)
    (current_room self) (player_inventory self) (score self) (moves self)
    (verbose self) (game_over self) (visited_rooms self) (deaths self)
    (lamp_on self) (lamp_life self) (grating_unlocked self) (trap_door_open
    self) (rainbow_solid self) (dam_open self) (loud_room_level self) v
    (bell_rung self) (candles_lit self) (book_read self) (spirits_released
    self) (cyclops_fled self) (mirror_broken self) (troll_payment self)
    (thief_here self) (treasures_deposited self).

Definition set_bell_rung (v : bool) (self : ZorkGame) : ZorkGame :=
  mkZorkGame (player_name self) (rooms self) (objects self) (actors self)
    (current_room self) (player_inventory self) (score self) (moves self)
    (verbose self) (game_over self) (visited_rooms self) (deaths self)
    (lamp_on self) (lamp_life self) (grating_unlocked self) (trap_door_open
    self) (rainbow_solid self) (dam_open self) (loud_room_level self)
    (coffin_open self) v (candles_lit self) (book_read self)
    (spirits_released self) (cyclops_fled self) (mirror_broken self)
    (troll_payment self) (thief_here self) (treasures_deposited self).

Definition set_candles_lit (v : bool) (self : ZorkGame) : ZorkGame :=
  mkZorkGame (player_name self) (rooms self) (objects self) (actors self)
    (current_room self) (player_inventory self) (score self) (moves self)
    (verbose self) (game_over self) (visited_rooms self) (deaths self)
    (lamp_on self) (lamp_life self) (grating_unlocked self) (trap_door_open
    self) (rainbow_solid self) (dam_open self) (loud_room_level self)
    (coffin_open self) (bell_rung self) v (book_read self) (spirits_released
    self) (cyclops_fled self) (mirror_broken self) (troll_payment self)
    (thief_here self) (treasures_deposited self).

Definition set_book_read (v : bool) (self : ZorkGame) : ZorkGame :=
  mkZorkGame (player_name self) (rooms self) (objects self) (actors self)
    (current_room self) (player_inventory self) (score self) (moves self)
    (verbose self) (game_over self) (visited_rooms self) (deaths self)
    (lamp_on self) (lamp_life self) (grating_unlocked self) (trap_door_open
    self) (rainbow_solid self) (dam_open self) (loud_room_level self)
    (coffin_open self) (bell_rung self) (candles_lit self) v
    (spirits_released self) (cyclops_fled self) (mirror_broken self)
    (troll_payment self) (thief_here self) (treasures_deposited self).

Definition set_spirits_released (v : bool) (self : ZorkGame) : ZorkGame :=
  mkZorkGame (player_name self) (rooms self) (objects self) (actors self)
    (current_room self) (player_inventory self) (score self) (moves self)
    (verbose self) (game_over self) (visited_rooms self) (deaths self)
    (lamp_on self) (lamp_life self) (grating_unlocked self) (trap_door_open
    self) (rainbow_solid self) (dam_open self) (loud_room_level self)
    (coffin_open self) (bell_rung self) (candles_lit self) (book_read self)
    v (cyclops_fled self) (mirror_broken self) (troll_payment self)
    (thief_here self) (treasures_deposited self).

Definition set_cyclops_fled (v : bool) (self : ZorkGame) : ZorkGame :=
  mkZorkGame (player_name self) (rooms self) (objects self) (actors self)
    (current_room self) (player_inventory self) (score self) (moves self)
    (verbose self) (game_over self) (visited_rooms self) (deaths self)
    (lamp_on self) (lamp_life self) (grating_unlocked self) (trap_door_open
    self) (rainbow_solid self) (dam_open self) (loud_room_level self)
    (coffin_open self) (bell_rung self) (candles_lit self) (book_read self)
    (spirits_released self) v (mirror_broken self) (troll_payment self)
    (thief_here self) (treasures_deposited self).

Definition set_mirror_broken (v : bool) (self : ZorkGame) : ZorkGame :=
  mkZorkGame (player_name self) (rooms self) (objects self) (actors self)
    (current_room self) (player_inventory self) (score self) (moves self)
    (verbose self) (game_over self) (visited_rooms self) (deaths self)
    (lamp_on self) (lamp_life self) (grating_unlocked self) (trap_door_open
    self) (rainbow_solid self) (dam_open self) (loud_room_level self)
    (coffin_open self) (bell_rung self) (candles_lit self) (book_read self)
    (spirits_released self) (cyclops_fled self) v (troll_payment self)
    (thief_here self) (treasures_deposited self).

Definition set_troll_payment (v : bool) (self : ZorkGame) : ZorkGame :=
  mkZorkGame (player_name self) (rooms self) (objects self) (actors self)
    (current_room self) (player_inventory self) (score self) (moves self)
    (verbose self) (game_over self) (visited_rooms self) (deaths self)
    (lamp_on self) (lamp_life self) (grating_unlocked self) (trap_door_open
    self) (rainbow_solid self) (dam_open self) (loud_room_level self)
    (coffin_open self) (bell_rung self) (candles_lit self) (book_read self)
    (spirits_released self) (cyclops_fled self) (mirror_broken self) v
    (thief_here self) (treasures_deposited self).

Definition set_thief_here (v : bool) (self : ZorkGame) : ZorkGame :=
  mkZorkGame (player_name self) (rooms self) (objects self) (actors self)
    (current_room self) (player_inventory self) (score self) (moves self)
    (verbose self) (game_over self) (visited_rooms self) (deaths self)
    (lamp_on self) (lamp_life self) (grating_unlocked self) (trap_door_open
    self) (rainbow_solid self) (dam_open self) (loud_room_level self)
    (coffin_open self) (bell_rung self) (candles_lit self) (book_read self)
    (spirits_released self) (cyclops_fled self) (mirror_broken self)
    (troll_payment self) v (treasures_deposited self).

Definition set_treasures_deposited (v : Z) (self : ZorkGame) : ZorkGame :=
  mkZorkGame (player_name self) (rooms self) (objects self) (actors self)
    (current_room self) (player_inventory self) (score self) (moves self)
    (verbose self) (game_over self) (visited_rooms self) (deaths self)
    (lamp_on self) (lamp_life self) (grating_unlocked self) (trap_door_open
    self) (rainbow_solid self) (dam_open self) (loud_room_level self)
    (coffin_open self) (bell_rung self) (candles_lit self) (book_read self)
    (spirits_released self) (cyclops_fled self) (mirror_broken self)
    (troll_payment self) (thief_here self) v.
(** ** Save files

    [json.dump] writes, and [json.load] reads back, a JSON object.  Its
    logical schema is modelled, not its text: a record with one optional
    field per key, [None] when the key is absent from the object.  A JSON
    [null] is the inner [None] of a location. *)

Module SaveData.
Record obj_entry := mk_obj {
  o_location : option (option string);
  o_flags : option Z;
  o_value : option Z
}.

Record actor_entry := mk_actor {
  a_location : option (option string);
  a_health : option Z;
  a_active : option bool
}.

Record t := mk {
  player_name : option string;
  current_room : option string;
  inventory : option (list string);
  score : option Z;
  moves : option Z;
  deaths : option Z;
  visited_rooms : option (list string);
  lamp_on : option bool;
  lamp_life : option Z;
  grating_unlocked : option bool;
  trap_door_open : option bool;
  rainbow_solid : option bool;
  dam_open : option bool;
  loud_room_level : option Z;
  coffin_open : option bool;
  bell_rung : option bool;
  candles_lit : option bool;
  book_read : option bool;
  spirits_released : option bool;
  cyclops_fled : option bool;
  mirror_broken : option bool;
  troll_payment : option bool;
  thief_here : option bool;
  treasures_deposited : option Z;
  objects : option (list (string * obj_entry));
  actors : option (list (string * actor_entry))
}.
End SaveData.

(** What [open] finds under a file name. *)
Inductive File :=
| Denied (err : string)      (* [open] raises [OSError] with this text *)
| NotJson (err : string)     (* readable, but [json.load] rejects it *)
| Json (d : SaveData.t).

(** ** Exceptions *)

Inductive PyExc :=
| KeyError (key : string)
| ValueError (msg : string)
| EOFError
| FileNotFoundError (filename : string)
| OSError (msg : string)
| JSONDecodeError (msg : string).

(** [str(e)], as the f-strings of [_save] and [_restore] print it *)
Definition str_of_exc (e : PyExc) : string :=
  match e with
  | KeyError key => "'" +:+ key +:+ "'"
  | ValueError msg => msg
  | EOFError => ""
  | FileNotFoundError filename =>
      "[Errno 2] No such file or directory: '" +:+ filename +:+ "'"
  | OSError msg => msg
  | JSONDecodeError msg => msg
  end.

(** ** The machine around the game

    [stdout] collects what [print] and the prompts of [input] write, one
    entry per call; [stdin] holds the lines still to be read; [files] is the
    disk; [draws] are the numbers the random generator will produce, each
    reduced into the requested range when it is consumed (an exhausted list
    keeps producing 0). *)

Record Sys := mkSys {
  game : ZorkGame;
  stdout : list string;
  stdin : list string;
  files : gmap string File;
  draws : list Z
}.

Inductive Res (A : Type) :=
| Ok (a : A) (s : Sys)
| Raise (e : PyExc) (s : Sys).
Arguments Ok {A} a s.
Arguments Raise {A} e s.

Definition M (A : Type) : Type := Sys -> Res A.

Definition ret {A} (a : A) : M A := fun s => Ok a s.

Definition bind {A B} (m : M A) (k : A -> M B) : M B :=
  fun s => match m s with
           | Ok a s' => k a s'
           | Raise e s' => Raise e s'
           end.

Definition raise {A} (e : PyExc) : M A := fun s => Raise e s.

(** [try: m  except Exception as e: h e] *)
Definition try_except {A} (m : M A) (h : PyExc -> M A) : M A :=
  fun s => match m s with
           | Ok a s' => Ok a s'
           | Raise e s' => h e s'
           end.

Declare Scope py_scope.
Delimit Scope py_scope with py.
Notation "x <- m ;; k" := (bind m (fun x => k))
  (at level 100, m at next level, k at level 200, right associativity) : py_scope.
Notation "m ;; k" := (bind m (fun _ => k))
  (at level 100, k at level 200, right associativity) : py_scope.
Local Open Scope py_scope.

(** the final state of a run, however it ended *)
Definition final {A} (r : Res A) : Sys :=
  match r with Ok _ s => s | Raise _ s => s end.

(** the state of [self] *)
Definition self : M ZorkGame := fun s => Ok (game s) s.

Definition assign (f : ZorkGame -> ZorkGame) : M unit :=
  fun s => Ok tt (mkSys (f (game s)) (stdout s) (stdin s) (files s) (draws s)).

Definition print (line : string) : M unit :=
  fun s => Ok tt (mkSys (game s) (stdout s ++ [line]) (stdin s) (files s) (draws s)).

(** [input(prompt)]: the prompt is written, then a line is read; at the end
    of the input [EOFError] is raised. *)
Definition input (prompt : string) : M string :=
  fun s =>
    let s' := mkSys (game s) (stdout s ++ [prompt]) (stdin s) (files s) (draws s) in
    match stdin s with
    | [] => Raise EOFError s'
    | line :: rest =>
        Ok line (mkSys (game s) (stdout s ++ [prompt]) rest (files s) (draws s))
    end.

(** [random.randint(a, b)], for [a <= b] *)
Definition randint (a b : Z) : M Z :=
  fun s =>
    match draws s with
    | [] => Ok a s
    | d :: rest =>
        Ok (a + d mod (b - a + 1))
           (mkSys (game s) (stdout s) (stdin s) (files s) rest)
    end.

(** [random.choice(l)], for a non-empty [l] *)
Definition choice (l : list string) : M string :=
  fun s =>
    match draws s with
    | [] => Ok (nth 0 l "") s
    | d :: rest =>
        Ok (nth (Z.to_nat (d mod Z.of_nat (length l))) l "")
           (mkSys (game s) (stdout s) (stdin s) (files s) rest)
    end.

(** [json.load(open(filename, 'r'))] *)
Definition read_json (filename : string) : M SaveData.t :=
  fun s =>
    match files s !! filename with
    | None => Raise (FileNotFoundError filename) s
    | Some (Denied err) => Raise (OSError err) s
    | Some (NotJson err) => Raise (JSONDecodeError err) s
    | Some (Json d) => Ok d s
    end.

(** [json.dump(d, open(filename, 'w'))] *)
Definition write_json (filename : string) (d : SaveData.t) : M unit :=
  fun s =>
    match files s !! filename with
    | Some (Denied err) => Raise (OSError err) s
    | _ => Ok tt (mkSys (game s) (stdout s) (stdin s)
                        (<[filename := Json d]> (files s)) (draws s))
    end.

(** [d[key]] on a decoded JSON object *)
Definition field {A} (key : string) (o : option A) : M A :=
  match o with
  | Some a => ret a
  | None => raise (KeyError key)
  end.

(** [self.rooms[k]], [self.objects[k]], [self.actors[k]] *)
Definition room_at (k : string) : M Room.t :=
  g <- self ;;
  match rooms g !! k with
  | Some r => ret r
  | None => raise (KeyError k)
  end.

Definition object_at (k : string) : M GameObject.t :=
  g <- self ;;
  match OrderedDict.get k (objects g) with
  | Some o => ret o
  | None => raise (KeyError k)
  end.

Definition actor_at (k : string) : M Actor.t :=
  g <- self ;;
  match OrderedDict.get k (actors g) with
  | Some a => ret a
  | None => raise (KeyError k)
  end.

(** Mutation of an entity reached through its dictionary:
    [self.objects[k].attr = ...] and the like. *)
Definition update_object (k : string) (f : GameObject.t -> GameObject.t) : M unit :=
  o <- object_at k ;;
  assign (fun g => set_objects (OrderedDict.set k (f o) (objects g)) g).

Definition update_actor (k : string) (f : Actor.t -> Actor.t) : M unit :=
  a <- actor_at k ;;
  assign (fun g => set_actors (OrderedDict.set k (f a) (actors g)) g).

Definition update_room (k : string) (f : Room.t -> Room.t) : M unit :=
  r <- room_at k ;;
  assign (fun g => set_rooms (<[k := f r]> (rooms g)) g).

(** [del self.objects[k]] *)
Definition del_object (k : string) : M unit :=
  _ <- object_at k ;;
  assign (fun g => set_objects (OrderedDict.del k (objects g)) g).

(** [self.player_inventory.remove(x)] *)
Definition inventory_remove (x : string) : M unit :=
  g <- self ;;
  match Py.remove x (player_inventory g) with
  | Some l => assign (set_player_inventory l)
  | None => raise (ValueError "list.remove(x): x not in list")
  end.

(** [self.rooms[k].exits[d] = target] and [del self.rooms[k].exits[d]] *)
Definition set_exit (k : string) (d : Direction.t) (target : string) : M unit :=
  update_room k (fun r => Room.with_exits (<[d := target]> (Room.exits r)) r).

Definition del_exit (k : string) (d : Direction.t) : M unit :=
  r <- room_at k ;;
  match Room.exits r !! d with
  | Some _ => update_room k (fun r => Room.with_exits (delete d (Room.exits r)) r)
  | None => raise (KeyError "Direction")
  end.
(** ** The world

    The seed data of [_init_rooms], [_init_objects] and [_init_actors], one
    entry per assignment [self.rooms[k] = Room(...)], in source order. *)

Definition room_assignments : list (string * Room.t) :=
  [ ("west_of_house",
     Room.mk "west_of_house" "West of House"
       "You are standing in an open field west of a white house, with a boarded front door."
       (Z.lor (RoomFlag.value RoomFlag.LIT) (RoomFlag.value RoomFlag.NOPIRATE))
       (Py.dict [(Direction.NORTH, "north_of_house"); (Direction.SOUTH, "south_of_house"); (Direction.WEST, "forest_1"); (Direction.EAST, "west_of_house")]));
      ("north_of_house",
     Room.mk "north_of_house" "North of House"
       "You are facing the north side of a white house. There is no door here, and all the windows are boarded up. To the north a narrow path winds through the trees."
       (Z.lor (RoomFlag.value RoomFlag.LIT) (RoomFlag.value RoomFlag.NOPIRATE))
       (Py.dict [(Direction.WEST, "west_of_house"); (Direction.EAST, "behind_house"); (Direction.NORTH, "forest_path")]));
      ("behind_house",
     Room.mk "behind_house" "Behind House"
       "You are behind the white house. A path leads into the forest to the east. In one corner of the house there is a small window which is slightly ajar."
       (Z.lor (RoomFlag.value RoomFlag.LIT) (RoomFlag.value RoomFlag.NOPIRATE))
       (Py.dict [(Direction.NORTH, "north_of_house"); (Direction.SOUTH, "south_of_house"); (Direction.EAST, "clearing"); (Direction.WEST, "kitchen"); (Direction.IN, "kitchen")]));
      ("south_of_house",
     Room.mk "south_of_house" "South of House"
       "You are facing the south side of a white house. There is no door here, and all the windows are boarded."
       (Z.lor (RoomFlag.value RoomFlag.LIT) (RoomFlag.value RoomFlag.NOPIRATE))
       (Py.dict [(Direction.WEST, "west_of_house"); (Direction.EAST, "behind_house"); (Direction.SOUTH, "forest_1")]));
      ("kitchen",
     Room.mk "kitchen" "Kitchen"
       "You are in the kitchen of the white house. A table seems to have been used recently for the preparation of food. A passage leads to the west and a dark staircase can be seen leading upward. A dark chimney leads down and to the east is a small window which is open."
       (Z.lor (RoomFlag.value RoomFlag.LIT) (RoomFlag.value RoomFlag.NOPIRATE))
       (Py.dict [(Direction.EAST, "behind_house"); (Direction.WEST, "living_room"); (Direction.UP, "attic"); (Direction.DOWN, "studio"); (Direction.OUT, "behind_house")]));
      ("living_room",
     Room.mk "living_room" "Living Room"
       "You are in the living room. There is a doorway to the east, a wooden door with strange gothic lettering to the west, which appears to be nailed shut, a trophy case, and a large oriental rug in the center of the room."
       (Z.lor (RoomFlag.value RoomFlag.LIT) (RoomFlag.value RoomFlag.NOPIRATE))
       (Py.dict [(Direction.EAST, "kitchen"); (Direction.WEST, "strange_passage")]));
      ("attic",
     Room.mk "attic" "Attic"
       "This is the attic. The only exit is a stairway leading down."
       (Z.lor (RoomFlag.value RoomFlag.LIT) (RoomFlag.value RoomFlag.NOPIRATE))
       (Py.dict [(Direction.DOWN, "kitchen")]));
      ("forest_1",
     Room.mk "forest_1" "Forest"
       "This is a forest, with trees in all directions. To the east, there appears to be sunlight."
       (Z.lor (RoomFlag.value RoomFlag.LIT) (RoomFlag.value RoomFlag.NOPIRATE))
       (Py.dict [(Direction.NORTH, "clearing"); (Direction.EAST, "forest_path"); (Direction.SOUTH, "forest_3"); (Direction.WEST, "forest_1"); (Direction.UP, "up_tree")]));
      ("forest_path",
     Room.mk "forest_path" "Forest Path"
       "This is a path winding through a dimly lit forest. The path heads north-south here. One particularly large tree with some low branches stands at the edge of the path."
       (Z.lor (RoomFlag.value RoomFlag.LIT) (RoomFlag.value RoomFlag.NOPIRATE))
       (Py.dict [(Direction.SOUTH, "north_of_house"); (Direction.NORTH, "clearing"); (Direction.UP, "up_tree")]));
      ("up_tree",
     Room.mk "up_tree" "Up a Tree"
       "You are about 10 feet above the ground nestled among some large branches. The nearest branch above you is above your reach."
       (Z.lor (RoomFlag.value RoomFlag.LIT) (RoomFlag.value RoomFlag.NOPIRATE))
       (Py.dict [(Direction.DOWN, "forest_path")]));
      ("forest_2",
     Room.mk "forest_2" "Forest"
       "This is a dimly lit forest, with large trees all around."
       (Z.lor (RoomFlag.value RoomFlag.LIT) (RoomFlag.value RoomFlag.NOPIRATE))
       (Py.dict [(Direction.SOUTH, "clearing"); (Direction.NORTH, "clearing"); (Direction.EAST, "canyon_view"); (Direction.WEST, "forest_3")]));
      ("forest_3",
     Room.mk "forest_3" "Forest"
       "This is a dimly lit forest, with large trees all around."
       (Z.lor (RoomFlag.value RoomFlag.LIT) (RoomFlag.value RoomFlag.NOPIRATE))
       (Py.dict [(Direction.NORTH, "south_of_house"); (Direction.WEST, "forest_1"); (Direction.EAST, "forest_2"); (Direction.SOUTH, "forest_3")]));
      ("clearing",
     Room.mk "clearing" "Clearing"
       "You are in a clearing, with a forest surrounding you on all sides. A path leads south."
       (Z.lor (RoomFlag.value RoomFlag.LIT) (RoomFlag.value RoomFlag.NOPIRATE))
       (Py.dict [(Direction.SOUTH, "forest_path"); (Direction.NORTH, "forest_2"); (Direction.EAST, "canyon_view"); (Direction.WEST, "behind_house"); (Direction.DOWN, "grating_room")]));
      ("canyon_view",
     Room.mk "canyon_view" "Canyon View"
       "You are at the top of the Great Canyon on its west side. From here there is a marvelous view of the canyon and parts of the Frigid River upstream. Across the canyon, the walls of the White Cliffs join the mighty ramparts of the Flathead Mountains to the east. Following the Canyon upstream to the north, Aragain Falls may be seen, complete with rainbow. The mighty Frigid River flows out from a great dark cavern. To the west and south can be seen an immense forest, stretching for miles around. A path leads northwest. It is possible to climb down into the canyon from here."
       (Z.lor (RoomFlag.value RoomFlag.LIT) (RoomFlag.value RoomFlag.NOPIRATE))
       (Py.dict [(Direction.WEST, "forest_2"); (Direction.DOWN, "rocky_ledge"); (Direction.NW, "clearing")]));
      ("rocky_ledge",
     Room.mk "rocky_ledge" "Rocky Ledge"
       "You are on a ledge about halfway up the wall of the river canyon. You can see from here that the main flow from Aragain Falls twists along a passage which it is impossible for you to enter. Below you is the canyon bottom. Above you is more cliff, which appears unclimbable."
       (RoomFlag.value RoomFlag.LIT)
       (Py.dict [(Direction.UP, "canyon_view"); (Direction.DOWN, "canyon_bottom")]));
      ("canyon_bottom",
     Room.mk "canyon_bottom" "Canyon Bottom"
       "You are beneath the walls of the river canyon which may be climbable here. The lesser part of the runoff of Aragain Falls flows by below. To the north is a narrow path."
       (RoomFlag.value RoomFlag.LIT)
       (Py.dict [(Direction.UP, "rocky_ledge"); (Direction.NORTH, "end_of_rainbow")]));
      ("end_of_rainbow",
     Room.mk "end_of_rainbow" "End of Rainbow"
       "You are on a small, rocky beach on the continuation of the Frigid River past the Falls. The beach is narrow due to the presence of the White Cliffs. The river canyon opens here and sunlight shines in from above. A rainbow crosses over the falls to the east and a narrow path continues to the southwest."
       (Z.lor (RoomFlag.value RoomFlag.LIT) (RoomFlag.value RoomFlag.ONWATER))
       (Py.dict [(Direction.SW, "canyon_bottom"); (Direction.EAST, "on_the_rainbow")]));
      ("on_the_rainbow",
     Room.mk "on_the_rainbow" "On the Rainbow"
       "You are on top of a rainbow (I bet you never thought you would walk on a rainbow), with a magnificent view of the Falls. The rainbow travels east-west here."
       (RoomFlag.value RoomFlag.LIT)
       (Py.dict [(Direction.WEST, "end_of_rainbow"); (Direction.EAST, "aragain_falls")]));
      ("aragain_falls",
     Room.mk "aragain_falls" "Aragain Falls"
       "You are at the top of Aragain Falls, an enormous waterfall with a drop of about 150 feet. The only safe way down is on the west side of the falls."
       (Z.lor (RoomFlag.value RoomFlag.LIT) (RoomFlag.value RoomFlag.ONWATER))
       (Py.dict [(Direction.WEST, "on_the_rainbow"); (Direction.UP, "on_the_rainbow"); (Direction.DOWN, "end_of_rainbow")]));
      ("cellar",
     Room.mk "cellar" "Cellar"
       "You are in a dark and damp cellar with a narrow passageway leading north, and a crawlway to the south. On the west is the bottom of a steep metal ramp which is unclimbable."
       0
       (Py.dict [(Direction.NORTH, "troll_room"); (Direction.SOUTH, "east_of_chasm"); (Direction.WEST, "slide_room"); (Direction.UP, "living_room")]));
      ("troll_room",
     Room.mk "troll_room" "The Troll Room"
       "This is a small room with passages to the east and south and a forbidding hole leading west. Bloodstains and deep scratches (perhaps made by an axe) mar the walls."
       0
       (Py.dict [(Direction.SOUTH, "cellar"); (Direction.EAST, "east_west_passage"); (Direction.WEST, "maze_1")]));
      ("east_west_passage",
     Room.mk "east_west_passage" "East-West Passage"
       "This is a narrow east-west passageway. There is a narrow stairway leading down at the north end of the room."
       0
       (Py.dict [(Direction.EAST, "round_room"); (Direction.WEST, "troll_room"); (Direction.NORTH, "chasm"); (Direction.DOWN, "chasm")]));
      ("round_room",
     Room.mk "round_room" "Round Room"
       "This is a circular stone room with passages in all directions. Several of them have unfortunately been blocked by cave-ins."
       0
       (Py.dict [(Direction.WEST, "east_west_passage"); (Direction.NORTH, "north_south_passage"); (Direction.SOUTH, "narrow_passage"); (Direction.EAST, "loud_room"); (Direction.SE, "engravings_cave")]));
      ("narrow_passage",
     Room.mk "narrow_passage" "Narrow Passage"
       "This is a long and narrow corridor where a long north-south passageway briefly narrows even further."
       0
       (Py.dict [(Direction.NORTH, "round_room"); (Direction.SOUTH, "mirror_room_south")]));
      ("mirror_room_south",
     Room.mk "mirror_room_south" "Mirror Room"
       "You are in a large square room with tall ceilings. On the south wall is an enormous mirror which fills the entire wall. There are exits on the other three sides of the room."
       0
       (Py.dict [(Direction.NORTH, "narrow_passage"); (Direction.WEST, "winding_passage"); (Direction.EAST, "cave_2")]));
      ("cave_2",
     Room.mk "cave_2" "Cave"
       "This is a tiny cave with entrances west and north, and a staircase leading down."
       0
       (Py.dict [(Direction.WEST, "mirror_room_south"); (Direction.NORTH, "mirror_room_north"); (Direction.DOWN, "entrance_to_hades")]));
      ("winding_passage",
     Room.mk "winding_passage" "Winding Passage"
       "This is a winding passage. It seems that there are only exits on the east and north."
       0
       (Py.dict [(Direction.NORTH, "mirror_room_north"); (Direction.EAST, "mirror_room_south")]));
      ("mirror_room_north",
     Room.mk "mirror_room_north" "Mirror Room"
       "You are in a large square room with tall ceilings. On the south wall is an enormous mirror which fills the entire wall. There are exits on the other three sides of the room."
       0
       (Py.dict [(Direction.SOUTH, "winding_passage"); (Direction.WEST, "cold_passage"); (Direction.EAST, "cave_1")]));
      ("cold_passage",
     Room.mk "cold_passage" "Cold Passage"
       "This is a cold and damp corridor where a long east-west passageway turns into a southward path."
       0
       (Py.dict [(Direction.EAST, "mirror_room_north"); (Direction.SOUTH, "slide_room")]));
      ("slide_room",
     Room.mk "slide_room" "Slide Room"
       ("This is a small chamber, which appears to have been part of a coal mine. On the south wall of the chamber the letters " +:+ Py.dq +:+ "Granite Wall" +:+ Py.dq +:+ " are etched in the rock. To the east is a long passage, and there is a steep metal slide twisting downward. To the north is a small opening.")
       0
       (Py.dict [(Direction.NORTH, "cold_passage"); (Direction.EAST, "mine_entrance"); (Direction.DOWN, "cellar")]));
      ("mine_entrance",
     Room.mk "mine_entrance" "Mine Entrance"
       "You are standing at the entrance of what might have been a coal mine. The shaft enters the west wall, and there is another exit on the south end of the room."
       0
       (Py.dict [(Direction.WEST, "slide_room"); (Direction.SOUTH, "squeaky_room")]));
      ("squeaky_room",
     Room.mk "squeaky_room" "Squeaky Room"
       "You are in a small room. Strange squeaky sounds may be heard coming from the darkness at the east end of the room."
       0
       (Py.dict [(Direction.NORTH, "mine_entrance"); (Direction.EAST, "bat_room")]));
      ("bat_room",
     Room.mk "bat_room" "Bat Room"
       "You are in a small room which has doors only to the east and west."
       0
       (Py.dict [(Direction.WEST, "squeaky_room"); (Direction.EAST, "shaft_room")]));
      ("shaft_room",
     Room.mk "shaft_room" "Shaft Room"
       "This is a large room, in the middle of which is a small shaft descending through the floor into darkness below. To the west and the north are exits from this room. Constructed over the top of the shaft is a metal framework to which a heavy iron chain is attached."
       0
       (Py.dict [(Direction.WEST, "bat_room"); (Direction.NORTH, "smelly_room"); (Direction.DOWN, "drafty_room")]));
      ("smelly_room",
     Room.mk "smelly_room" "Smelly Room"
       "This is a small nondescript room. However, from the direction of a small descending staircase a foul odor can be detected. To the south is a narrow tunnel."
       0
       (Py.dict [(Direction.SOUTH, "shaft_room"); (Direction.DOWN, "gas_room")]));
      ("gas_room",
     Room.mk "gas_room" "Gas Room"
       "This is a small room which smells strongly of coal gas. There is a short climb up some stairs and a narrow tunnel leading east."
       0
       (Py.dict [(Direction.UP, "smelly_room"); (Direction.EAST, "coal_mine_1")]));
      ("coal_mine_1",
     Room.mk "coal_mine_1" "Coal Mine"
       "This is a non-descript part of a coal mine."
       0
       (Py.dict [(Direction.WEST, "gas_room"); (Direction.NORTH, "coal_mine_2"); (Direction.EAST, "coal_mine_3"); (Direction.SW, "timber_room")]));
      ("coal_mine_2",
     Room.mk "coal_mine_2" "Coal Mine"
       "This is a non-descript part of a coal mine."
       0
       (Py.dict [(Direction.SOUTH, "coal_mine_1"); (Direction.NORTH, "coal_mine_4"); (Direction.SE, "coal_mine_3")]));
      ("coal_mine_3",
     Room.mk "coal_mine_3" "Coal Mine"
       "This is a non-descript part of a coal mine."
       0
       (Py.dict [(Direction.WEST, "coal_mine_1"); (Direction.EAST, "coal_mine_4"); (Direction.SOUTH, "ladder_top"); (Direction.NW, "coal_mine_2")]));
      ("coal_mine_4",
     Room.mk "coal_mine_4" "Coal Mine"
       "This is a non-descript part of a coal mine."
       0
       (Py.dict [(Direction.SOUTH, "coal_mine_2"); (Direction.WEST, "coal_mine_3"); (Direction.NORTH, "dead_end_coal_mine")]));
      ("dead_end_coal_mine",
     Room.mk "dead_end_coal_mine" "Dead End"
       "You have come to a dead end in the mine."
       0
       (Py.dict [(Direction.SOUTH, "coal_mine_4")]));
      ("ladder_top",
     Room.mk "ladder_top" "Ladder Top"
       "This is a very small room. In the corner is a rickety wooden ladder, leading downward. It might be safe to descend. There is also a staircase leading upward."
       0
       (Py.dict [(Direction.NORTH, "coal_mine_3"); (Direction.DOWN, "ladder_bottom"); (Direction.UP, "coal_mine_3")]));
      ("ladder_bottom",
     Room.mk "ladder_bottom" "Ladder Bottom"
       "This is a rather wide room. On one side is the bottom of a narrow wooden ladder. To the west and the south are passages leaving the room."
       0
       (Py.dict [(Direction.UP, "ladder_top"); (Direction.WEST, "timber_room"); (Direction.SOUTH, "dead_end_mine")]));
      ("dead_end_mine",
     Room.mk "dead_end_mine" "Dead End"
       "You have come to a dead end in the mine."
       0
       (Py.dict [(Direction.NORTH, "ladder_bottom")]));
      ("timber_room",
     Room.mk "timber_room" "Timber Room"
       "This is a long and narrow passage, which is cluttered with broken timbers. A wide passage comes from the east and turns at the west end of the room into a very narrow passageway. From the west comes a strong draft."
       0
       (Py.dict [(Direction.EAST, "ladder_bottom"); (Direction.WEST, "drafty_room"); (Direction.SOUTH, "coal_mine_1")]));
      ("drafty_room",
     Room.mk "drafty_room" "Drafty Room"
       "This is a small drafty room in which is the bottom of a long shaft. To the south is a passageway and to the east a very narrow passage. In the shaft can be seen a heavy iron chain."
       0
       (Py.dict [(Direction.EAST, "timber_room"); (Direction.SOUTH, "machine_room"); (Direction.UP, "shaft_room")]));
      ("machine_room",
     Room.mk "machine_room" "Machine Room"
       ("This is a large, cold room whose sole exit is to the north. In one corner there is a machine which is reminiscent of a clothes dryer. On its face is a switch which is labelled " +:+ Py.dq +:+ "START" +:+ Py.dq +:+ ". The switch does not appear to be manipulatable by any human hand (unless the fingers are about 1/16 by 1/4 inch). On the front of the machine is a large lid, which is closed.")
       0
       (Py.dict [(Direction.NORTH, "drafty_room")]));
      ("cave_1",
     Room.mk "cave_1" "Cave"
       "This is a tiny cave with entrances west and north, and a dark, forbidding staircase leading down."
       0
       (Py.dict [(Direction.WEST, "mirror_room_north"); (Direction.NORTH, "twisting_passage"); (Direction.DOWN, "entrance_to_hades")]));
      ("twisting_passage",
     Room.mk "twisting_passage" "Twisting Passage"
       "This is a winding passage. It seems that there are only exits on the east and north."
       0
       (Py.dict [(Direction.NORTH, "mirror_room_north"); (Direction.SOUTH, "cave_1")]));
      ("north_south_passage",
     Room.mk "north_south_passage" "North-South Passage"
       "This is a high north-south passage, which forks to the northeast."
       0
       (Py.dict [(Direction.NORTH, "chasm"); (Direction.NE, "deep_canyon"); (Direction.SOUTH, "round_room")]));
      ("chasm",
     Room.mk "chasm" "Chasm"
       "A chasm runs southwest to northeast and the path follows it. You are on the south side of the chasm, where a crack opens into a passage."
       0
       (Py.dict [(Direction.NE, "reservoir_south"); (Direction.SW, "east_west_passage"); (Direction.SOUTH, "north_south_passage"); (Direction.DOWN, "north_south_passage")]));
      ("deep_canyon",
     Room.mk "deep_canyon" "Deep Canyon"
       "You are on the south edge of a deep canyon. Passages lead off to the east, northwest and southwest. A stairway leads down. You can hear the sound of flowing water from below."
       0
       (Py.dict [(Direction.SW, "north_south_passage"); (Direction.EAST, "dam"); (Direction.NW, "reservoir_south"); (Direction.DOWN, "loud_room")]));
      ("loud_room",
     Room.mk "loud_room" "Loud Room"
       "This is a large room with a ceiling which cannot be detected from the ground. There is a narrow passage from east to west and a stone stairway leading upward. The room is deafeningly loud with an undetermined rushing sound. The sound seems to reverberate from all of the walls, making it difficult to determine its origin (although it is louder towards the west)."
       0
       (Py.dict [(Direction.WEST, "round_room"); (Direction.UP, "deep_canyon"); (Direction.EAST, "damp_cave")]));
      ("damp_cave",
     Room.mk "damp_cave" "Damp Cave"
       "This cave has exits to the west and east, and narrows to a crack toward the south. The earth is particularly damp here."
       0
       (Py.dict [(Direction.WEST, "loud_room"); (Direction.EAST, "white_cliffs_beach_north")]));
      ("white_cliffs_beach_north",
     Room.mk "white_cliffs_beach_north" "White Cliffs Beach"
       "You are on a narrow strip of beach which runs along the base of the White Cliffs. There is a narrow path heading south along the Cliffs and a tight passage leading west into the cliffs themselves."
       (RoomFlag.value RoomFlag.ONWATER)
       (Py.dict [(Direction.WEST, "damp_cave"); (Direction.SOUTH, "white_cliffs_beach_south")]));
      ("white_cliffs_beach_south",
     Room.mk "white_cliffs_beach_south" "White Cliffs Beach"
       "You are on a rocky, narrow strip of beach beside the Cliffs. A narrow path leads north along the shore."
       (RoomFlag.value RoomFlag.ONWATER)
       (Py.dict [(Direction.NORTH, "white_cliffs_beach_north")]));
      ("dam",
     Room.mk "dam" "Dam"
       "You are standing on the top of the Flood Control Dam #3, which was built in 783 GUE to harness the mighty Frigid River. The dam controls a sluice gate by which water is passed downstream. The sluice gate can be controlled by a panel of buttons on the dam. A ladder leads down to the base of the dam."
       (RoomFlag.value RoomFlag.LIT)
       (Py.dict [(Direction.WEST, "deep_canyon"); (Direction.NORTH, "dam_lobby"); (Direction.EAST, "dam_base"); (Direction.DOWN, "dam_base")]));
      ("dam_lobby",
     Room.mk "dam_lobby" "Dam Lobby"
       ("This room appears to have been the waiting room for groups touring the dam. There are open doorways here to the north and east marked " +:+ Py.dq +:+ "Private" +:+ Py.dq +:+ ", though the doors are open, and an exit to the south.")
       0
       (Py.dict [(Direction.SOUTH, "dam"); (Direction.NORTH, "maintenance_room"); (Direction.EAST, "maintenance_room")]));
      ("maintenance_room",
     Room.mk "maintenance_room" "Maintenance Room"
       "This is what appears to have been the maintenance room for Flood Control Dam #3. Apparently, it has been many years since its last use. Most of the equipment here is in a state of disrepair. The only exit is to the south."
       0
       (Py.dict [(Direction.SOUTH, "dam_lobby")]));
      ("dam_base",
     Room.mk "dam_base" "Dam Base"
       "You are at the base of Flood Control Dam #3, which looms above you and to the north. The River Frigid is flowing by here. Along the river are the White Cliffs which seem to form giant walls stretching from north to south along the shores of the river as it winds its way downstream."
       (Z.lor (RoomFlag.value RoomFlag.LIT) (RoomFlag.value RoomFlag.ONWATER))
       (Py.dict [(Direction.NORTH, "dam"); (Direction.UP, "dam")]));
      ("reservoir_south",
     Room.mk "reservoir_south" "Reservoir South"
       "You are in a long room on the south shore of a large lake, far too deep and wide for crossing. There is a path along the stream to the east or west, a steep pathway climbing southwest along the edge of a chasm, and a path leading into a canyon to the southeast."
       0
       (Py.dict [(Direction.SE, "deep_canyon"); (Direction.SW, "chasm"); (Direction.WEST, "stream_view"); (Direction.EAST, "dam"); (Direction.NORTH, "reservoir")]));
      ("reservoir",
     Room.mk "reservoir" "Reservoir"
       "You are on the lake. Beaches can be seen north and south. Upstream a small stream enters the lake through a narrow cleft in the rocks. The dam can be seen downstream."
       (RoomFlag.value RoomFlag.ONWATER)
       (Py.dict [(Direction.SOUTH, "reservoir_south"); (Direction.NORTH, "reservoir_north")]));
      ("reservoir_north",
     Room.mk "reservoir_north" "Reservoir North"
       "You are in a large cavernous room, north of a large lake. There is a slimy stairway leaving the room to the north."
       0
       (Py.dict [(Direction.SOUTH, "reservoir"); (Direction.NORTH, "atlantis_room")]));
      ("stream_view",
     Room.mk "stream_view" "Stream View"
       "You are standing on a path beside a gently flowing stream. The path follows the stream, which flows from west to east."
       0
       (Py.dict [(Direction.EAST, "reservoir_south"); (Direction.WEST, "stream")]));
      ("stream",
     Room.mk "stream" "Stream"
       "You are on the gently flowing stream. The upstream route is too narrow to navigate, and the downstream route is blocked by a dam."
       (RoomFlag.value RoomFlag.ONWATER)
       (Py.dict [(Direction.EAST, "reservoir"); (Direction.WEST, "sluice_gate")]));
      ("atlantis_room",
     Room.mk "atlantis_room" "Atlantis Room"
       "This is an ancient room, long buried beneath the earth. The room is bare, but the walls are covered with decorations of great archaeological value. An exit lies to the south, and a staircase leads up."
       0
       (Py.dict [(Direction.SOUTH, "reservoir_north"); (Direction.UP, "cave_2")]));
      ("maze_1",
     Room.mk "maze_1" "Maze"
       "This is part of a maze of twisty little passages, all alike."
       0
       (Py.dict [(Direction.WEST, "troll_room"); (Direction.NORTH, "maze_1"); (Direction.SOUTH, "maze_2"); (Direction.EAST, "maze_4")]));
      ("maze_2",
     Room.mk "maze_2" "Maze"
       "This is part of a maze of twisty little passages, all alike."
       0
       (Py.dict [(Direction.SOUTH, "maze_1"); (Direction.NORTH, "maze_4"); (Direction.EAST, "maze_3")]));
      ("maze_3",
     Room.mk "maze_3" "Maze"
       "This is part of a maze of twisty little passages, all alike."
       0
       (Py.dict [(Direction.WEST, "maze_2"); (Direction.NORTH, "maze_4"); (Direction.UP, "maze_5")]));
      ("maze_4",
     Room.mk "maze_4" "Maze"
       "This is part of a maze of twisty little passages, all alike. A skeleton, probably the remains of a luckless adventurer, lies here."
       0
       (Py.dict [(Direction.WEST, "maze_1"); (Direction.NORTH, "maze_2"); (Direction.SOUTH, "maze_3")]));
      ("maze_5",
     Room.mk "maze_5" "Maze"
       "This is part of a maze of twisty little passages, all alike."
       0
       (Py.dict [(Direction.EAST, "dead_end_1"); (Direction.NORTH, "maze_6"); (Direction.DOWN, "maze_3")]));
      ("maze_6",
     Room.mk "maze_6" "Maze"
       "This is part of a maze of twisty little passages, all alike."
       0
       (Py.dict [(Direction.DOWN, "maze_7"); (Direction.EAST, "maze_7"); (Direction.WEST, "maze_7"); (Direction.UP, "maze_9")]));
      ("maze_7",
     Room.mk "maze_7" "Maze"
       "This is part of a maze of twisty little passages, all alike."
       0
       (Py.dict [(Direction.UP, "maze_14"); (Direction.WEST, "maze_6"); (Direction.NE, "dead_end_1"); (Direction.EAST, "maze_8"); (Direction.SOUTH, "maze_15")]));
      ("maze_8",
     Room.mk "maze_8" "Maze"
       "This is part of a maze of twisty little passages, all alike."
       0
       (Py.dict [(Direction.NE, "maze_7"); (Direction.WEST, "maze_8"); (Direction.SE, "dead_end_2")]));
      ("maze_9",
     Room.mk "maze_9" "Maze"
       "This is part of a maze of twisty little passages, all alike."
       0
       (Py.dict [(Direction.DOWN, "maze_6"); (Direction.SOUTH, "maze_10"); (Direction.EAST, "maze_12"); (Direction.WEST, "maze_13"); (Direction.NORTH, "maze_11")]));
      ("maze_10",
     Room.mk "maze_10" "Maze"
       "This is part of a maze of twisty little passages, all alike."
       0
       (Py.dict [(Direction.EAST, "maze_9"); (Direction.WEST, "maze_13"); (Direction.UP, "maze_5")]));
      ("maze_11",
     Room.mk "maze_11" "Maze"
       "This is part of a maze of twisty little passages, all alike."
       0
       (Py.dict [(Direction.DOWN, "maze_12"); (Direction.SW, "grating_room"); (Direction.EAST, "maze_13"); (Direction.WEST, "maze_11"); (Direction.UP, "maze_9")]));
      ("maze_12",
     Room.mk "maze_12" "Maze"
       "This is part of a maze of twisty little passages, all alike."
       0
       (Py.dict [(Direction.UP, "maze_11"); (Direction.SW, "maze_5"); (Direction.EAST, "maze_9"); (Direction.DOWN, "dead_end_1"); (Direction.NORTH, "maze_13")]));
      ("maze_13",
     Room.mk "maze_13" "Maze"
       "This is part of a maze of twisty little passages, all alike."
       0
       (Py.dict [(Direction.DOWN, "maze_12"); (Direction.WEST, "maze_11"); (Direction.NE, "grating_room"); (Direction.SOUTH, "maze_10"); (Direction.EAST, "maze_9")]));
      ("maze_14",
     Room.mk "maze_14" "Maze"
       "This is part of a maze of twisty little passages, all alike."
       0
       (Py.dict [(Direction.WEST, "maze_15"); (Direction.NE, "maze_7"); (Direction.NW, "maze_15")]));
      ("maze_15",
     Room.mk "maze_15" "Maze"
       "This is part of a maze of twisty little passages, all alike."
       0
       (Py.dict [(Direction.WEST, "maze_14"); (Direction.SOUTH, "cyclops_room"); (Direction.NE, "maze_7")]));
      ("dead_end_1",
     Room.mk "dead_end_1" "Dead End"
       "You have come to a dead end in the maze."
       0
       (Py.dict [(Direction.SOUTH, "maze_11")]));
      ("dead_end_2",
     Room.mk "dead_end_2" "Dead End"
       "You have come to a dead end in the maze."
       0
       (Py.dict [(Direction.NW, "maze_8")]));
      ("grating_room",
     Room.mk "grating_room" "Grating Room"
       "You are in a small room near the maze. There are twisty passages in the immediate vicinity. Above you is a grating locked with a skull-and-crossbones lock."
       0
       (Py.dict [(Direction.SW, "maze_11"); (Direction.NE, "maze_13"); (Direction.UP, "clearing")]));
      ("cyclops_room",
     Room.mk "cyclops_room" "Cyclops Room"
       "This room has an exit on the west side, and a staircase leading up. A cyclops, who looks prepared to eat horses (much less mere adventurers), blocks the staircase. From his state of health, and the bloodstains on the walls, you gather that he is not very friendly, though he likes people."
       0
       (Py.dict [(Direction.WEST, "maze_15"); (Direction.UP, "treasure_room")]));
      ("treasure_room",
     Room.mk "treasure_room" "Treasure Room"
       "This is a large room, whose north wall is solid granite. A number of discarded bags, which crumble at your touch, are scattered about on the floor. There is an exit down and what appears to be a chimney in the east corner of the room."
       0
       (Py.dict [(Direction.DOWN, "cyclops_room"); (Direction.EAST, "strange_passage")]));
      ("strange_passage",
     Room.mk "strange_passage" "Strange Passage"
       "This is a long passage. To the west is one entrance. On the east there is an old wooden door, with a large opening in it (about cyclops sized)."
       0
       (Py.dict [(Direction.WEST, "treasure_room"); (Direction.EAST, "living_room")]));
      ("east_of_chasm",
     Room.mk "east_of_chasm" "East of Chasm"
       "You are on the east edge of a chasm, the bottom of which cannot be seen. A narrow passage goes north, and the path you are on continues to the east."
       0
       (Py.dict [(Direction.NORTH, "cellar"); (Direction.EAST, "gallery")]));
      ("gallery",
     Room.mk "gallery" "Gallery"
       "This is an art gallery. Most of the paintings have been stolen by vandals with exceptional taste. The vandals left through the north, south, east, or west exit."
       0
       (Py.dict [(Direction.NORTH, "studio"); (Direction.SOUTH, "east_of_chasm"); (Direction.EAST, "studio"); (Direction.WEST, "east_of_chasm")]));
      ("studio",
     Room.mk "studio" "Studio"
       "This appears to have been an artist's studio. The walls and floors are splattered with paints of 69 different colors. Strangely enough, nothing of value is hanging here. At the north and northwest of the room are small doors."
       0
       (Py.dict [(Direction.SOUTH, "gallery"); (Direction.NORTH, "gallery"); (Direction.UP, "kitchen")]));
      ("engravings_cave",
     Room.mk "engravings_cave" "Engravings Cave"
       "You have entered a low cave with passages leading northwest and east. There are old engravings on the walls here."
       0
       (Py.dict [(Direction.NW, "round_room"); (Direction.EAST, "dome_room")]));
      ("dome_room",
     Room.mk "dome_room" "Dome Room"
       "You are at the periphery of a large dome, which forms the ceiling of another room below. Protecting you from a precipitous drop is a wooden railing which circles the dome."
       0
       (Py.dict [(Direction.WEST, "engravings_cave"); (Direction.DOWN, "torch_room")]));
      ("torch_room",
     Room.mk "torch_room" "Torch Room"
       "This is a large room with a prominent doorway leading to a down staircase. Above you is a large dome. Up around the edge of the dome (20 feet up) is a wooden railing. In the center of the room sits a white marble pedestal."
       0
       (Py.dict [(Direction.SOUTH, "temple"); (Direction.DOWN, "north_temple"); (Direction.UP, "dome_room")]));
      ("temple",
     Room.mk "temple" "Temple"
       "This is the north end of a large temple. On the east wall is an ancient inscription, probably a prayer in a long-forgotten language. Below the prayer is a staircase leading down. The west wall is solid granite. The exit to the north end of the temple is through huge marble pillars."
       0
       (Py.dict [(Direction.NORTH, "torch_room"); (Direction.EAST, "egyptian_room"); (Direction.DOWN, "egyptian_room"); (Direction.SOUTH, "altar")]));
      ("altar",
     Room.mk "altar" "Altar"
       "This is the south end of a large temple. In front of you is what appears to be an altar. In one corner is a small hole in the floor which leads into darkness. You probably could not get back up it."
       0
       (Py.dict [(Direction.NORTH, "temple"); (Direction.DOWN, "cave_1")]));
      ("egyptian_room",
     Room.mk "egyptian_room" "Egyptian Room"
       "This is a room which looks like an Egyptian tomb. There is an ascending staircase to the west."
       0
       (Py.dict [(Direction.WEST, "temple"); (Direction.UP, "temple")]));
      ("north_temple",
     Room.mk "north_temple" "North Temple"
       "This is a room of large proportions filled with religious objects, paintings, and a digital clock which has stopped. There is a door to the west and a staircase leading up."
       0
       (Py.dict [(Direction.UP, "torch_room"); (Direction.WEST, "entrance_to_hades"); (Direction.SOUTH, "south_temple")]));
      ("south_temple",
     Room.mk "south_temple" "South Temple"
       "This is the south end of a large temple. There is a door to the west, and a staircase leading up. The door is barred from the other side."
       0
       (Py.dict [(Direction.NORTH, "north_temple"); (Direction.UP, "treasure_room"); (Direction.WEST, "south_temple")]));
      ("entrance_to_hades",
     Room.mk "entrance_to_hades" "Entrance to Hades"
       ("You are outside a large gate, on which is inscribed:" +:+ Py.nl +:+ Py.nl +:+ Py.dq +:+ "Abandon every hope, all ye who enter here!" +:+ Py.dq +:+ Py.nl +:+ Py.nl +:+ "The gate is open; through it you can see a desolation, with a pile of mangled bodies in one corner. Thousands of voices, lamenting some hideous fate, can be heard. The way through the gate is barred by evil spirits, who jeer at your attempts to pass.")
       0
       (Py.dict [(Direction.NORTH, "cave_1"); (Direction.UP, "cave_2"); (Direction.SOUTH, "land_of_the_dead"); (Direction.EAST, "north_temple")]));
      ("land_of_the_dead",
     Room.mk "land_of_the_dead" "Land of the Living Dead"
       "You have entered the Land of the Living Dead. Thousands of lost souls can be heard weeping and moaning. In the corner are stacked the remains of dozens of previous adventurers less fortunate than yourself. A passage exits to the north."
       0
       (Py.dict [(Direction.NORTH, "entrance_to_hades")])) ].

Definition object_assignments : list (string * GameObject.t) :=
  [ ("mailbox",
     GameObject.mk "mailbox" "mailbox"
       "small mailbox"
       "It's a small mailbox."
       EmptyString
       (Z.lor (ObjectFlag.value ObjectFlag.CONTAINER) (ObjectFlag.value ObjectFlag.CLOSED))
       (Some "west_of_house") 0 0 0);
      ("leaflet",
     GameObject.mk "leaflet" "leaflet"
       "leaflet"
       (Py.dq +:+ "WELCOME TO ZORK!" +:+ Py.nl +:+ Py.nl +:+ "ZORK is a game of adventure, danger, and low cunning. In it you will explore some of the most amazing territory ever seen by mortals. No computer should be without one!" +:+ Py.dq)
       EmptyString
       (Z.lor (ObjectFlag.value ObjectFlag.TAKEABLE) (ObjectFlag.value ObjectFlag.READABLE))
       (Some "mailbox") 0 1 0);
      ("mat",
     GameObject.mk "mat" "mat"
       "welcome mat"
       "Welcome to Zork!"
       "A rubber mat saying 'Welcome to Zork!' lies by the door."
       (Z.lor (ObjectFlag.value ObjectFlag.TAKEABLE) (ObjectFlag.value ObjectFlag.READABLE))
       (Some "west_of_house") 0 2 0);
      ("lamp",
     GameObject.mk "lamp" "lamp"
       "brass lantern"
       "It is a shiny brass lamp. It is not currently lit."
       EmptyString
       (Z.lor (ObjectFlag.value ObjectFlag.TAKEABLE) (ObjectFlag.value ObjectFlag.TURNNABLE))
       (Some "living_room") 0 3 0);
      ("torch",
     GameObject.mk "torch" "torch"
       "ivory torch"
       "The torch is ivory-colored, inlaid with gold."
       "Sitting on the pedestal is a flaming torch, made of ivory."
       (Z.lor (Z.lor (Z.lor (Z.lor (ObjectFlag.value ObjectFlag.TAKEABLE) (ObjectFlag.value ObjectFlag.LIGHT)) (ObjectFlag.value ObjectFlag.TURNEDON)) (ObjectFlag.value ObjectFlag.FLAMMABLE)) (ObjectFlag.value ObjectFlag.TREASURE))
       (Some "torch_room") 0 2 14);
      ("candles",
     GameObject.mk "candles" "candles"
       "pair of candles"
       "The candles are not lit."
       EmptyString
       (Z.lor (ObjectFlag.value ObjectFlag.TAKEABLE) (ObjectFlag.value ObjectFlag.FLAMMABLE))
       (Some "altar") 0 2 0);
      ("matchbook",
     GameObject.mk "matchbook" "matchbook"
       "matchbook"
       "The matchbook is from the Borphee Grill. You have 5 matches."
       EmptyString
       (Z.lor (ObjectFlag.value ObjectFlag.TAKEABLE) (ObjectFlag.value ObjectFlag.READABLE))
       (Some "dam_lobby") 0 1 0);
      ("sword",
     GameObject.mk "sword" "sword"
       "elvish sword"
       "It's an elvish sword of great antiquity. It glows with a faint blue glow."
       EmptyString
       (Z.lor (ObjectFlag.value ObjectFlag.TAKEABLE) (ObjectFlag.value ObjectFlag.WEAPON))
       (Some "living_room") 0 3 0);
      ("knife",
     GameObject.mk "knife" "knife"
       "nasty knife"
       "It's a nasty-looking knife."
       EmptyString
       (Z.lor (ObjectFlag.value ObjectFlag.TAKEABLE) (ObjectFlag.value ObjectFlag.WEAPON))
       (Some "attic") 0 1 0);
      ("axe",
     GameObject.mk "axe" "axe"
       "bloody axe"
       "It's a bloody axe."
       EmptyString
       (Z.lor (ObjectFlag.value ObjectFlag.TAKEABLE) (ObjectFlag.value ObjectFlag.WEAPON))
       None 0 3 0);
      ("stiletto",
     GameObject.mk "stiletto" "stiletto"
       "stiletto"
       "It's a vicious stiletto."
       EmptyString
       (Z.lor (ObjectFlag.value ObjectFlag.TAKEABLE) (ObjectFlag.value ObjectFlag.WEAPON))
       None 0 1 0);
      ("rusty_knife",
     GameObject.mk "rusty_knife" "knife"
       "rusty knife"
       "It's a rusty knife."
       EmptyString
       (Z.lor (ObjectFlag.value ObjectFlag.TAKEABLE) (ObjectFlag.value ObjectFlag.WEAPON))
       (Some "maze_4") 0 1 0);
      ("rope",
     GameObject.mk "rope" "rope"
       "rope"
       "It's a sturdy hemp rope."
       EmptyString
       (Z.lor (ObjectFlag.value ObjectFlag.TAKEABLE) (ObjectFlag.value ObjectFlag.TOOL))
       (Some "attic") 0 2 0);
      ("shovel",
     GameObject.mk "shovel" "shovel"
       "shovel"
       "It's a sturdy shovel."
       EmptyString
       (Z.lor (ObjectFlag.value ObjectFlag.TAKEABLE) (ObjectFlag.value ObjectFlag.TOOL))
       (Some "white_cliffs_beach_south") 0 3 0);
      ("screwdriver",
     GameObject.mk "screwdriver" "screwdriver"
       "screwdriver"
       "It's a flathead screwdriver."
       EmptyString
       (Z.lor (ObjectFlag.value ObjectFlag.TAKEABLE) (ObjectFlag.value ObjectFlag.TOOL))
       (Some "maintenance_room") 0 1 0);
      ("wrench",
     GameObject.mk "wrench" "wrench"
       "wrench"
       "It's a large adjustable wrench."
       EmptyString
       (Z.lor (ObjectFlag.value ObjectFlag.TAKEABLE) (ObjectFlag.value ObjectFlag.TOOL))
       (Some "maintenance_room") 0 2 0);
      ("pump",
     GameObject.mk "pump" "pump"
       "hand-held air pump"
       "It's a hand-held air pump for inflating things."
       EmptyString
       (Z.lor (ObjectFlag.value ObjectFlag.TAKEABLE) (ObjectFlag.value ObjectFlag.TOOL))
       (Some "gas_room") 0 2 0);
      ("bottle",
     GameObject.mk "bottle" "bottle"
       "glass bottle"
       ("The glass bottle contains:" +:+ Py.nl +:+ "  A quantity of water")
       EmptyString
       (Z.lor (Z.lor (ObjectFlag.value ObjectFlag.TAKEABLE) (ObjectFlag.value ObjectFlag.CONTAINER)) (ObjectFlag.value ObjectFlag.TRANSPARENT))
       (Some "kitchen") 0 2 0);
      ("water",
     GameObject.mk "water" "water"
       "quantity of water"
       EmptyString
       EmptyString
       (ObjectFlag.value ObjectFlag.DRINKABLE)
       (Some "bottle") 0 1 0);
      ("sack",
     GameObject.mk "sack" "sack"
       "brown sack"
       ("The brown sack contains:" +:+ Py.nl +:+ "  A lunch" +:+ Py.nl +:+ "  A clove of garlic")
       EmptyString
       (Z.lor (Z.lor (ObjectFlag.value ObjectFlag.TAKEABLE) (ObjectFlag.value ObjectFlag.CONTAINER)) (ObjectFlag.value ObjectFlag.OPEN))
       (Some "kitchen") 9 2 0);
      ("lunch",
     GameObject.mk "lunch" "lunch"
       "lunch"
       "It looks like a tasty lunch."
       EmptyString
       (Z.lor (ObjectFlag.value ObjectFlag.TAKEABLE) (ObjectFlag.value ObjectFlag.EDIBLE))
       (Some "sack") 0 2 0);
      ("garlic",
     GameObject.mk "garlic" "garlic"
       "clove of garlic"
       "It's a clove of garlic. It smells terribly."
       EmptyString
       (ObjectFlag.value ObjectFlag.TAKEABLE)
       (Some "sack") 0 1 0);
      ("bag",
     GameObject.mk "bag" "bag"
       "leather bag of coins"
       "The leather bag is filled with gold coins."
       EmptyString
       (Z.lor (Z.lor (Z.lor (ObjectFlag.value ObjectFlag.TAKEABLE) (ObjectFlag.value ObjectFlag.CONTAINER)) (ObjectFlag.value ObjectFlag.OPEN)) (ObjectFlag.value ObjectFlag.TREASURE))
       (Some "maze_5") 0 3 10);
      ("basket",
     GameObject.mk "basket" "basket"
       "wicker basket"
       "It's a wicker basket."
       EmptyString
       (Z.lor (Z.lor (ObjectFlag.value ObjectFlag.TAKEABLE) (ObjectFlag.value ObjectFlag.CONTAINER)) (ObjectFlag.value ObjectFlag.OPEN))
       (Some "shaft_room") 5 3 0);
      ("case",
     GameObject.mk "case" "case"
       "trophy case"
       "The trophy case is empty."
       EmptyString
       (Z.lor (Z.lor (Z.lor (ObjectFlag.value ObjectFlag.CONTAINER) (ObjectFlag.value ObjectFlag.OPEN)) (ObjectFlag.value ObjectFlag.TRANSPARENT)) (ObjectFlag.value ObjectFlag.SACRED))
       (Some "living_room") 30 0 0);
      ("rug",
     GameObject.mk "rug" "rug"
       "large oriental rug"
       "The rug is extremely heavy and cannot be carried."
       "A large oriental rug covers the floor."
       (ObjectFlag.value ObjectFlag.VISIBLE)
       (Some "living_room") 0 0 0);
      ("trap_door",
     GameObject.mk "trap_door" "door"
       "trap door"
       "The trap door is closed."
       EmptyString
       (Z.lor (ObjectFlag.value ObjectFlag.DOOR) (ObjectFlag.value ObjectFlag.CLOSED))
       None 0 0 0);
      ("window",
     GameObject.mk "window" "window"
       "small window"
       "The window is slightly ajar, but not enough to allow entry."
       EmptyString
       (ObjectFlag.value ObjectFlag.VISIBLE)
       (Some "behind_house") 0 0 0);
      ("chimney",
     GameObject.mk "chimney" "chimney"
       "chimney"
       "The chimney leads down."
       EmptyString
       (ObjectFlag.value ObjectFlag.VISIBLE)
       (Some "kitchen") 0 0 0);
      ("leaves",
     GameObject.mk "leaves" "leaves"
       "pile of leaves"
       "The leaves are turning brown, indicating autumn."
       EmptyString
       (ObjectFlag.value ObjectFlag.VISIBLE)
       (Some "clearing") 0 0 0);
      ("grating",
     GameObject.mk "grating" "grating"
       "grating"
       "The grating is locked."
       EmptyString
       (Z.lor (Z.lor (ObjectFlag.value ObjectFlag.DOOR) (ObjectFlag.value ObjectFlag.LOCKED)) (ObjectFlag.value ObjectFlag.CLOSED))
       None 0 0 0);
      ("skeleton_key",
     GameObject.mk "skeleton_key" "key"
       "skeleton key"
       "It's a skeleton key."
       EmptyString
       (Z.lor (ObjectFlag.value ObjectFlag.TAKEABLE) (ObjectFlag.value ObjectFlag.TOOL))
       (Some "maze_4") 0 1 0);
      ("skeleton",
     GameObject.mk "skeleton" "skeleton"
       "skeleton"
       "A skeleton is lying in the corner."
       EmptyString
       (ObjectFlag.value ObjectFlag.VISIBLE)
       (Some "maze_4") 0 0 0);
      ("useless_lantern",
     GameObject.mk "useless_lantern" "lantern"
       "broken brass lantern"
       "It's a broken brass lantern. It won't light."
       EmptyString
       (ObjectFlag.value ObjectFlag.TAKEABLE)
       (Some "maze_4") 0 3 0);
      ("chain",
     GameObject.mk "chain" "chain"
       "heavy chain"
       "It's a heavy iron chain."
       EmptyString
       (ObjectFlag.value ObjectFlag.VISIBLE)
       (Some "shaft_room") 0 0 0);
      ("timber",
     GameObject.mk "timber" "timber"
       "broken timber"
       "It's a broken piece of timber."
       EmptyString
       (ObjectFlag.value ObjectFlag.TAKEABLE)
       (Some "timber_room") 0 3 0);
      ("pile_of_coal",
     GameObject.mk "pile_of_coal" "coal"
       "small pile of coal"
       "It's a small pile of coal."
       EmptyString
       (ObjectFlag.value ObjectFlag.TAKEABLE)
       (Some "dead_end_coal_mine") 0 2 0);
      ("machine",
     GameObject.mk "machine" "machine"
       "machine"
       "It's a complex machine with a large lid and a small switch."
       EmptyString
       (Z.lor (Z.lor (ObjectFlag.value ObjectFlag.VISIBLE) (ObjectFlag.value ObjectFlag.CONTAINER)) (ObjectFlag.value ObjectFlag.CLOSED))
       (Some "machine_room") 5 0 0);
      ("switch",
     GameObject.mk "switch" "switch"
       "switch"
       ("It's a small switch labelled " +:+ Py.dq +:+ "START" +:+ Py.dq +:+ ".")
       EmptyString
       (ObjectFlag.value ObjectFlag.VISIBLE)
       (Some "machine_room") 0 0 0);
      ("control_panel",
     GameObject.mk "control_panel" "panel"
       "control panel"
       ("The panel has a large green button marked " +:+ Py.dq +:+ "Open Sluice Gate" +:+ Py.dq +:+ " and a large red button marked " +:+ Py.dq +:+ "Close Sluice Gate" +:+ Py.dq +:+ ".")
       EmptyString
       (ObjectFlag.value ObjectFlag.VISIBLE)
       (Some "dam") 0 0 0);
      ("green_button",
     GameObject.mk "green_button" "button"
       "green button"
       ("It's a large green button marked " +:+ Py.dq +:+ "Open Sluice Gate" +:+ Py.dq +:+ ".")
       EmptyString
       (ObjectFlag.value ObjectFlag.VISIBLE)
       (Some "dam") 0 0 0);
      ("red_button",
     GameObject.mk "red_button" "button"
       "red button"
       ("It's a large red button marked " +:+ Py.dq +:+ "Close Sluice Gate" +:+ Py.dq +:+ ".")
       EmptyString
       (ObjectFlag.value ObjectFlag.VISIBLE)
       (Some "dam") 0 0 0);
      ("guidebook",
     GameObject.mk "guidebook" "guidebook"
       "tour guidebook"
       (Py.dq +:+ "Flood Control Dam #3 was constructed in 783 GUE with a grant of 37 million zorkmids from Lord Dimwit Flathead the Excessive..." +:+ Py.dq)
       EmptyString
       (Z.lor (ObjectFlag.value ObjectFlag.TAKEABLE) (ObjectFlag.value ObjectFlag.READABLE))
       (Some "dam_lobby") 0 1 0);
      ("bell",
     GameObject.mk "bell" "bell"
       "brass bell"
       "It's a small brass bell."
       EmptyString
       (ObjectFlag.value ObjectFlag.TAKEABLE)
       (Some "temple") 0 2 0);
      ("book",
     GameObject.mk "book" "book"
       "black book"
       ("The book is written in an ancient language. Some of the text is readable:" +:+ Py.nl +:+ Py.nl +:+ Py.dq +:+ "...seek ye the Black Crystal of Night which was lost in the Land of the Living Dead..." +:+ Py.dq)
       EmptyString
       (Z.lor (Z.lor (ObjectFlag.value ObjectFlag.TAKEABLE) (ObjectFlag.value ObjectFlag.READABLE)) (ObjectFlag.value ObjectFlag.SACRED))
       (Some "altar") 0 2 0);
      ("prayer",
     GameObject.mk "prayer" "prayer"
       "ancient prayer"
       "The prayer is inscribed in an ancient script. It appears to be a powerful exorcism ritual."
       EmptyString
       (ObjectFlag.value ObjectFlag.READABLE)
       (Some "temple") 0 0 0);
      ("mirror_south",
     GameObject.mk "mirror_south" "mirror"
       "mirror"
       "You see yourself in the mirror."
       EmptyString
       (ObjectFlag.value ObjectFlag.VISIBLE)
       (Some "mirror_room_south") 0 0 0);
      ("mirror_north",
     GameObject.mk "mirror_north" "mirror"
       "mirror"
       "You see yourself in the mirror."
       EmptyString
       (ObjectFlag.value ObjectFlag.VISIBLE)
       (Some "mirror_room_north") 0 0 0);
      ("jeweled_egg",
     GameObject.mk "jeweled_egg" "egg"
       "jewel-encrusted egg"
       "The egg is covered with fine gold inlay and ornamented in lapis lazuli and mother-of-pearl. Unlike most eggs, this one is hinged and closed with a delicate looking clasp. The egg appears extremely fragile."
       EmptyString
       (Z.lor (Z.lor (Z.lor (ObjectFlag.value ObjectFlag.TAKEABLE) (ObjectFlag.value ObjectFlag.CONTAINER)) (ObjectFlag.value ObjectFlag.CLOSED)) (ObjectFlag.value ObjectFlag.TREASURE))
       (Some "up_tree") 0 2 5);
      ("golden_canary",
     GameObject.mk "golden_canary" "canary"
       "golden clockwork canary"
       "The golden clockwork canary is a tiny mechanical bird made of gold. It appears to have a winding key."
       EmptyString
       (Z.lor (ObjectFlag.value ObjectFlag.TAKEABLE) (ObjectFlag.value ObjectFlag.TREASURE))
       (Some "jeweled_egg") 0 1 6);
      ("painting",
     GameObject.mk "painting" "painting"
       "painting"
       "The painting is of unparalleled beauty. It depicts a gentleman on horseback."
       EmptyString
       (Z.lor (Z.lor (ObjectFlag.value ObjectFlag.TAKEABLE) (ObjectFlag.value ObjectFlag.TREASURE)) (ObjectFlag.value ObjectFlag.FLAMMABLE))
       (Some "gallery") 0 4 4);
      ("sceptre",
     GameObject.mk "sceptre" "sceptre"
       "sceptre"
       "The sceptre is ornamented with colored enamel and jewels."
       EmptyString
       (Z.lor (ObjectFlag.value ObjectFlag.TAKEABLE) (ObjectFlag.value ObjectFlag.TREASURE))
       None 0 2 4);
      ("coffin",
     GameObject.mk "coffin" "coffin"
       "gold coffin"
       "The gold coffin is closed."
       EmptyString
       (Z.lor (Z.lor (Z.lor (Z.lor (ObjectFlag.value ObjectFlag.TAKEABLE) (ObjectFlag.value ObjectFlag.CONTAINER)) (ObjectFlag.value ObjectFlag.CLOSED)) (ObjectFlag.value ObjectFlag.SACRED)) (ObjectFlag.value ObjectFlag.TREASURE))
       (Some "egyptian_room") 0 6 10);
      ("trunk",
     GameObject.mk "trunk" "trunk"
       "trunk of jewels"
       "The trunk is filled with jewels of every type, size, and color."
       EmptyString
       (Z.lor (ObjectFlag.value ObjectFlag.TAKEABLE) (ObjectFlag.value ObjectFlag.TREASURE))
       None 0 5 14);
      ("crystal_trident",
     GameObject.mk "crystal_trident" "trident"
       "crystal trident"
       "The trident is made of pure crystal and gleams with an inner light."
       EmptyString
       (Z.lor (ObjectFlag.value ObjectFlag.TAKEABLE) (ObjectFlag.value ObjectFlag.TREASURE))
       (Some "atlantis_room") 0 3 4);
      ("jade_figurine",
     GameObject.mk "jade_figurine" "figurine"
       "jade figurine"
       "The figurine is of a small green elephant. It is exquisitely crafted."
       EmptyString
       (Z.lor (ObjectFlag.value ObjectFlag.TAKEABLE) (ObjectFlag.value ObjectFlag.TREASURE))
       (Some "bat_room") 0 1 5);
      ("sapphire_bracelet",
     GameObject.mk "sapphire_bracelet" "bracelet"
       "sapphire bracelet"
       "The bracelet is made of hundreds of tiny sapphires."
       EmptyString
       (Z.lor (ObjectFlag.value ObjectFlag.TAKEABLE) (ObjectFlag.value ObjectFlag.TREASURE))
       (Some "gas_room") 0 1 5);
      ("chalice",
     GameObject.mk "chalice" "chalice"
       "silver chalice"
       "The silver chalice is intricately engraved."
       EmptyString
       (Z.lor (ObjectFlag.value ObjectFlag.TAKEABLE) (ObjectFlag.value ObjectFlag.TREASURE))
       (Some "treasure_room") 0 2 10);
      ("pot_of_gold",
     GameObject.mk "pot_of_gold" "gold"
       "pot of gold"
       "The pot is filled with gold pieces. It must be worth a fortune!"
       EmptyString
       (Z.lor (ObjectFlag.value ObjectFlag.TAKEABLE) (ObjectFlag.value ObjectFlag.TREASURE))
       (Some "end_of_rainbow") 0 4 10);
      ("platinum_bar",
     GameObject.mk "platinum_bar" "bar"
       "platinum bar"
       "The platinum bar is extremely heavy."
       EmptyString
       (Z.lor (ObjectFlag.value ObjectFlag.TAKEABLE) (ObjectFlag.value ObjectFlag.TREASURE))
       (Some "loud_room") 0 5 10);
      ("crystal_skull",
     GameObject.mk "crystal_skull" "skull"
       "crystal skull"
       "The crystal skull grins at you menacingly. Its eyes seem to follow your movements."
       EmptyString
       (Z.lor (ObjectFlag.value ObjectFlag.TAKEABLE) (ObjectFlag.value ObjectFlag.TREASURE))
       (Some "land_of_the_dead") 0 2 10);
      ("jeweled_scarab",
     GameObject.mk "jeweled_scarab" "scarab"
       "beautiful jeweled scarab"
       "The scarab is covered with precious jewels."
       EmptyString
       (Z.lor (ObjectFlag.value ObjectFlag.TAKEABLE) (ObjectFlag.value ObjectFlag.TREASURE))
       None 0 1 5);
      ("large_emerald",
     GameObject.mk "large_emerald" "emerald"
       "large emerald"
       "The emerald is exceptionally large and perfectly cut."
       EmptyString
       (Z.lor (ObjectFlag.value ObjectFlag.TAKEABLE) (ObjectFlag.value ObjectFlag.TREASURE))
       (Some "white_cliffs_beach_south") 0 1 5);
      ("diamond",
     GameObject.mk "diamond" "diamond"
       "huge diamond"
       "The diamond is enormous! It catches the light beautifully."
       EmptyString
       (Z.lor (ObjectFlag.value ObjectFlag.TAKEABLE) (ObjectFlag.value ObjectFlag.TREASURE))
       None 0 1 10) ].

Definition actor_assignments : list (string * Actor.t) :=
  [ ("troll",
     Actor.mk "troll" "troll"
       "A nasty-looking troll, brandishing a bloody axe, blocks all passages out of the room."
       (Some "troll_room") 100 true true
       (Py.dict
         [ ("first_encounter",
          "A nasty-looking troll, brandishing a bloody axe, blocks all passages out of the room.");
           ("fight",
          "The troll swings his axe at you!");
           ("death",
          "The troll collapses to the floor, dead.");
           ("payment",
          "The troll, satisfied with his payment, retreats to the north.");
           ("axe_thrown",
          "The troll, disarmed, cowers in terror, pleading for his life.") ]));
      ("thief",
     Actor.mk "thief" "thief"
       "A seedy-looking individual with a large bag just wandered through the room."
       None 100 false true
       (Py.dict
         [ ("first_encounter",
          "Someone carrying a large bag is casually leaning against one of the walls here.");
           ("fight",
          "The thief nimbly avoids your attack.");
           ("steal",
          "The thief skillfully relieves you of");
           ("death",
          "The thief drops his bag and falls to the floor, dead.");
           ("stiletto",
          "The thief stabs you with his stiletto!");
           ("engrossed",
          "The thief is engrossed in his booty and doesn't notice you.") ]));
      ("cyclops",
     Actor.mk "cyclops" "cyclops"
       "A cyclops, who looks prepared to eat horses (much less mere adventurers), blocks the staircase."
       (Some "cyclops_room") 200 true true
       (Py.dict
         [ ("first_encounter",
          "A cyclops, who looks prepared to eat horses (much less mere adventurers), blocks the staircase.");
           ("fight",
          "The cyclops swings his massive fist at you!");
           ("hungry",
          "The cyclops is hungry and blocking the staircase.");
           ("flees",
          "The cyclops, hearing the name of his master, flees the room by knocking down the wall on the east of the room!");
           ("odysseus",
          (Py.dq +:+ "Do you think I'm as stupid as my father was?" +:+ Py.dq +:+ " he says, and hits you with a crushing blow.")) ]));
      ("spirits",
     Actor.mk "spirits" "spirits"
       "Evil spirits guard the entrance to Hades."
       (Some "entrance_to_hades") 999 false true
       (Py.dict
         [ ("block",
          "Some invisible force prevents you from passing through the gate.");
           ("ceremony",
          "The spirits, sensing the power of the ceremony, flee in terror!");
           ("exorcise",
          "The bell, book, and candles perform an exorcism, banishing the evil spirits!") ]));
      ("bat",
     Actor.mk "bat" "bat"
       "A large vampire bat is hanging from the ceiling."
       (Some "bat_room") 10 false true
       (Py.dict
         [ ("first_encounter",
          "In the corner of the room on the ceiling is a large vampire bat who is obviously deranged and holding his nose.");
           ("garlic",
          "The bat, upon seeing the garlic, squeaks in terror and flies away!");
           ("flies",
          "The bat flies around the room.") ])) ].

(** ** Construction *)

(** the attribute values [__init__] assigns before it builds the world *)
Definition blank_game : ZorkGame :=
  mkZorkGame "Adventurer" ∅ [] [] "west_of_house" [] 0 0 true false ∅ 0
    false 330 false false false false 4 false false false false false false
    false false false 0.

Definition _init_rooms : M unit :=
  assign (fun g =>
    set_rooms (fold_left (fun m kr => <[fst kr := snd kr]> m)
                         room_assignments (rooms g)) g).

Definition _init_objects : M unit :=
  assign (fun g =>
    set_objects (fold_left (fun d ko => OrderedDict.set (fst ko) (snd ko) d)
                           object_assignments (objects g)) g) ;;
  (* Put sceptre in coffin *)
  update_object "sceptre" (GameObject.with_location (Some "coffin")).

Definition _init_actors : M unit :=
  assign (fun g =>
    set_actors (fold_left (fun d ka => OrderedDict.set (fst ka) (snd ka) d)
                          actor_assignments (actors g)) g).

Definition __init__ : M unit :=
  assign (fun _ => blank_game) ;;
  _init_rooms ;;
  _init_objects ;;
  _init_actors.

(** ** Control-flow helpers *)

Definition when (b : bool) (m : M unit) : M unit :=
  if b then m else ret tt.

Fixpoint for_each {A} (l : list A) (body : A -> M unit) : M unit :=
  match l with
  | [] => ret tt
  | x :: l' => body x ;; for_each l' body
  end.

(** The guard every object handler starts with:
    [if not command.direct_object: print(prompt); return]. *)
Definition with_direct_object (command : ParsedCommand.t) (prompt : string)
    (k : string -> M unit) : M unit :=
  match ParsedCommand.direct_object command with
  | Some o => if Py.truthy o then k o else print prompt
  | None => print prompt
  end.

(** [[o for o in self.objects.values() if o.location == place]] *)
Definition objects_located (g : ZorkGame) (place : string) : list GameObject.t :=
  filter (fun o => Py.opt_is (GameObject.location o) place)
         (OrderedDict.values (objects g)).

(** ** Visibility and name resolution *)

Definition _is_visible (g : ZorkGame) (obj_id : string) : bool :=
  match OrderedDict.get obj_id (objects g) with
  | None => false
  | Some obj =>
      (* In inventory *)
      if Py.mem obj_id (player_inventory g) then true
      (* In current room *)
      else if Py.opt_is (GameObject.location obj) (current_room g) then true
      (* In open container in room or inventory *)
      else if Py.truthy_opt (GameObject.location obj) then
        match GameObject.location obj with
        | Some loc =>
            match OrderedDict.get loc (objects g) with
            | Some container =>
                GameObject.has_flag container ObjectFlag.CONTAINER
                && (GameObject.has_flag container ObjectFlag.OPEN
                    || GameObject.has_flag container ObjectFlag.TRANSPARENT)
                && (Py.opt_is (GameObject.location container) (current_room g)
                    || Py.mem (GameObject.id container) (player_inventory g))
            | None => false
            end
        | None => false
        end
      else false
  end.

(** the key of the first entry, in iteration order, that passes the test *)
Definition first_key {V} (test : string -> V -> bool) (d : list (string * V))
    : option string :=
  option_map fst (List.find (fun kv => test (fst kv) (snd kv)) d).

Definition _find_object (g : ZorkGame) (name : string) : option string :=
  (* Also check actors *)
  match first_key (fun actor_id actor =>
                     Py.opt_is (Actor.location actor) (current_room g)
                     && String.eqb actor_id name) (actors g) with
  | Some actor_id => Some actor_id
  | None =>
  (* Check for exact matches first *)
  match first_key (fun obj_id obj =>
                     String.eqb (GameObject.name obj) name
                     && _is_visible g obj_id) (objects g) with
  | Some obj_id => Some obj_id
  | None =>
  (* Check for partial matches *)
  match first_key (fun obj_id obj =>
                     Py.contains name (GameObject.name obj)
                     && _is_visible g obj_id) (objects g) with
  | Some obj_id => Some obj_id
  | None =>
  (* Check for description matches *)
  first_key (fun obj_id obj =>
               Py.contains name (GameObject.description obj)
               && _is_visible g obj_id) (objects g)
  end end end.

(** ** The parser *)

Definition direction_map : gmap string Direction.t :=
  Py.dict
    [ ("n", Direction.NORTH); ("north", Direction.NORTH);
      ("s", Direction.SOUTH); ("south", Direction.SOUTH);
      ("e", Direction.EAST); ("east", Direction.EAST);
      ("w", Direction.WEST); ("west", Direction.WEST);
      ("ne", Direction.NE); ("northeast", Direction.NE);
      ("nw", Direction.NW); ("northwest", Direction.NW);
      ("se", Direction.SE); ("southeast", Direction.SE);
      ("sw", Direction.SW); ("southwest", Direction.SW);
      ("u", Direction.UP); ("up", Direction.UP);
      ("d", Direction.DOWN); ("down", Direction.DOWN);
      ("in", Direction.IN); ("enter", Direction.IN);
      ("out", Direction.OUT); ("exit", Direction.OUT) ].

(** the entries of the [verb_map] display, in the order they are written *)
Definition verb_map_entries : list (string * VerbType.t) :=
  [ ("take", VerbType.TAKE); ("get", VerbType.TAKE); ("pick", VerbType.TAKE);
    ("drop", VerbType.DROP); ("throw", VerbType.DROP); ("put", VerbType.DROP);
    ("open", VerbType.OPEN);
    ("close", VerbType.CLOSE); ("shut", VerbType.CLOSE);
    ("examine", VerbType.EXAMINE); ("x", VerbType.EXAMINE); ("look", VerbType.EXAMINE);
    ("l", VerbType.LOOK);
    ("inventory", VerbType.INVENTORY); ("i", VerbType.INVENTORY);
    ("quit", VerbType.QUIT); ("q", VerbType.QUIT);
    ("save", VerbType.SAVE);
    ("restore", VerbType.RESTORE); ("load", VerbType.RESTORE);
    ("restart", VerbType.RESTART);
    ("score", VerbType.SCORE);
    ("version", VerbType.VERSION);
    ("verbose", VerbType.VERBOSE);
    ("brief", VerbType.BRIEF);
    ("wait", VerbType.WAIT); ("z", VerbType.WAIT);
    ("turn", VerbType.TURN);
    ("light", VerbType.TURN_ON);
    ("extinguish", VerbType.TURN_OFF);
    ("move", VerbType.MOVE); ("push", VerbType.PUSH);
    ("read", VerbType.READ);
    ("attack", VerbType.ATTACK); ("kill", VerbType.KILL); ("fight", VerbType.ATTACK);
    ("eat", VerbType.EAT);
    ("drink", VerbType.DRINK);
    ("break", VerbType.BREAK); ("smash", VerbType.BREAK);
    ("diagnose", VerbType.DIAGNOSE);
    ("give", VerbType.GIVE);
    ("unlock", VerbType.UNLOCK);
    ("lock", VerbType.LOCK);
    ("tie", VerbType.TIE);
    ("untie", VerbType.UNTIE);
    ("burn", VerbType.BURN); ("light", VerbType.BURN);
    ("extinguish", VerbType.EXTINGUISH);
    ("ring", VerbType.RING);
    ("wind", VerbType.WIND);
    ("dig", VerbType.DIG);
    ("fill", VerbType.FILL);
    ("pour", VerbType.POUR);
    ("pray", VerbType.PRAY);
    ("wave", VerbType.WAVE);
    ("raise", VerbType.RAISE);
    ("lower", VerbType.LOWER);
    ("climb", VerbType.CLIMB);
    ("jump", VerbType.JUMP) ].

Definition verb_map : gmap string VerbType.t := Py.dict verb_map_entries.

Definition verb_is (command : ParsedCommand.t) (v : VerbType.t) : bool :=
  match ParsedCommand.verb command with
  | Some v' => VerbType.eqb v' v
  | None => false
  end.

Definition _parse_command (g : ZorkGame) (user_input : string) : ParsedCommand.t :=
  let command := ParsedCommand.mk None None None None user_input in
  let words := Py.split user_input in
  match words with
  | [] => command
  | word0 :: rest =>
      (* Check for direction shortcuts *)
      match direction_map !! word0 with
      | Some d => ParsedCommand.with_direction (Some d) command
      | None =>
          (* Parse verbs *)
          let verb_word := word0 in
          match verb_map !! verb_word with
          | None => command
          | Some v =>
              let command := ParsedCommand.with_verb (Some v) command in
              (* Parse objects if present *)
              if (1 <? length words)%nat then
                let remaining := Py.join " " rest in
                (* Special case for "look at X" *)
                let remaining :=
                  if verb_is command VerbType.EXAMINE
                     && Py.startswith remaining "at "
                  then Py.drop 3 remaining else remaining in
                (* Special case for "turn on/off" *)
                let '(command, remaining) :=
                  if verb_is command VerbType.TURN then
                    if Py.startswith remaining "on " then
                      (ParsedCommand.with_verb (Some VerbType.TURN_ON) command,
                       Py.drop 3 remaining)
                    else if Py.startswith remaining "off " then
                      (ParsedCommand.with_verb (Some VerbType.TURN_OFF) command,
                       Py.drop 4 remaining)
                    else (command, remaining)
                  else (command, remaining) in
                (* Special case for "pick up" *)
                let remaining :=
                  if verb_is command VerbType.TAKE
                     && Py.startswith remaining "up "
                  then Py.drop 3 remaining else remaining in
                (* Find direct object *)
                ParsedCommand.with_direct_object
                  (_find_object g remaining) command
              else command
          end
      end
  end.

(** ** Light, looking and dying *)

Definition is_lit (o : GameObject.t) : bool :=
  GameObject.has_flag o ObjectFlag.LIGHT
  && GameObject.has_flag o ObjectFlag.TURNEDON.

(** the first loop of [_can_see]: a lit light source among the carried
    objects; [self.objects[obj_id]] raises for an id with no object *)
Fixpoint carried_light (inventory : list string) : M bool :=
  match inventory with
  | [] => ret false
  | obj_id :: rest =>
      obj <- object_at obj_id ;;
      if is_lit obj then ret true else carried_light rest
  end.

Definition _can_see : M bool :=
  g <- self ;;
  room <- room_at (current_room g) ;;
  if Room.has_flag room RoomFlag.LIT then ret true
  else
    (* Check for light sources *)
    carried <- carried_light (player_inventory g) ;;
    if carried then ret true
    else
      ret (existsb (fun obj => Py.opt_is (GameObject.location obj) (current_room g)
                               && is_lit obj)
                   (OrderedDict.values (objects g))).

Definition print_contents (contents : list GameObject.t) : M unit :=
  for_each contents (fun item => print ("  A " +:+ GameObject.description item)).

Definition _examine (command : ParsedCommand.t) : M unit :=
  with_direct_object command "What do you want to examine?" (fun direct_object =>
    g <- self ;;
    (* Check if it's an actor *)
    if OrderedDict.contains direct_object (actors g) then
      actor <- actor_at direct_object ;;
      if Py.opt_is (Actor.location actor) (current_room g)
      then print (Actor.description actor)
      else print "You don't see that here."
    else
      obj <- object_at direct_object ;;
      print (GameObject.examine_text obj) ;;
      (* Show contents if container *)
      when (GameObject.has_flag obj ObjectFlag.CONTAINER
            && (GameObject.has_flag obj ObjectFlag.OPEN
                || GameObject.has_flag obj ObjectFlag.TRANSPARENT))
        (match objects_located g (GameObject.id obj) with
         | [] =>
             when (GameObject.has_flag obj ObjectFlag.OPEN)
               (print ("The " +:+ GameObject.name obj +:+ " is empty."))
         | contents =>
             print ("The " +:+ GameObject.name obj +:+ " contains:") ;;
             print_contents contents
         end)).

(** the objects [_look] never lists with "There is a ... here." *)
Definition unlisted : list string :=
  [ "case"; "rug"; "window"; "control_panel"; "prayer"; "mirror_south";
    "mirror_north"; "chimney"; "chain"; "switch"; "green_button";
    "red_button" ].

(** the loop "List visible objects" of [_look]: it prints as it goes and
    returns [room_objects] *)
Fixpoint look_objects (room : Room.t) (items : list (string * GameObject.t))
    : M (list GameObject.t) :=
  match items with
  | [] => ret []
  | (obj_id, obj) :: rest =>
      g <- self ;;
      if Py.opt_is (GameObject.location obj) (current_room g) then
        (* Special handling *)
        if String.eqb obj_id "trap_door" then
          (if GameObject.has_flag obj ObjectFlag.OPEN
           then print "There is an open trap door here."
           else print "There is a closed trap door here.") ;;
          look_objects room rest
        else
          skipped <-
            (if String.eqb obj_id "grating" then
               leaves <- object_at "leaves" ;;
               ret (negb (Py.opt_is (GameObject.location leaves) "clearing"))
             else ret false) ;;
          if skipped then
            (* Don't show grating until leaves moved *)
            look_objects room rest
          else if Py.truthy (GameObject.initial_text obj)
                  && negb (bool_decide (Room.id room ∈ visited_rooms g)) then
            print (GameObject.initial_text obj) ;;
            look_objects room rest
          else
            room_objects <- look_objects room rest ;;
            ret (obj :: room_objects)
      else look_objects room rest
  end.

(** the loop "List containers' contents" of [_look] *)
Definition look_containers (g : ZorkGame) : M unit :=
  for_each (objects g) (fun entry =>
    let obj_id := fst entry in
    let obj := snd entry in
    when (Py.opt_is (GameObject.location obj) (current_room g)
          && GameObject.has_flag obj ObjectFlag.CONTAINER
          && (GameObject.has_flag obj ObjectFlag.OPEN
              || GameObject.has_flag obj ObjectFlag.TRANSPARENT))
      (match objects_located g obj_id with
       | [] => ret tt
       | contents =>
           (if GameObject.has_flag obj ObjectFlag.TRANSPARENT
            then print ("The " +:+ GameObject.name obj +:+ " contains:")
            else print ("The " +:+ GameObject.name obj +:+ " is open. It contains:")) ;;
           print_contents contents
       end)).

Definition _look (command : option ParsedCommand.t) : M unit :=
  let examined :=
    match command with
    | Some c =>
        if Py.truthy_opt (ParsedCommand.direct_object c) then Some c else None
    | None => None
    end in
  match examined with
  | Some c => _examine c
  | None =>
      g <- self ;;
      room <- room_at (current_room g) ;;
      (* Check if can see *)
      can_see <- _can_see ;;
      if negb can_see then ret tt
      else
        (* Room name *)
        (if bool_decide (Room.id room ∈ visited_rooms g) && negb (verbose g)
         then print (Room.name room)
         else print (Room.name room) ;; print (Room.description room)) ;;
        assign (fun g => set_visited_rooms ({[Room.id room]} ∪ visited_rooms g) g) ;;
        (* Special room descriptions *)
        when (String.eqb (current_room g) "loud_room")
          (print ("The sound level is: " +:+ Py.str_of_int (loud_room_level g))) ;;
        (* Check for actors *)
        for_each (actors g) (fun entry =>
          let actor := snd entry in
          when (Py.opt_is (Actor.location actor) (current_room g)
                && Actor.active actor)
            (print (default (Actor.description actor)
                            (Actor.messages actor !! "first_encounter")))) ;;
        (* List visible objects *)
        room_objects <- look_objects room (objects g) ;;
        (* List containers' contents *)
        look_containers g ;;
        (* List other objects *)
        for_each room_objects (fun obj =>
          when (negb (Py.mem (GameObject.id obj) unlisted))
            (print ("There is a " +:+ GameObject.description obj +:+ " here.")))
  end.

Definition _death (message : string) : M unit :=
  print message ;;
  assign (fun g => set_deaths (deaths g + 1) g) ;;
  print (Py.nl +:+ "    ****  You have died  ****" +:+ Py.nl) ;;
  (* Drop everything *)
  g <- self ;;
  for_each (player_inventory g) (fun obj_id =>
    update_object obj_id (GameObject.with_location (Some (current_room g))) ;;
    inventory_remove obj_id) ;;
  (* Restore player *)
  assign (set_current_room "west_of_house") ;;
  print "As you take your last breath, you feel yourself being pulled from your body." ;;
  print "You float upward, watching your corpse below. Suddenly, you find yourself..." ;;
  print "" ;;
  _look None.

Definition _check_light : M unit :=
  g <- self ;;
  room <- room_at (current_room g) ;;
  (* Room is naturally lit *)
  if Room.has_flag room RoomFlag.LIT then ret tt
  else
    (* Check for light source *)
    can_see <- _can_see ;;
    when (negb can_see)
      (print "It is pitch black. You are likely to be eaten by a grue." ;;
       roll <- randint 1 4 ;;
       when (roll =? 1)
         (print (Py.nl +:+ "Oh, no! You have walked into the slavering fangs of a lurking grue!") ;;
          _death "You have died.")).

(** ** Movement *)

Definition move_to (room_id : string) : M unit :=
  assign (set_current_room room_id).

Definition _go (direction : Direction.t) : M unit :=
  g <- self ;;
  let here := current_room g in
  room <- room_at here ;;
  (* Trap door *)
  if String.eqb here "living_room" && Direction.eqb direction Direction.DOWN then
    if Py.mem "trap_door" (map GameObject.id (objects_located g "living_room")) then
      trap_door <- object_at "trap_door" ;;
      if GameObject.has_flag trap_door ObjectFlag.OPEN then
        move_to "cellar" ;; _check_light ;; _look None
      else print "The trap door is closed."
    else print "You can't go that way."
  (* Grating *)
  else if String.eqb here "grating_room" && Direction.eqb direction Direction.UP then
    if grating_unlocked g then move_to "clearing" ;; _look None
    else print "The grating is locked."
  (* Window *)
  else if String.eqb here "behind_house"
          && (Direction.eqb direction Direction.WEST
              || Direction.eqb direction Direction.IN) then
    window <- object_at "window" ;;
    if GameObject.has_flag window ObjectFlag.OPEN then
      move_to "kitchen" ;; _look None
    else print "The window is closed."
  (* Strange Passage *)
  else if String.eqb here "living_room" && Direction.eqb direction Direction.WEST then
    if negb (cyclops_fled g) then print "The door is nailed shut."
    else move_to "strange_passage" ;; _look None
  else
    (* Cyclops blocks stairs *)
    blocked <-
      (if String.eqb here "cyclops_room" && Direction.eqb direction Direction.UP then
         cyclops <- actor_at "cyclops" ;;
         if Py.opt_is (Actor.location cyclops) "cyclops_room" && Actor.active cyclops
         then print "The cyclops blocks the staircase." ;; ret true
         else ret false
       else ret false) ;;
    if blocked then ret tt else
    (* Troll blocks passages *)
    blocked <-
      (if String.eqb here "troll_room" then
         troll <- actor_at "troll" ;;
         if Py.opt_is (Actor.location troll) "troll_room" && Actor.active troll
            && negb (troll_payment g)
         then print "The troll blocks your way!" ;; ret true
         else ret false
       else ret false) ;;
    if blocked then ret tt else
    (* Spirits block entrance to Hades *)
    blocked <-
      (if String.eqb here "entrance_to_hades"
          && Direction.eqb direction Direction.SOUTH
          && negb (spirits_released g) then
         spirits <- actor_at "spirits" ;;
         match Actor.messages spirits !! "block" with
         | Some text => print text ;; ret true
         | None => raise (KeyError "block")
         end
       else ret false) ;;
    if blocked then ret tt else
    (* Dam/Reservoir navigation *)
    if String.eqb here "reservoir" && negb (dam_open g) then
      print "You can't swim in the deep water."
    (* Rainbow *)
    else if String.eqb here "end_of_rainbow"
            && Direction.eqb direction Direction.EAST
            && negb (rainbow_solid g) then
      print "Can you walk on water vapor?"
    (* Slide is one-way *)
    else if String.eqb here "slide_room" && Direction.eqb direction Direction.DOWN then
      print "Wheeeee!" ;; move_to "cellar" ;; _look None
    (* Normal movement *)
    else
      match Room.exits room !! direction with
      | Some new_room =>
          if String.eqb new_room here then (* Can't go that way *)
            print "You can't go that way."
          else
            move_to new_room ;; _check_light ;; _look None
      | None => print "You can't go that way."
      end.

(** ** The verb handlers *)

Definition _take (command : ParsedCommand.t) : M unit :=
  with_direct_object command "What do you want to take?" (fun direct_object =>
    g <- self ;;
    (* Can't take actors *)
    if OrderedDict.contains direct_object (actors g) then
      print ("The " +:+ direct_object +:+ " is too heavy.")
    else
      let obj_id := direct_object in
      obj <- object_at obj_id ;;
      (* Check if takeable *)
      if negb (GameObject.has_flag obj ObjectFlag.TAKEABLE) then
        print "You can't take that."
      (* Check if already carried *)
      else if Py.mem obj_id (player_inventory g) then
        print "You already have that."
      (* Check if in a container *)
      else if match GameObject.location obj with
              | Some loc =>
                  match OrderedDict.get loc (objects g) with
                  | Some container =>
                      GameObject.has_flag container ObjectFlag.CONTAINER
                      && negb (GameObject.has_flag container ObjectFlag.OPEN
                               || GameObject.has_flag container ObjectFlag.TRANSPARENT)
                  | None => false
                  end
              | None => false
              end then
        print ("You can't see any " +:+ GameObject.name obj +:+ " here.")
      (* Check inventory limit *)
      else if (7 <=? length (player_inventory g))%nat then
        print "Your load is too heavy."
      else
        (* Take it *)
        assign (fun g => set_player_inventory (player_inventory g ++ [obj_id]) g) ;;
        update_object obj_id (GameObject.with_location (Some "player")) ;;
        print "Taken." ;;
        (* Special cases *)
        when (GameObject.has_flag obj ObjectFlag.TREASURE)
          (assign (fun g => set_score (score g + GameObject.value obj) g))).

Definition _drop (command : ParsedCommand.t) : M unit :=
  with_direct_object command "What do you want to drop?" (fun obj_id =>
    g <- self ;;
    if negb (Py.mem obj_id (player_inventory g)) then
      print "You don't have that."
    else
      (* Drop it *)
      inventory_remove obj_id ;;
      obj <- object_at obj_id ;;
      update_object obj_id (GameObject.with_location (Some (current_room g))) ;;
      print "Dropped." ;;
      (* Check if dropped in trophy case *)
      when (String.eqb (current_room g) "living_room")
        (trophy_case <- object_at "case" ;;
         when (GameObject.has_flag trophy_case ObjectFlag.OPEN
               && GameObject.has_flag obj ObjectFlag.TREASURE)
           (update_object obj_id (GameObject.with_location (Some "case")) ;;
            assign (fun g => set_treasures_deposited (treasures_deposited g + 1) g) ;;
            print ("The " +:+ GameObject.name obj +:+ " is now in the trophy case.") ;;
            assign (fun g => set_score (score g + GameObject.value obj) g)))).

Definition _inventory (command : ParsedCommand.t) : M unit :=
  g <- self ;;
  match player_inventory g with
  | [] => print "You are empty-handed."
  | inventory =>
      print "You are carrying:" ;;
      for_each inventory (fun obj_id =>
        obj <- object_at obj_id ;;
        print ("  A " +:+ GameObject.description obj) ;;
        when (GameObject.has_flag obj ObjectFlag.TURNEDON)
          (print "    (providing light)"))
  end.

Definition _open (command : ParsedCommand.t) : M unit :=
  with_direct_object command "What do you want to open?" (fun obj_id =>
    obj <- object_at obj_id ;;
    (* Special case for window *)
    if String.eqb obj_id "window" then
      print "With great effort, you open the window far enough to allow entry." ;;
      update_object obj_id (GameObject.set_flag ObjectFlag.OPEN true) ;;
      set_exit "behind_house" Direction.WEST "kitchen" ;;
      set_exit "behind_house" Direction.IN "kitchen"
    (* Special case for egg *)
    else if String.eqb obj_id "jeweled_egg" then
      if GameObject.has_flag obj ObjectFlag.OPEN
      then print "It's already open."
      else print "You have neither the tools nor the expertise."
    (* Check if openable *)
    else if negb (GameObject.has_flag obj ObjectFlag.CONTAINER
                  || GameObject.has_flag obj ObjectFlag.DOOR) then
      print "You can't open that."
    (* Check if already open *)
    else if GameObject.has_flag obj ObjectFlag.OPEN then
      print "It's already open."
    (* Check if locked *)
    else if GameObject.has_flag obj ObjectFlag.LOCKED then
      print "It's locked."
    else
      (* Open it *)
      update_object obj_id (GameObject.set_flag ObjectFlag.OPEN true) ;;
      update_object obj_id (GameObject.set_flag ObjectFlag.CLOSED false) ;;
      print "Opened." ;;
      (* Show contents *)
      g <- self ;;
      when (GameObject.has_flag obj ObjectFlag.CONTAINER)
        (match objects_located g obj_id with
         | [] => ret tt
         | contents =>
             print ("Opening the " +:+ GameObject.name obj +:+ " reveals:") ;;
             print_contents contents
         end) ;;
      (* Special case for coffin *)
      when (String.eqb obj_id "coffin") (assign (set_coffin_open true)) ;;
      (* Special case for machine *)
      when (String.eqb obj_id "machine")
        (coal <- object_at "pile_of_coal" ;;
         when (Py.opt_is (GameObject.location coal) "machine")
           (print "The machine comes to life and creates a beautiful diamond!" ;;
            update_object "diamond" (GameObject.with_location (Some "machine")) ;;
            del_object "pile_of_coal"))).

Definition _close (command : ParsedCommand.t) : M unit :=
  with_direct_object command "What do you want to close?" (fun obj_id =>
    obj <- object_at obj_id ;;
    (* Check if closeable *)
    if negb (GameObject.has_flag obj ObjectFlag.CONTAINER
             || GameObject.has_flag obj ObjectFlag.DOOR) then
      print "You can't close that."
    (* Check if already closed *)
    else if GameObject.has_flag obj ObjectFlag.CLOSED then
      print "It's already closed."
    else
      (* Close it *)
      update_object obj_id (GameObject.set_flag ObjectFlag.OPEN false) ;;
      update_object obj_id (GameObject.set_flag ObjectFlag.CLOSED true) ;;
      print "Closed.").

Definition _read (command : ParsedCommand.t) : M unit :=
  with_direct_object command "What do you want to read?" (fun direct_object =>
    obj <- object_at direct_object ;;
    if negb (GameObject.has_flag obj ObjectFlag.READABLE) then
      print "There's nothing to read."
    else
      print (GameObject.examine_text obj) ;;
      (* Special case for black book *)
      when (String.eqb direct_object "book") (assign (set_book_read true)) ;;
      (* Special case for prayer *)
      when (String.eqb direct_object "prayer")
        (print ("The prayer mentions the following words: " +:+ Py.dq +:+ "bell"
                +:+ Py.dq +:+ ", " +:+ Py.dq +:+ "book" +:+ Py.dq +:+ ", and "
                +:+ Py.dq +:+ "candles" +:+ Py.dq +:+ "."))).

Definition _turn_on (command : ParsedCommand.t) : M unit :=
  with_direct_object command "What do you want to turn on?" (fun obj_id =>
    obj <- object_at obj_id ;;
    if negb (GameObject.has_flag obj ObjectFlag.TURNNABLE) then
      print "You can't turn that on."
    else
      when (String.eqb obj_id "lamp")
        (g <- self ;;
         if lamp_on g then print "It's already on."
         else if 0 <? lamp_life g then
           assign (set_lamp_on true) ;;
           update_object obj_id (GameObject.set_flag ObjectFlag.TURNEDON true) ;;
           update_object obj_id (GameObject.set_flag ObjectFlag.LIGHT true) ;;
           update_object obj_id
             (GameObject.with_examine_text "It is a shiny brass lamp. It is lit.") ;;
           print "The lamp is now on." ;;
           room <- room_at (current_room g) ;;
           when (negb (Room.has_flag room RoomFlag.LIT)) (_look None)
         else print "The lamp has run out of power.")).

Definition _turn_off (command : ParsedCommand.t) : M unit :=
  with_direct_object command "What do you want to turn off?" (fun obj_id =>
    obj <- object_at obj_id ;;
    if negb (GameObject.has_flag obj ObjectFlag.TURNNABLE) then
      print "You can't turn that off."
    else
      when (String.eqb obj_id "lamp")
        (g <- self ;;
         if negb (lamp_on g) then print "It's already off."
         else
           assign (set_lamp_on false) ;;
           update_object obj_id (GameObject.set_flag ObjectFlag.TURNEDON false) ;;
           update_object obj_id (GameObject.set_flag ObjectFlag.LIGHT false) ;;
           update_object obj_id
             (GameObject.with_examine_text
                "It is a shiny brass lamp. It is not currently lit.") ;;
           print "The lamp is now off." ;;
           _check_light)).

Definition _move (command : ParsedCommand.t) : M unit :=
  with_direct_object command "What do you want to move?" (fun obj_id =>
    if String.eqb obj_id "rug" then
      trap_door <- object_at "trap_door" ;;
      match GameObject.location trap_door with
      | None =>
          print "With a great effort, the rug is moved to one side of the room, revealing the dusty cover of a closed trap door." ;;
          update_object "trap_door" (GameObject.with_location (Some "living_room"))
      | Some _ =>
          print "Having moved the rug previously, you find it impossible to move it again."
      end
    else if String.eqb obj_id "leaves" then
      grating <- object_at "grating" ;;
      match GameObject.location grating with
      | None =>
          print "In disturbing the pile of leaves, a grating is revealed." ;;
          update_object "grating" (GameObject.with_location (Some "clearing")) ;;
          set_exit "clearing" Direction.DOWN "grating_room"
      | Some _ => print "You've already done that."
      end
    else print "You can't move that.").

Definition _drain_reservoir : M unit :=
  (* Change room descriptions *)
  update_room "reservoir"
    (Room.with_description
       "You are in a long room, once a large reservoir. There is a north-south path across the room.") ;;
  update_room "reservoir"
    (fun r => Room.with_flags
                (Z.land (Room.flags r) (Z.lnot (RoomFlag.value RoomFlag.ONWATER))) r) ;;
  set_exit "reservoir" Direction.NORTH "reservoir_north" ;;
  set_exit "reservoir" Direction.SOUTH "reservoir_south" ;;
  update_room "reservoir_south"
    (Room.with_description
       "You are in a long room on the south shore of a dried-up reservoir.") ;;
  update_room "reservoir_north"
    (Room.with_description
       "You are in a large cavernous room, north of a dried-up reservoir.") ;;
  (* Reveal trunk *)
  trunk <- object_at "trunk" ;;
  match GameObject.location trunk with
  | None => update_object "trunk" (GameObject.with_location (Some "reservoir_north"))
  | Some _ => ret tt
  end ;;
  (* Update loud room *)
  assign (set_loud_room_level 8).

Definition _fill_reservoir : M unit :=
  (* Change room descriptions back *)
  update_room "reservoir"
    (Room.with_description
       "You are on the lake. Beaches can be seen north and south. Upstream a small stream enters the lake through a narrow cleft in the rocks. The dam can be seen downstream.") ;;
  update_room "reservoir"
    (fun r => Room.with_flags
                (Z.lor (Room.flags r) (RoomFlag.value RoomFlag.ONWATER)) r) ;;
  update_room "reservoir_south"
    (Room.with_description
       "You are in a long room on the south shore of a large lake, far too deep and wide for crossing.") ;;
  update_room "reservoir_north"
    (Room.with_description
       "You are in a large cavernous room, north of a large lake.") ;;
  (* Update loud room *)
  assign (set_loud_room_level 4).

Definition _push (command : ParsedCommand.t) : M unit :=
  with_direct_object command "What do you want to push?" (fun obj_id =>
    g <- self ;;
    (* Push button *)
    if Py.mem obj_id ["green_button"; "red_button"; "button"]
       && String.eqb (current_room g) "dam" then
      if String.eqb obj_id "green_button"
         || (String.eqb obj_id "button" && negb (dam_open g)) then
        if negb (dam_open g) then
          print "The sluice gates open and water pours through the dam." ;;
          assign (set_dam_open true) ;;
          _drain_reservoir
        else print "The gates are already open."
      else if String.eqb obj_id "red_button"
              || (String.eqb obj_id "button" && dam_open g) then
        if dam_open g then
          print "The sluice gates close and water starts to accumulate." ;;
          assign (set_dam_open false) ;;
          _fill_reservoir
        else print "The gates are already closed."
      else ret tt
    else _move command).

(** [actor.messages[key]] *)
Definition message_of (actor : Actor.t) (key : string) : M string :=
  match Actor.messages actor !! key with
  | Some text => ret text
  | None => raise (KeyError key)
  end.

Definition _attack (command : ParsedCommand.t) : M unit :=
  with_direct_object command "What do you want to attack?" (fun target =>
    g <- self ;;
    (* Check if attacking an actor *)
    if OrderedDict.contains target (actors g) then
      actor <- actor_at target ;;
      if negb (Py.opt_is (Actor.location actor) (current_room g)) then
        print "You don't see that here."
      else if String.eqb target "troll" then
        if Py.mem "sword" (player_inventory g) then
          print "The troll takes a vicious swipe at you with his axe, but you deftly dodge." ;;
          print "You charge the troll, who attempts to dodge, but is unsuccessful." ;;
          text <- message_of actor "death" ;;
          print text ;;
          update_actor target (Actor.with_active false) ;;
          update_actor target (Actor.with_location None) ;;
          axe <- object_at "axe" ;;
          when (Py.opt_is (GameObject.location axe) "troll")
            (update_object "axe" (GameObject.with_location (Some "troll_room")))
        else
          print "Trying to attack the troll with your bare hands is suicidal." ;;
          _death "The troll hits you with a crushing blow."
      else if String.eqb target "thief" then
        print "The thief is a formidable opponent. He dodges your attack." ;;
        roll <- randint 1 3 ;;
        when (roll =? 1)
          (text <- message_of actor "stiletto" ;;
           print text ;;
           _death "The thief stabs you with his stiletto.")
      else if String.eqb target "cyclops" then
        print "The cyclops laughs at your puny attack!" ;;
        print "The cyclops hits you with a crushing blow." ;;
        _death "The cyclops has knocked you senseless."
      else if String.eqb target "spirits" then
        print "How can you attack spirits?"
      else if String.eqb target "bat" then
        print "The bat flies away from your attack." ;;
        update_actor target (Actor.with_location None)
      else ret tt
    else print "I don't know what you're trying to attack.").

Definition _eat (command : ParsedCommand.t) : M unit :=
  with_direct_object command "What do you want to eat?" (fun direct_object =>
    obj <- object_at direct_object ;;
    g <- self ;;
    if negb (GameObject.has_flag obj ObjectFlag.EDIBLE) then
      print ("I don't think the " +:+ GameObject.name obj +:+ " would agree with you.")
    else if negb (Py.mem direct_object (player_inventory g)) then
      print "You don't have that."
    else
      print "Thank you very much. It really hit the spot." ;;
      inventory_remove direct_object ;;
      del_object direct_object).

Definition _drink (command : ParsedCommand.t) : M unit :=
  with_direct_object command "What do you want to drink?" (fun direct_object =>
    obj <- object_at direct_object ;;
    if negb (GameObject.has_flag obj ObjectFlag.DRINKABLE) then
      print "You can't drink that!"
    else
      print "Thank you very much. I was very thirsty." ;;
      when (String.eqb direct_object "water")
        (update_object "bottle"
           (GameObject.with_examine_text "The glass bottle is empty.") ;;
         del_object "water")).

Definition _give (command : ParsedCommand.t) : M unit :=
  with_direct_object command "What do you want to give?" (fun direct_object =>
    g <- self ;;
    (* Simple implementation - check for troll *)
    if String.eqb (current_room g) "troll_room" then
      troll <- actor_at "troll" ;;
      if Actor.active troll then
        if Py.mem direct_object (player_inventory g) then
          obj <- object_at direct_object ;;
          if GameObject.has_flag obj ObjectFlag.TREASURE then
            print "The troll catches your treasure and scurries away out of sight." ;;
            inventory_remove direct_object ;;
            del_object direct_object ;;
            update_actor "troll" (Actor.with_active false) ;;
            update_actor "troll" (Actor.with_location None) ;;
            assign (set_troll_payment true)
          else print "The troll is not interested in your offering."
        else print "You don't have that."
      else print "There's no one here to give it to."
    else print "There's no one here to give it to.").

Definition _unlock (command : ParsedCommand.t) : M unit :=
  with_direct_object command "What do you want to unlock?" (fun obj_id =>
    located <-
      (if String.eqb obj_id "grating" then
         grating <- object_at "grating" ;;
         ret (match GameObject.location grating with Some _ => true | None => false end)
       else ret false) ;;
    if located then
      g <- self ;;
      if Py.mem "skeleton_key" (player_inventory g) then
        print "The grating is unlocked." ;;
        assign (set_grating_unlocked true) ;;
        update_object "grating" (GameObject.set_flag ObjectFlag.LOCKED false) ;;
        set_exit "grating_room" Direction.UP "clearing"
      else print "You don't have the right key."
    else print "You can't unlock that.").

Definition _lock (command : ParsedCommand.t) : M unit :=
  with_direct_object command "What do you want to lock?" (fun _ =>
    print "You can't lock that.").

Definition _tie (command : ParsedCommand.t) : M unit :=
  with_direct_object command "What do you want to tie?" (fun direct_object =>
    g <- self ;;
    if String.eqb direct_object "rope" && Py.mem "rope" (player_inventory g) then
      if String.eqb (current_room g) "dome_room" then
        print "The rope is tied to the wooden railing." ;;
        update_object "rope" (GameObject.with_location (Some "dome_room")) ;;
        inventory_remove "rope" ;;
        set_exit "dome_room" Direction.DOWN "torch_room"
      else if String.eqb (current_room g) "shaft_room" then
        print "The rope is tied to the iron framework." ;;
        update_object "rope" (GameObject.with_location (Some "shaft_room")) ;;
        inventory_remove "rope" ;;
        set_exit "shaft_room" Direction.DOWN "drafty_room"
      else print "You can't tie the rope to anything here."
    else print "You can't tie that.").

Definition _untie (command : ParsedCommand.t) : M unit :=
  with_direct_object command "What do you want to untie?" (fun direct_object =>
    if String.eqb direct_object "rope" then
      rope <- object_at "rope" ;;
      if Py.opt_is (GameObject.location rope) "dome_room"
         || Py.opt_is (GameObject.location rope) "shaft_room" then
        print "The rope is untied." ;;
        assign (fun g => set_player_inventory (player_inventory g ++ ["rope"]) g) ;;
        update_object "rope" (GameObject.with_location (Some "player")) ;;
        g <- self ;;
        if String.eqb (current_room g) "dome_room" then
          del_exit "dome_room" Direction.DOWN
        else if String.eqb (current_room g) "shaft_room" then
          del_exit "shaft_room" Direction.DOWN
        else ret tt
      else print "The rope is not tied to anything."
    else print "You can't untie that.").

Definition _burn (command : ParsedCommand.t) : M unit :=
  with_direct_object command "What do you want to burn?" (fun direct_object =>
    obj <- object_at direct_object ;;
    if GameObject.has_flag obj ObjectFlag.FLAMMABLE then
      (* Check for flame source *)
      g <- self ;;
      torch <- object_at "torch" ;;
      has_flame <-
        (if Py.opt_is (GameObject.location torch) "player"
            && GameObject.has_flag torch ObjectFlag.TURNEDON then ret true
         else
           candles <- object_at "candles" ;;
           if Py.opt_is (GameObject.location candles) "player" && candles_lit g
           then ret true
           else ret (Py.mem "matchbook" (player_inventory g))) ;;
      if has_flame then
        if String.eqb direct_object "candles" then
          print "The candles are lit." ;;
          assign (set_candles_lit true) ;;
          update_object direct_object (GameObject.set_flag ObjectFlag.LIGHT true) ;;
          update_object direct_object (GameObject.set_flag ObjectFlag.TURNEDON true)
        else
          print ("The " +:+ GameObject.name obj +:+ " burns to ashes.") ;;
          when (Py.mem direct_object (player_inventory g))
            (inventory_remove direct_object) ;;
          del_object direct_object
      else print "You have no flame source."
    else print "You can't burn that.").

Definition _extinguish (command : ParsedCommand.t) : M unit :=
  with_direct_object command "What do you want to extinguish?" (fun direct_object =>
    g <- self ;;
    if String.eqb direct_object "candles" && candles_lit g then
      print "The candles are extinguished." ;;
      assign (set_candles_lit false) ;;
      update_object "candles" (GameObject.set_flag ObjectFlag.LIGHT false) ;;
      update_object "candles" (GameObject.set_flag ObjectFlag.TURNEDON false)
    else if String.eqb direct_object "torch" then
      print "You can't extinguish that."
    else _turn_off command).

Definition _check_exorcism : M unit :=
  g <- self ;;
  when (String.eqb (current_room g) "entrance_to_hades"
        && bell_rung g && book_read g && candles_lit g)
    (print (Py.nl +:+ "Suddenly, the bell, book, and candles begin to glow!") ;;
     spirits <- actor_at "spirits" ;;
     text <- message_of spirits "exorcise" ;;
     print text ;;
     assign (set_spirits_released true) ;;
     update_actor "spirits" (Actor.with_active false) ;;
     update_actor "spirits" (Actor.with_location None) ;;
     set_exit "entrance_to_hades" Direction.SOUTH "land_of_the_dead").

Definition _ring (command : ParsedCommand.t) : M unit :=
  with_direct_object command "What do you want to ring?" (fun direct_object =>
    g <- self ;;
    if String.eqb direct_object "bell" && Py.mem direct_object (player_inventory g) then
      print "Ding, dong." ;;
      assign (set_bell_rung true) ;;
      _check_exorcism
    else print "You can't ring that.").

Definition _wind (command : ParsedCommand.t) : M unit :=
  with_direct_object command "What do you want to wind?" (fun direct_object =>
    g <- self ;;
    if String.eqb direct_object "canary"
       && Py.mem "golden_canary" (player_inventory g) then
      print "The canary chirps, slightly off-key, an aria from a forgotten opera. From out of the greenery flies a lovely songbird. It perches on a limb just over your head and opens its beak to sing. As it does so a beautiful brass bauble drops from its mouth, bounces off the top of your head, and lands glimmering in the grass. As the canary winds down, the songbird flies away." ;;
      assign (fun g =>
        set_objects
          (OrderedDict.set "bauble"
             (GameObject.mk "bauble" "bauble" "beautiful brass bauble"
                "It's a beautiful brass bauble." EmptyString
                (Z.lor (ObjectFlag.value ObjectFlag.TAKEABLE)
                       (ObjectFlag.value ObjectFlag.TREASURE))
                (Some (current_room g)) 0 1 1)
             (objects g)) g)
    else print "You can't wind that.").

Definition _dig (command : ParsedCommand.t) : M unit :=
  g <- self ;;
  if negb (Py.mem "shovel" (player_inventory g)) then
    print "You don't have anything to dig with."
  else if String.eqb (current_room g) "white_cliffs_beach_south" then
    scarab <- object_at "jeweled_scarab" ;;
    match GameObject.location scarab with
    | None =>
        print "You dig in the sand and uncover a beautiful scarab!" ;;
        update_object "jeweled_scarab"
          (GameObject.with_location (Some "white_cliffs_beach_south"))
    | Some _ => print "You find nothing else."
    end
  else print "The ground is too hard to dig here.".

Definition _fill (command : ParsedCommand.t) : M unit :=
  with_direct_object command "What do you want to fill?" (fun direct_object =>
    g <- self ;;
    if String.eqb direct_object "bottle"
       && Py.mem direct_object (player_inventory g) then
      by_water <-
        (if Py.mem (current_room g) ["stream"; "reservoir"] then ret true
         else
           room <- room_at (current_room g) ;;
           ret (Room.has_flag room RoomFlag.ONWATER)) ;;
      if by_water then
        if negb (Py.mem "water" (map GameObject.id (objects_located g "bottle"))) then
          print "The bottle is now full of water." ;;
          assign (fun g =>
            set_objects
              (OrderedDict.set "water"
                 (GameObject.mk "water" "water" "quantity of water" EmptyString
                    EmptyString (ObjectFlag.value ObjectFlag.DRINKABLE)
                    (Some "bottle") 0 1 0)
                 (objects g)) g) ;;
          update_object "bottle"
            (GameObject.with_examine_text
               ("The glass bottle contains:" +:+ Py.nl +:+ "  A quantity of water"))
        else print "The bottle is already full."
      else print "There's no water here."
    else print "You can't fill that.").

Definition _pour (command : ParsedCommand.t) : M unit :=
  with_direct_object command "What do you want to pour?" (fun direct_object =>
    g <- self ;;
    if String.eqb direct_object "water" then
      if Py.mem "water"
           (map GameObject.id
              (filter (fun obj => Py.opt_is (GameObject.location obj) "bottle"
                                  && Py.mem "bottle" (player_inventory g))
                      (OrderedDict.values (objects g)))) then
        print "The water splashes on the ground and evaporates." ;;
        del_object "water" ;;
        update_object "bottle"
          (GameObject.with_examine_text "The glass bottle is empty.")
      else print "You don't have any water."
    else print "You can't pour that.").

Definition _pray (command : ParsedCommand.t) : M unit :=
  g <- self ;;
  if String.eqb (current_room g) "altar" then
    print "The ground shakes and a passage opens beneath you!" ;;
    set_exit "altar" Direction.DOWN "cave_1"
  else print "Nothing happens.".

Definition _wave (command : ParsedCommand.t) : M unit :=
  with_direct_object command "What do you want to wave?" (fun obj_id =>
    g <- self ;;
    if String.eqb obj_id "sceptre" && Py.mem obj_id (player_inventory g) then
      if String.eqb (current_room g) "end_of_rainbow"
         || String.eqb (current_room g) "aragain_falls" then
        if negb (rainbow_solid g) then
          print "Suddenly, the rainbow appears to become solid and you can walk on it!" ;;
          assign (set_rainbow_solid true) ;;
          set_exit "end_of_rainbow" Direction.EAST "on_the_rainbow" ;;
          set_exit "on_the_rainbow" Direction.WEST "end_of_rainbow" ;;
          set_exit "on_the_rainbow" Direction.EAST "aragain_falls" ;;
          set_exit "aragain_falls" Direction.WEST "on_the_rainbow"
        else
          print "The rainbow seems to waver and become less solid." ;;
          assign (set_rainbow_solid false) ;;
          del_exit "end_of_rainbow" Direction.EAST ;;
          del_exit "aragain_falls" Direction.WEST
      else print "A dazzling display of color briefly emanates from the sceptre."
    else
      obj <- object_at obj_id ;;
      print ("You wave the " +:+ GameObject.name obj +:+ ".")).

Definition _raise (command : ParsedCommand.t) : M unit :=
  with_direct_object command "What do you want to raise?" (fun _ =>
    print "You can't raise that.").

Definition _lower (command : ParsedCommand.t) : M unit :=
  with_direct_object command "What do you want to lower?" (fun direct_object =>
    g <- self ;;
    if String.eqb direct_object "basket" && String.eqb (current_room g) "shaft_room" then
      if Py.mem "basket" (player_inventory g) then
        print "The basket is lowered on the chain." ;;
        update_object "basket" (GameObject.with_location (Some "drafty_room")) ;;
        inventory_remove "basket"
      else print "You're not carrying the basket."
    else print "You can't lower that.").

Definition _climb (command : ParsedCommand.t) : M unit :=
  g <- self ;;
  by_rope <-
    (if String.eqb (current_room g) "dome_room" then
       rope <- object_at "rope" ;;
       ret (Py.opt_is (GameObject.location rope) "dome_room")
     else ret false) ;;
  if by_rope then
    print "You climb down the rope." ;;
    move_to "torch_room" ;;
    _look None
  else
    room <- room_at (current_room g) ;;
    match Room.exits room !! Direction.UP with
    | Some _ => _go Direction.UP
    | None =>
        match Room.exits room !! Direction.DOWN with
        | Some _ => _go Direction.DOWN
        | None => print "There's nothing to climb here."
        end
    end.

Definition _jump (command : ParsedCommand.t) : M unit :=
  g <- self ;;
  if String.eqb (current_room g) "aragain_falls" then
    print "You jump off the falls..." ;;
    _death "You didn't make it."
  else print "Wheee!".

Definition _break (command : ParsedCommand.t) : M unit :=
  with_direct_object command "What do you want to break?" (fun obj_id =>
    g <- self ;;
    if String.eqb obj_id "mirror_south" || String.eqb obj_id "mirror_north" then
      if negb (mirror_broken g) then
        print "You have broken the mirror. The looking glass is now gone." ;;
        assign (set_mirror_broken true) ;;
        (* Connect the two mirror rooms *)
        set_exit "mirror_room_south" Direction.NORTH "mirror_room_north" ;;
        set_exit "mirror_room_north" Direction.SOUTH "mirror_room_south" ;;
        del_object "mirror_south" ;;
        del_object "mirror_north"
      else print "The mirror is already broken."
    else if String.eqb obj_id "jeweled_egg" then
      print "The egg is now open, but the clumsiness of your attempt has seriously compromised its esthetic appeal." ;;
      update_object "jeweled_egg" (GameObject.set_flag ObjectFlag.OPEN true) ;;
      update_object "jeweled_egg" (GameObject.with_value 2) (* Reduced value *)
    else print "You can't break that.").

Definition _get_rank (g : ZorkGame) : string :=
  if 350 <=? score g then "Master Adventurer"
  else if 330 <=? score g then "Wizard"
  else if 300 <=? score g then "Master"
  else if 200 <=? score g then "Adventurer"
  else if 100 <=? score g then "Junior Adventurer"
  else if 50 <=? score g then "Novice Adventurer"
  else if 25 <=? score g then "Amateur Adventurer"
  else "Beginner".

Definition _show_final_score : M unit :=
  g <- self ;;
  print "" ;;
  print ("In " +:+ Py.str_of_int (moves g) +:+ " moves, you have scored "
         +:+ Py.str_of_int (score g) +:+ " points (total of 350 points).") ;;
  print ("This gives you the rank of " +:+ _get_rank g +:+ ".") ;;
  when (0 <? deaths g)
    (print ("You died " +:+ Py.str_of_int (deaths g) +:+ " times.")).

Definition _quit (command : ParsedCommand.t) : M unit :=
  response <- input "Are you sure you want to quit? " ;;
  when (Py.startswith (Py.lower response) "y")
    (_show_final_score ;;
     assign (set_game_over true)).

Definition save_data_of (g : ZorkGame) : SaveData.t :=
  SaveData.mk
    (Some (player_name g))
    (Some (current_room g))
    (Some (player_inventory g))
    (Some (score g))
    (Some (moves g))
    (Some (deaths g))
    (Some (elements (visited_rooms g)))
    (Some (lamp_on g))
    (Some (lamp_life g))
    (Some (grating_unlocked g))
    (Some (trap_door_open g))
    (Some (rainbow_solid g))
    (Some (dam_open g))
    (Some (loud_room_level g))
    (Some (coffin_open g))
    (Some (bell_rung g))
    (Some (candles_lit g))
    (Some (book_read g))
    (Some (spirits_released g))
    (Some (cyclops_fled g))
    (Some (mirror_broken g))
    (Some (troll_payment g))
    (Some (thief_here g))
    (Some (treasures_deposited g))
    (* Save object states *)
    (Some (map (fun entry =>
                  (fst entry,
                   SaveData.mk_obj (Some (GameObject.location (snd entry)))
                                   (Some (GameObject.flags (snd entry)))
                                   (Some (GameObject.value (snd entry)))))
               (objects g)))
    (* Save actor states *)
    (Some (map (fun entry =>
                  (fst entry,
                   SaveData.mk_actor (Some (Actor.location (snd entry)))
                                     (Some (Actor.health (snd entry)))
                                     (Some (Actor.active (snd entry)))))
               (actors g))).

Definition _save (command : ParsedCommand.t) : M unit :=
  filename <- input "Save filename: " ;;
  try_except
    (g <- self ;;
     let save_data := save_data_of g in
     write_json filename save_data ;;
     print "Game saved.")
    (fun e => print ("Save failed: " +:+ str_of_exc e)).

Definition _restore (command : ParsedCommand.t) : M unit :=
  filename <- input "Restore filename: " ;;
  try_except
    (save_data <- read_json filename ;;
     assign (set_player_name (default "Adventurer" (SaveData.player_name save_data))) ;;
     v <- field "current_room" (SaveData.current_room save_data) ;;
     assign (set_current_room v) ;;
     v <- field "inventory" (SaveData.inventory save_data) ;;
     assign (set_player_inventory v) ;;
     v <- field "score" (SaveData.score save_data) ;;
     assign (set_score v) ;;
     v <- field "moves" (SaveData.moves save_data) ;;
     assign (set_moves v) ;;
     assign (set_deaths (default 0 (SaveData.deaths save_data))) ;;
     v <- field "visited_rooms" (SaveData.visited_rooms save_data) ;;
     assign (set_visited_rooms (list_to_set v)) ;;
     v <- field "lamp_on" (SaveData.lamp_on save_data) ;;
     assign (set_lamp_on v) ;;
     assign (set_lamp_life (default 330 (SaveData.lamp_life save_data))) ;;
     assign (set_grating_unlocked (default false (SaveData.grating_unlocked save_data))) ;;
     assign (set_trap_door_open (default false (SaveData.trap_door_open save_data))) ;;
     assign (set_rainbow_solid (default false (SaveData.rainbow_solid save_data))) ;;
     assign (set_dam_open (default false (SaveData.dam_open save_data))) ;;
     assign (set_loud_room_level (default 4 (SaveData.loud_room_level save_data))) ;;
     assign (set_coffin_open (default false (SaveData.coffin_open save_data))) ;;
     assign (set_bell_rung (default false (SaveData.bell_rung save_data))) ;;
     assign (set_candles_lit (default false (SaveData.candles_lit save_data))) ;;
     assign (set_book_read (default false (SaveData.book_read save_data))) ;;
     assign (set_spirits_released (default false (SaveData.spirits_released save_data))) ;;
     assign (set_cyclops_fled (default false (SaveData.cyclops_fled save_data))) ;;
     assign (set_mirror_broken (default false (SaveData.mirror_broken save_data))) ;;
     assign (set_troll_payment (default false (SaveData.troll_payment save_data))) ;;
     assign (set_thief_here (default false (SaveData.thief_here save_data))) ;;
     assign (set_treasures_deposited (default 0 (SaveData.treasures_deposited save_data))) ;;
     (* Restore object states *)
     saved_objects <- field "objects" (SaveData.objects save_data) ;;
     for_each saved_objects (fun entry =>
       let obj_id := fst entry in
       let obj_data := snd entry in
       g <- self ;;
       when (OrderedDict.contains obj_id (objects g))
         (v <- field "location" (SaveData.o_location obj_data) ;;
          update_object obj_id (GameObject.with_location v) ;;
          v <- field "flags" (SaveData.o_flags obj_data) ;;
          update_object obj_id (GameObject.with_flags v) ;;
          update_object obj_id (fun obj =>
            GameObject.with_value
              (default (GameObject.value obj) (SaveData.o_value obj_data)) obj))) ;;
     (* Restore actor states *)
     for_each (default [] (SaveData.actors save_data)) (fun entry =>
       let actor_id := fst entry in
       let actor_data := snd entry in
       g <- self ;;
       when (OrderedDict.contains actor_id (actors g))
         (v <- field "location" (SaveData.a_location actor_data) ;;
          update_actor actor_id (Actor.with_location v) ;;
          v <- field "health" (SaveData.a_health actor_data) ;;
          update_actor actor_id (Actor.with_health v) ;;
          v <- field "active" (SaveData.a_active actor_data) ;;
          update_actor actor_id (Actor.with_active v))) ;;
     print "Game restored." ;;
     _look None)
    (fun e =>
       match e with
       | FileNotFoundError _ => print "Restore failed. File not found."
       | _ => print ("Restore failed: " +:+ str_of_exc e)
       end).

Definition _restart (command : ParsedCommand.t) : M unit :=
  response <- input "Are you sure you want to restart? " ;;
  when (Py.startswith (Py.lower response) "y")
    (g <- self ;;
     let saved_name := player_name g in
     __init__ ;;
     assign (set_player_name saved_name) ;;
     print "" ;;
     _look None).

Definition _score (command : ParsedCommand.t) : M unit :=
  g <- self ;;
  let max_score := 350 in
  print ("Your score is " +:+ Py.str_of_int (score g) +:+ " (total of "
         +:+ Py.str_of_int max_score +:+ " points), in "
         +:+ Py.str_of_int (moves g) +:+ " moves.") ;;
  print ("This gives you the rank of " +:+ _get_rank g +:+ ".").

Definition _version (command : ParsedCommand.t) : M unit :=
  print "ZORK I: The Great Underground Empire" ;;
  print "Infocom interactive fiction - a fantasy story" ;;
  print "Copyright (c) 1981, 1982, 1983 Infocom, Inc. All rights reserved." ;;
  print "ZORK is a registered trademark of Infocom, Inc." ;;
  print "Revision 88 / Serial number 840726" ;;
  print "Python implementation by haxorthematrix in 2025".

Definition _verbose (command : ParsedCommand.t) : M unit :=
  assign (set_verbose true) ;;
  print "Maximum verbosity.".

Definition _brief (command : ParsedCommand.t) : M unit :=
  assign (set_verbose false) ;;
  print "Brief descriptions.".

Definition _wait (command : ParsedCommand.t) : M unit :=
  print "Time passes...".

Definition _diagnose (command : ParsedCommand.t) : M unit :=
  g <- self ;;
  if deaths g =? 0 then print "You are in perfect health."
  else print ("You have died " +:+ Py.str_of_int (deaths g)
              +:+ " times. You are in decent health.").

(** ** Random events *)

(** the carried treasures, in inventory order; [self.objects[obj_id]] raises
    for an id with no object *)
Fixpoint carried_treasures (inventory : list string) : M (list string) :=
  match inventory with
  | [] => ret []
  | obj_id :: rest =>
      obj <- object_at obj_id ;;
      others <- carried_treasures rest ;;
      ret (if GameObject.has_flag obj ObjectFlag.TREASURE
           then obj_id :: others else others)
  end.

Definition _check_random_events : M unit :=
  g <- self ;;
  (* Thief appears randomly *)
  appears <-
    (if thief_here g then ret false
     else
       room <- room_at (current_room g) ;;
       if Room.has_flag room RoomFlag.LIT then ret false
       else if Room.has_flag room RoomFlag.NOPIRATE then ret false
       else roll <- randint 1 100 ;; ret (roll <=? 5)) ;;
  (if appears then
     assign (set_thief_here true) ;;
     update_actor "thief" (Actor.with_location (Some (current_room g))) ;;
     print (Py.nl +:+ "Someone carrying a large bag just wandered through the room.") ;;
     (* Thief might steal *)
     roll <- randint 1 100 ;;
     when (roll <=? 20)
       (treasures <- carried_treasures (player_inventory g) ;;
        match treasures with
        | [] => ret tt
        | _ =>
            stolen <- choice treasures ;;
            inventory_remove stolen ;;
            obj <- object_at stolen ;;
            print ("The thief deftly relieves you of the "
                   +:+ GameObject.name obj +:+ ".")
        end)
   else
     (* Thief leaves *)
     leaves <-
       (if thief_here g then roll <- randint 1 100 ;; ret (roll <=? 30)
        else ret false) ;;
     when leaves
       (assign (set_thief_here false) ;;
        update_actor "thief" (Actor.with_location None) ;;
        print (Py.nl +:+ "The thief vanishes into the gloom."))) ;;
  (* Bat *)
  g <- self ;;
  when (String.eqb (current_room g) "bat_room")
    (bat <- actor_at "bat" ;;
     when (Actor.active bat && Py.mem "garlic" (player_inventory g))
       (text <- message_of bat "garlic" ;;
        print (Py.nl +:+ text) ;;
        update_actor "bat" (Actor.with_active false) ;;
        update_actor "bat" (Actor.with_location None))) ;;
  (* Cyclops *)
  when (String.eqb (current_room g) "cyclops_room")
    (_ <- actor_at "cyclops" ;; ret tt).

(** ** Dispatch and the game loop *)

(** the [handlers] dictionary of [_execute_command] *)
Definition handlers (verb : VerbType.t) : option (ParsedCommand.t -> M unit) :=
  match verb with
  | VerbType.LOOK => Some (fun command => _look (Some command))
  | VerbType.EXAMINE => Some _examine
  | VerbType.TAKE => Some _take
  | VerbType.DROP => Some _drop
  | VerbType.INVENTORY => Some _inventory
  | VerbType.OPEN => Some _open
  | VerbType.CLOSE => Some _close
  | VerbType.READ => Some _read
  | VerbType.TURN_ON => Some _turn_on
  | VerbType.TURN_OFF => Some _turn_off
  | VerbType.MOVE => Some _move
  | VerbType.PUSH => Some _push
  | VerbType.ATTACK => Some _attack
  | VerbType.EAT => Some _eat
  | VerbType.DRINK => Some _drink
  | VerbType.QUIT => Some _quit
  | VerbType.SAVE => Some _save
  | VerbType.RESTORE => Some _restore
  | VerbType.RESTART => Some _restart
  | VerbType.SCORE => Some _score
  | VerbType.VERSION => Some _version
  | VerbType.VERBOSE => Some _verbose
  | VerbType.BRIEF => Some _brief
  | VerbType.WAIT => Some _wait
  | VerbType.DIAGNOSE => Some _diagnose
  | VerbType.GIVE => Some _give
  | VerbType.UNLOCK => Some _unlock
  | VerbType.LOCK => Some _lock
  | VerbType.TIE => Some _tie
  | VerbType.UNTIE => Some _untie
  | VerbType.BURN => Some _burn
  | VerbType.EXTINGUISH => Some _extinguish
  | VerbType.RING => Some _ring
  | VerbType.WIND => Some _wind
  | VerbType.DIG => Some _dig
  | VerbType.FILL => Some _fill
  | VerbType.POUR => Some _pour
  | VerbType.PRAY => Some _pray
  | VerbType.WAVE => Some _wave
  | VerbType.RAISE => Some _raise
  | VerbType.LOWER => Some _lower
  | VerbType.CLIMB => Some _climb
  | VerbType.JUMP => Some _jump
  | VerbType.BREAK => Some _break
  | _ => None
  end.

Definition _execute_command (command : ParsedCommand.t) : M unit :=
  (* Handle movement *)
  match ParsedCommand.direction command with
  | Some direction => _go direction
  | None =>
      (* Handle verbs *)
      match ParsedCommand.verb command with
      | None => print "I don't understand that."
      | Some verb =>
          (* Dispatch to appropriate handler *)
          match handlers verb with
          | Some handler => handler command
          | None => print "I don't know how to do that."
          end
      end
  end.

Definition _show_intro : M unit :=
  print "ZORK I: The Great Underground Empire" ;;
  print "Copyright (c) 1981, 1982, 1983 Infocom, Inc. All rights reserved." ;;
  print "ZORK is a registered trademark of Infocom, Inc." ;;
  print "Revision 88 / Serial number 840726" ;;
  print "".

(** What the body of the main loop does with a non-empty input line: parse
    and execute the command, count the move, burn lamp fuel. *)
Definition turn (user_input : string) : M unit :=
  (* Parse and execute command *)
  g <- self ;;
  let command := _parse_command g user_input in
  _execute_command command ;;
  (* Increment moves *)
  assign (fun g => set_moves (moves g + 1) g) ;;
  (* Update lamp life *)
  g <- self ;;
  when (lamp_on g)
    (assign (fun g => set_lamp_life (lamp_life g - 1) g) ;;
     g <- self ;;
     if lamp_life g =? 30 then print "Your lamp is getting dim."
     else if lamp_life g =? 0 then
       print "Your lamp has run out of power." ;;
       assign (set_lamp_on false) ;;
       update_object "lamp" (GameObject.set_flag ObjectFlag.LIGHT false) ;;
       update_object "lamp" (GameObject.set_flag ObjectFlag.TURNEDON false) ;;
       _check_light
     else ret tt).

(** One iteration of [while not self.game_over]; the end of the input ends
    the game, any other exception leaves the loop. *)
Definition loop_body : M unit :=
  fun s =>
    match (
      (* Check for random events *)
      _check_random_events ;;
      (* Get input *)
      line <- input "> " ;;
      let user_input := Py.lower (Py.strip line) in
      if negb (Py.truthy user_input) then ret tt
      else turn user_input) s with
    | Raise EOFError s' => assign (set_game_over true) s'
    | r => r
    end.

Fixpoint main_loop (fuel : nat) : M unit :=
  match fuel with
  | O => ret tt
  | S fuel' =>
      g <- self ;;
      if game_over g then ret tt
      else loop_body ;; main_loop fuel'
  end.

Definition start (fuel : nat) : M unit :=
  _show_intro ;;
  (* Get player name *)
  line <- input "What is your name, adventurer? " ;;
  let name := Py.strip line in
  (if Py.truthy name then
     assign (set_player_name name) ;;
     g <- self ;;
     print (Py.nl +:+ "Welcome, " +:+ player_name g +:+ "!")
   else print (Py.nl +:+ "Welcome, Adventurer!")) ;;
  print "" ;;
  _look None ;;
  (* Give troll his axe *)
  update_object "axe" (GameObject.with_location (Some "troll")) ;;
  (* Main game loop *)
  main_loop fuel.

(** The machine a fresh process starts from, and the game [ZorkGame()]
    constructs in it. *)
Definition machine (stdin : list string) (files : gmap string File)
    (draws : list Z) : Sys :=
  mkSys blank_game [] stdin files draws.

Definition new_game (stdin : list string) (files : gmap string File)
    (draws : list Z) : Sys :=
  final (__init__ (machine stdin files draws)).

(** * The vocabulary of the statements *)

Definition bit_of (f : ObjectFlag.t) : Z := Z.log2 (ObjectFlag.value f).

(** the claim's third case: the immediate parent is a container that is open
    or transparent and is itself in the current room or carried *)
Definition in_viewable_container (g : ZorkGame) (obj : GameObject.t) : Prop :=
  exists (loc : string) (container : GameObject.t),
    GameObject.location obj = Some loc /\
    OrderedDict.get loc (objects g) = Some container /\
    GameObject.has_flag container ObjectFlag.CONTAINER = true /\
    (GameObject.has_flag container ObjectFlag.OPEN = true \/
     GameObject.has_flag container ObjectFlag.TRANSPARENT = true) /\
    (GameObject.location container = Some (current_room g) \/
     GameObject.id container ∈ player_inventory g).

Definition say (line : string) (s : Sys) : Sys :=
  mkSys (game s) (stdout s ++ [line]) (stdin s) (files s) (draws s).

Definition with_game (g : ZorkGame) (s : Sys) : Sys :=
  mkSys g (stdout s) (stdin s) (files s) (draws s).

Definition command_on (verb : VerbType.t) (obj_id : string) (raw : string)
    : ParsedCommand.t :=
  ParsedCommand.mk (Some verb) (Some obj_id) None None raw.

Definition frames (R : Sys -> Sys -> Prop) {A} (m : M A) : Prop :=
  forall s, R s (final (m s)).

Class Framing (R : Sys -> Sys -> Prop) : Prop := {
  framing_refl : forall s, R s s;
  framing_trans : forall s1 s2 s3, R s1 s2 -> R s2 s3 -> R s1 s3;
  framing_out : forall s line, R s (say line s);
  framing_in : forall s rest,
    R s (mkSys (game s) (stdout s) rest (files s) (draws s));
  framing_draw : forall s rest,
    R s (mkSys (game s) (stdout s) (stdin s) (files s) rest)
}.

(** a relation between games, read as a relation between machines *)
Definition on_game (Rg : ZorkGame -> ZorkGame -> Prop) (s s' : Sys) : Prop :=
  Rg (game s) (game s').

Definition up_to_visited (g g' : ZorkGame) : Prop :=
  exists V : gset string, g' = set_visited_rooms V g /\ visited_rooms g ⊆ V.

(** What is printed stays printed. *)
Definition output_grows (s s' : Sys) : Prop :=
  exists lines : list string, stdout s' = (stdout s ++ lines)%list.

Definition says (lines : list string) (s : Sys) : Sys :=
  mkSys (game s) (stdout s ++ lines) (stdin s) (files s) (draws s).

(** [prints m s]: run from [s], [m] returns normally and has done nothing
    but print. *)
Definition prints {A} (m : M A) (s : Sys) : Prop :=
  exists (a : A) (lines : list string), m s = Ok a (says lines s).

Definition looked (room : Room.t) (s s' : Sys) : Prop :=
  exists (V : gset string) (lines : list string),
    s' = mkSys (set_visited_rooms V (game s)) (stdout s ++ lines)
               (stdin s) (files s) (draws s) /\
    (Room.has_flag room RoomFlag.LIT = true ->
     exists rest, lines = Room.name room :: rest).

(** the object store after the loop "Drop everything" of [_death] has gone
    through the ids in [l] *)
Definition dropped_all (room : string) (l : list string)
    (objs : list (string * GameObject.t)) : list (string * GameObject.t) :=
  fold_left
    (fun d obj_id =>
       match OrderedDict.get obj_id d with
       | Some o => OrderedDict.set obj_id (GameObject.with_location (Some room) o) d
       | None => d
       end) l objs.

Definition drop_one (room : string) (obj_id : string) : M unit :=
  update_object obj_id (GameObject.with_location (Some room)) ;;
  inventory_remove obj_id.

Definition died_banner : string :=
  Py.nl +:+ "    ****  You have died  ****" +:+ Py.nl.

Definition last_breath : list string :=
  [ "As you take your last breath, you feel yourself being pulled from your body.";
    "You float upward, watching your corpse below. Suddenly, you find yourself...";
    "" ].

(** A script of input lines, run without the random events of the loop. *)
Definition play (lines : list string) : M unit := for_each lines turn.

Definition has_exit (g : ZorkGame) (room_id : string) (d : Direction.t)
    (target : string) : Prop :=
  exists room, rooms g !! room_id = Some room /\ Room.exits room !! d = Some target.

(** the test "Check if in a container" of [_take] *)
Definition out_of_reach (g : ZorkGame) (obj : GameObject.t) : bool :=
  match GameObject.location obj with
  | Some loc =>
      match OrderedDict.get loc (objects g) with
      | Some container =>
          GameObject.has_flag container ObjectFlag.CONTAINER
          && negb (GameObject.has_flag container ObjectFlag.OPEN
                   || GameObject.has_flag container ObjectFlag.TRANSPARENT)
      | None => false
      end
  | None => false
  end.

(** the game after a successful take of a treasure *)
Definition taken (obj_id : string) (obj : GameObject.t) (g : ZorkGame) : ZorkGame :=
  set_score (score g + GameObject.value obj)
    (set_objects
       (OrderedDict.set obj_id (GameObject.with_location (Some "player") obj) (objects g))
       (set_player_inventory (player_inventory g ++ [obj_id]) g)).

(** the game after a drop outside the living room *)
Definition dropped (obj_id : string) (obj : GameObject.t) (rest : list string)
    (g : ZorkGame) : ZorkGame :=
  set_objects
    (OrderedDict.set obj_id (GameObject.with_location (Some (current_room g)) obj)
       (objects g))
    (set_player_inventory rest g).

(** the game after a drop in the living room that lands in the open case *)
Definition deposited (obj_id : string) (obj : GameObject.t) (rest : list string)
    (g : ZorkGame) : ZorkGame :=
  set_score (score g + GameObject.value obj)
    (set_treasures_deposited (treasures_deposited g + 1)
       (set_objects
          (OrderedDict.set obj_id (GameObject.with_location (Some "case") obj)
             (objects g))
          (set_player_inventory rest g))).

Definition nothing : GameObject.t := GameObject.mk "" "" "" "" "" 0 None 0 0 0.

(** the position after climbing the tree where the jewelled egg lies *)
Definition up_the_tree : Sys := final (play ["n"; "n"; "u"] (new_game [] ∅ [])).

(** the position in the living room, carrying the jewelled egg *)
Definition at_the_case : Sys :=
  final (play ["n"; "n"; "u"; "take egg"; "d"; "s"; "e"; "open window"; "w"; "w"]
              (new_game [] ∅ [])).

(** the position in the living room with the lamp taken and switched on *)
Definition lamp_lit : Sys :=
  final (play ["n"; "e"; "open window"; "w"; "w"; "take lamp"; "turn on lamp"]
              (new_game [] ∅ [])).

(** what [_save] writes for one object, one actor *)
Definition saved_object (entry : string * GameObject.t) : string * SaveData.obj_entry :=
  (fst entry,
   SaveData.mk_obj (Some (GameObject.location (snd entry)))
                   (Some (GameObject.flags (snd entry)))
                   (Some (GameObject.value (snd entry)))).

Definition saved_actor (entry : string * Actor.t) : string * SaveData.actor_entry :=
  (fst entry,
   SaveData.mk_actor (Some (Actor.location (snd entry)))
                     (Some (Actor.health (snd entry)))
                     (Some (Actor.active (snd entry)))).

(** the body of the loop "Restore object states" of [_restore] *)
Definition restore_object (entry : string * SaveData.obj_entry) : M unit :=
  let obj_id := fst entry in
  let obj_data := snd entry in
  g <- self ;;
  when (OrderedDict.contains obj_id (objects g))
    (v <- field "location" (SaveData.o_location obj_data) ;;
     update_object obj_id (GameObject.with_location v) ;;
     v <- field "flags" (SaveData.o_flags obj_data) ;;
     update_object obj_id (GameObject.with_flags v) ;;
     update_object obj_id (fun obj =>
       GameObject.with_value
         (default (GameObject.value obj) (SaveData.o_value obj_data)) obj)).

(** the body of the loop "Restore actor states" of [_restore] *)
Definition restore_actor (entry : string * SaveData.actor_entry) : M unit :=
  let actor_id := fst entry in
  let actor_data := snd entry in
  g <- self ;;
  when (OrderedDict.contains actor_id (actors g))
    (v <- field "location" (SaveData.a_location actor_data) ;;
     update_actor actor_id (Actor.with_location v) ;;
     v <- field "health" (SaveData.a_health actor_data) ;;
     update_actor actor_id (Actor.with_health v) ;;
     v <- field "active" (SaveData.a_active actor_data) ;;
     update_actor actor_id (Actor.with_active v)).

(** the part of [_restore] that loads the file into the game, up to and
    including the two loops, followed by [next] *)
Definition load_then (filename : string) (next : M unit) : M unit :=
  save_data <- read_json filename ;;
  assign (set_player_name (default "Adventurer" (SaveData.player_name save_data))) ;;
  v <- field "current_room" (SaveData.current_room save_data) ;;
  assign (set_current_room v) ;;
  v <- field "inventory" (SaveData.inventory save_data) ;;
  assign (set_player_inventory v) ;;
  v <- field "score" (SaveData.score save_data) ;;
  assign (set_score v) ;;
  v <- field "moves" (SaveData.moves save_data) ;;
  assign (set_moves v) ;;
  assign (set_deaths (default 0 (SaveData.deaths save_data))) ;;
  v <- field "visited_rooms" (SaveData.visited_rooms save_data) ;;
  assign (set_visited_rooms (list_to_set v)) ;;
  v <- field "lamp_on" (SaveData.lamp_on save_data) ;;
  assign (set_lamp_on v) ;;
  assign (set_lamp_life (default 330 (SaveData.lamp_life save_data))) ;;
  assign (set_grating_unlocked (default false (SaveData.grating_unlocked save_data))) ;;
  assign (set_trap_door_open (default false (SaveData.trap_door_open save_data))) ;;
  assign (set_rainbow_solid (default false (SaveData.rainbow_solid save_data))) ;;
  assign (set_dam_open (default false (SaveData.dam_open save_data))) ;;
  assign (set_loud_room_level (default 4 (SaveData.loud_room_level save_data))) ;;
  assign (set_coffin_open (default false (SaveData.coffin_open save_data))) ;;
  assign (set_bell_rung (default false (SaveData.bell_rung save_data))) ;;
  assign (set_candles_lit (default false (SaveData.candles_lit save_data))) ;;
  assign (set_book_read (default false (SaveData.book_read save_data))) ;;
  assign (set_spirits_released (default false (SaveData.spirits_released save_data))) ;;
  assign (set_cyclops_fled (default false (SaveData.cyclops_fled save_data))) ;;
  assign (set_mirror_broken (default false (SaveData.mirror_broken save_data))) ;;
  assign (set_troll_payment (default false (SaveData.troll_payment save_data))) ;;
  assign (set_thief_here (default false (SaveData.thief_here save_data))) ;;
  assign (set_treasures_deposited (default 0 (SaveData.treasures_deposited save_data))) ;;
  saved_objects <- field "objects" (SaveData.objects save_data) ;;
  for_each saved_objects restore_object ;;
  for_each (default [] (SaveData.actors save_data)) restore_actor ;;
  next.

Definition restore_failed (e : PyExc) : M unit :=
  match e with
  | FileNotFoundError _ => print "Restore failed. File not found."
  | _ => print ("Restore failed: " +:+ str_of_exc e)
  end.

(** the machine once the file name has been read *)
Definition asked (prompt : string) (rest : list string) (s : Sys) : Sys :=
  mkSys (game s) (stdout s ++ [prompt]) rest (files s) (draws s).

Definition object_entry_complete (entry : string * SaveData.obj_entry) : Prop :=
  is_Some (SaveData.o_location (snd entry)) /\ is_Some (SaveData.o_flags (snd entry)).

Definition actor_entry_complete (entry : string * SaveData.actor_entry) : Prop :=
  is_Some (SaveData.a_location (snd entry)) /\
  is_Some (SaveData.a_health (snd entry)) /\
  is_Some (SaveData.a_active (snd entry)).

(** the game a save file describes, every absent optional field taking its
    default; objects, actors, rooms, verbosity and [game_over] are those of
    the running game [g] *)
Definition loaded (d : SaveData.t) (room : string) (inv : list string)
    (sc mv : Z) (vr : list string) (lo : bool) (g : ZorkGame) : ZorkGame :=
  mkZorkGame
    (default "Adventurer" (SaveData.player_name d))
    (rooms g) (objects g) (actors g)
    room inv sc mv (verbose g) (game_over g) (list_to_set vr)
    (default 0 (SaveData.deaths d))
    lo
    (default 330 (SaveData.lamp_life d))
    (default false (SaveData.grating_unlocked d))
    (default false (SaveData.trap_door_open d))
    (default false (SaveData.rainbow_solid d))
    (default false (SaveData.dam_open d))
    (default 4 (SaveData.loud_room_level d))
    (default false (SaveData.coffin_open d))
    (default false (SaveData.bell_rung d))
    (default false (SaveData.candles_lit d))
    (default false (SaveData.book_read d))
    (default false (SaveData.spirits_released d))
    (default false (SaveData.cyclops_fled d))
    (default false (SaveData.mirror_broken d))
    (default false (SaveData.troll_payment d))
    (default false (SaveData.thief_here d))
    (default 0 (SaveData.treasures_deposited d)).

(** an empty disk, and a disk holding a save file that has only the
    required fields *)
Definition old_save : SaveData.t :=
  SaveData.mk None (Some "kitchen") (Some []) (Some 7) (Some 12) None
    (Some ["kitchen"]) (Some false) None None None None None None None None
    None None None None None None None None (Some []) None.

(** C4 fails as stated: a save file that has a room but no inventory makes
    the restore fail, and the player has been moved to that room all the
    same. *)
Definition torn_save : SaveData.t :=
  SaveData.mk None (Some "kitchen") None None None None None None None None
    None None None None None None None None None None None None None None None
    None.

(** Standing before the grating with the skeleton key: up from the cellar
    past the troll, through the maze to the key, and out to the clearing
    where the leaves were moved. *)
Definition at_the_grating : Sys :=
  final (play ["n"; "n"; "n"; "move leaves"; "w"; "open window"; "w"; "w";
               "take lamp"; "take sword"; "turn on lamp"; "move rug";
               "open door"; "d"; "n"; "attack troll"; "w"; "e"; "take key";
               "w"; "w"; "s"; "u"; "e"; "e"; "e"]
          (new_game [] ∅ [])).

(** The exits of the rooms of [g] whose target is not a room of [g]. *)
Definition dangling_exits (g : ZorkGame) : list (string * Direction.t * string) :=
  '(room_id, room) ← map_to_list (rooms g);
  '(d, target) ← map_to_list (Room.exits room);
  if rooms g !! target is Some _ then [] else [(room_id, d, target)].

(** Lamp in hand, past the troll and along the stream view to the stream. *)
Definition on_the_stream : Sys :=
  final (play ["n"; "e"; "open window"; "w"; "w"; "take lamp"; "take sword";
               "turn on lamp"; "move rug"; "open door"; "d"; "n";
               "attack troll"; "e"; "n"; "ne"; "w"; "w"]
          (new_game [] ∅ [])).

(** ** What a run of the game can change

    The game built by [ZorkGame()], which is also what [restart] goes back
    to. *)
Definition world : ZorkGame := game (new_game [] ∅ []).

(** [Changes R]: [R] relates a machine to the machine after each kind of
    assignment the program makes: to a file, to a scalar attribute (the
    inventory list included), to an attribute of an object, to the object
    store (the bauble or the water stored as a new object under its id, an
    object deleted), to an
    attribute of an actor, to the text or flags of a room, to the exits of a
    room (an exit written with a room of the world as target, an exit
    deleted), and to the whole game by [__init__]. *)
Class Changes (R : Sys -> Sys -> Prop) : Prop := {
  changes_framing :: Framing R;
  changes_files : forall s fs, R s (mkSys (game s) (stdout s) (stdin s) fs (draws s));
  changes_scalar : forall s g',
    rooms g' = rooms (game s) -> objects g' = objects (game s) ->
    actors g' = actors (game s) ->
    R s (with_game g' s);
  changes_object : forall s k o o',
    OrderedDict.get k (objects (game s)) = Some o ->
    GameObject.id o' = GameObject.id o ->
    R s (with_game (set_objects (OrderedDict.set k o' (objects (game s))) (game s)) s);
  changes_new_object : forall s k o,
    GameObject.id o = k ->
    k = "bauble" \/ k = "water" ->
    R s (with_game (set_objects (OrderedDict.set k o (objects (game s))) (game s)) s);
  changes_del_object : forall s k,
    R s (with_game (set_objects (OrderedDict.del k (objects (game s))) (game s)) s);
  changes_actor : forall s k a a',
    OrderedDict.get k (actors (game s)) = Some a ->
    R s (with_game (set_actors (OrderedDict.set k a' (actors (game s))) (game s)) s);
  changes_room : forall s k r r',
    rooms (game s) !! k = Some r ->
    Room.exits r' = Room.exits r ->
    R s (with_game (set_rooms (<[k := r']> (rooms (game s))) (game s)) s);
  changes_exit_set : forall s k r d target,
    rooms (game s) !! k = Some r ->
    is_Some (rooms world !! target) ->
    R s (with_game
           (set_rooms (<[k := Room.with_exits (<[d := target]> (Room.exits r)) r]>
                         (rooms (game s))) (game s)) s);
  changes_exit_del : forall s k r d,
    rooms (game s) !! k = Some r ->
    R s (with_game
           (set_rooms (<[k := Room.with_exits (delete d (Room.exits r)) r]>
                         (rooms (game s))) (game s)) s);
  changes_init : forall s, R s (with_game world s)
}.

(** The machine after a session: the process is started with [stdin] on
    its standard input, [files] on disk and [draws] as the random numbers
    to come, and the main loop goes round at most [rounds] times. *)
Definition session (stdin : list string) (files : gmap string File)
    (draws : list Z) (rounds : nat) : Sys :=
  final (start rounds (new_game stdin files draws)).

(** [keeps I]: a run that starts in a game with property [I] leaves a game
    with property [I]. *)
Definition keeps (I : ZorkGame -> Prop) (s s' : Sys) : Prop :=
  I (game s) -> I (game s').

(** The rooms are those of the world, and every exit but the one west of
    the stream leads to one of them. *)
Definition rooms_sound (g : ZorkGame) : Prop :=
  (forall k, is_Some (rooms g !! k) <-> is_Some (rooms world !! k)) /\
  (forall k r d target,
     rooms g !! k = Some r -> Room.exits r !! d = Some target ->
     (k, d) <> ("stream", Direction.WEST) ->
     is_Some (rooms world !! target)).

(** The ids an object can have: those of the world, and the bauble. *)
Definition known_ids : list string :=
  (OrderedDict.keys (objects world) ++ ["bauble"])%list.

(** Every object is stored under its own id, which is a known one, and no
    key occurs twice. *)
Definition objects_by_id (g : ZorkGame) : Prop :=
  NoDup (OrderedDict.keys (objects g)) /\
  Forall (fun entry => GameObject.id (snd entry) = fst entry /\
                       Py.mem (fst entry) known_ids = true) (objects g).

(** The actors are the five of the world, in the same order. *)
Definition actors_present (g : ZorkGame) : Prop :=
  OrderedDict.keys (actors g) = ["troll"; "thief"; "cyclops"; "spirits"; "bat"].

Definition has_handler (v : VerbType.t) : bool :=
  match handlers v with Some _ => true | None => false end.

(** The rooms for which [_go] has a rule of its own. *)
Definition special_rooms : list string :=
  ["living_room"; "grating_room"; "behind_house"; "cyclops_room"; "troll_room";
   "entrance_to_hades"; "reservoir"; "end_of_rainbow"; "slide_room"].

(** the same things are carried *)
Definition same_load (g g' : ZorkGame) : Prop :=
  player_inventory g' = player_inventory g.

(** a carried thing that gives light *)
Definition carries_light (g : ZorkGame) : Prop :=
  exists obj_id obj,
    obj_id ∈ player_inventory g /\
    OrderedDict.get obj_id (objects g) = Some obj /\
    is_lit obj = true.

(** a thing lying in the current room that gives light *)
Definition light_lies_here (g : ZorkGame) : Prop :=
  exists obj_id obj,
    (obj_id, obj) ∈ objects g /\
    GameObject.location obj = Some (current_room g) /\
    is_lit obj = true.

(** Into the house, the lamp taken and turned on, and 328 turns waited. *)
Definition lamp_nearly_out : Sys :=
  final (play (["n"; "e"; "open window"; "w"; "w"; "take lamp"; "turn on lamp"]
               ++ repeat "z" 328)%list (new_game [] ∅ [])).

(** the ranks, lowest first *)
Definition ranks : list string :=
  ["Beginner"; "Amateur Adventurer"; "Novice Adventurer"; "Junior Adventurer";
   "Adventurer"; "Master"; "Wizard"; "Master Adventurer"].

Fixpoint rank_level (rank : string) (l : list string) : nat :=
  match l with
  | [] => 0
  | r :: l' => if String.eqb rank r then 0 else S (rank_level rank l')
  end.

Definition reporting_verbs : list VerbType.t :=
  [VerbType.EXAMINE; VerbType.INVENTORY; VerbType.SCORE; VerbType.VERSION;
   VerbType.WAIT; VerbType.DIAGNOSE; VerbType.LOCK; VerbType.RAISE].

(** A session that goes down to the troll with lamp and sword. *)
Definition facing_the_troll : Sys :=
  session ["Ford"; "n"; "e"; "open window"; "w"; "w"; "take lamp"; "take sword";
           "turn on lamp"; "move rug"; "open door"; "d"; "n"]
          ∅ (repeat 50 40) 12.

(** A session that kills the troll and fetches the torch. *)
Definition holding_the_torch : Sys :=
  session ["Ford"; "n"; "e"; "open window"; "w"; "w"; "take lamp"; "take sword";
           "turn on lamp"; "move rug"; "open door"; "d"; "n"; "attack troll";
           "e"; "e"; "se"; "e"; "d"; "take torch"]
          ∅ (repeat 50 60) 19.

(** Down into the cellar without the lamp, the grue having been escaped
    once already. *)
Definition in_the_dark : Sys :=
  final (play ["n"; "e"; "open window"; "w"; "w"; "move rug"; "open door"; "d"]
           (new_game [] ∅ [1; 2])).

(** A session that brings bell, book and lit candles to the gate. *)
Definition at_the_gate : Sys :=
  session ["Ford"; "n"; "e"; "open window"; "w"; "w"; "take lamp"; "take sword";
           "turn on lamp"; "move rug"; "open door"; "d"; "n"; "attack troll";
           "e"; "e"; "se"; "e"; "d"; "take torch"; "s"; "take bell"; "s";
           "take book"; "take candles"; "read book"; "burn candles"; "d"; "d"]
          ∅ (repeat 50 100) 28.

(** the lines [_inventory] prints for the things carried *)
Definition listing (g : ZorkGame) (obj_id : string) : list string :=
  match OrderedDict.get obj_id (objects g) with
  | Some obj =>
      ("  A " +:+ GameObject.description obj)
      :: (if GameObject.has_flag obj ObjectFlag.TURNEDON
          then ["    (providing light)"] else [])
  | None => []
  end.

(** A session in which the lunch is taken, the game saved, the lunch eaten
    and the game restored. *)
Definition lunch_eaten_and_restored : Sys :=
  session ["Ford"; "n"; "e"; "open window"; "w"; "take sack"; "take lunch";
           "save"; "game.sav"; "eat lunch"; "restore"; "game.sav"]
          ∅ [] 9.

(** * Properties *)

(** ** Strings, lists and dictionaries *)

Lemma mem_In (x : string) (l : list string) : Py.mem x l = true <-> x ∈ l.
Proof.
  unfold Py.mem. rewrite existsb_exists, list_elem_of_In. split.
  - intros (y & Hy & E). apply String.eqb_eq in E. now subst.
  - intros H. exists x. split; [assumption | apply String.eqb_refl].
Qed.

Lemma mem_false (x : string) (l : list string) : Py.mem x l = false <-> x ∉ l.
Proof.
  rewrite <- mem_In. destruct (Py.mem x l); split; intros; congruence.
Qed.

Lemma mem_app (x : string) (l1 l2 : list string) :
  Py.mem x (l1 ++ l2) = Py.mem x l1 || Py.mem x l2.
Proof. unfold Py.mem. apply existsb_app. Qed.

Lemma remove_head (x : string) (l : list string) : Py.remove x (x :: l) = Some l.
Proof. simpl. now rewrite String.eqb_refl. Qed.

Lemma remove_last (x : string) (l : list string) :
  x ∉ l -> Py.remove x (l ++ [x]) = Some l.
Proof.
  induction l as [|y l IH]; simpl; intros H.
  - now rewrite String.eqb_refl.
  - apply not_elem_of_cons in H as [Hne Hl].
    destruct (String.eqb_spec x y) as [->|_]; [congruence|].
    rewrite IH by assumption. reflexivity.
Qed.

Lemma remove_In (x : string) (l : list string) :
  x ∈ l -> exists l', Py.remove x l = Some l' /\ length l = S (length l').
Proof.
  induction l as [|y l IH]; simpl; intros H; [now apply elem_of_nil in H|].
  destruct (String.eqb_spec x y) as [->|Hne]; [eauto|].
  apply elem_of_cons in H as [->|H]; [congruence|].
  destruct (IH H) as (l' & -> & E).
  simpl. eexists. split; [reflexivity|]. simpl. now rewrite E.
Qed.

Lemma remove_subset (x y : string) (l l' : list string) :
  Py.remove x l = Some l' -> y ∈ l' -> y ∈ l.
Proof.
  revert l'. induction l as [|z l IH]; simpl; intros l'; [discriminate|].
  destruct (String.eqb x z).
  - intros [= <-] H. apply elem_of_cons. now right.
  - destruct (Py.remove x l) as [r|]; simpl; [|discriminate].
    intros [= <-] H. apply elem_of_cons in H as [->|H].
    + apply elem_of_cons. now left.
    + apply elem_of_cons. right. eauto.
Qed.

Lemma remove_NoDup (x : string) (l l' : list string) :
  NoDup l -> Py.remove x l = Some l' -> (x ∉ l') /\ NoDup l'.
Proof.
  revert l'. induction l as [|y l IH]; simpl; intros l' Hnd; [discriminate|].
  apply NoDup_cons in Hnd as [Hy Hl].
  destruct (String.eqb_spec x y) as [->|Hne].
  - intros [= <-]. split; assumption.
  - destruct (Py.remove x l) as [r|] eqn:E; simpl; [|discriminate].
    intros [= <-]. destruct (IH r Hl eq_refl) as [Hx Hr]. split.
    + apply not_elem_of_cons. split; assumption.
    + apply NoDup_cons. split; [|assumption]. intros Hin. apply Hy.
      eapply remove_subset; eassumption.
Qed.

Section Dict.
Context {V : Type}.
Implicit Types (d : list (string * V)) (k : string) (v : V).

Lemma get_set_eq d k v : OrderedDict.get k (OrderedDict.set k v d) = Some v.
Proof.
  induction d as [|[k' v'] d IH]; simpl.
  - now rewrite String.eqb_refl.
  - destruct (String.eqb k k') eqn:E; simpl; rewrite ?String.eqb_refl, ?E; auto.
Qed.

Lemma get_set_ne d k k' v :
  k <> k' -> OrderedDict.get k' (OrderedDict.set k v d) = OrderedDict.get k' d.
Proof.
  intros Hne. induction d as [|[k0 v0] d IH]; simpl.
  - destruct (String.eqb_spec k' k); [congruence | reflexivity].
  - destruct (String.eqb_spec k k0) as [->|Hk]; simpl.
    + destruct (String.eqb_spec k' k0); [congruence | reflexivity].
    + destruct (String.eqb k' k0); [reflexivity | assumption].
Qed.

Lemma set_same d k v : OrderedDict.get k d = Some v -> OrderedDict.set k v d = d.
Proof.
  induction d as [|[k0 v0] d IH]; simpl; [discriminate|].
  destruct (String.eqb_spec k k0) as [->|Hk].
  - now intros [= ->].
  - intros H. now rewrite IH.
Qed.

Lemma keys_set d k v v0 :
  OrderedDict.get k d = Some v0 ->
  OrderedDict.keys (OrderedDict.set k v d) = OrderedDict.keys d.
Proof.
  unfold OrderedDict.keys.
  induction d as [|[k0 v1] d IH]; simpl; [discriminate|].
  destruct (String.eqb_spec k k0) as [->|Hk]; simpl; [reflexivity|].
  intros H. now rewrite IH.
Qed.

Lemma contains_get d k :
  OrderedDict.contains k d = true <-> exists v, OrderedDict.get k d = Some v.
Proof.
  unfold OrderedDict.contains. destruct (OrderedDict.get k d); split;
    try discriminate; eauto. intros [? [=]].
Qed.

Lemma get_In d k v : OrderedDict.get k d = Some v -> (k, v) ∈ d.
Proof.
  induction d as [|[k0 v0] d IH]; simpl; [discriminate|].
  destruct (String.eqb_spec k k0) as [->|Hk].
  - intros [= ->]. apply elem_of_cons. now left.
  - intros H. apply elem_of_cons. right. auto.
Qed.
End Dict.

(** ** Flags

    Every flag value is a single bit, so testing one flag is not affected
    by setting or clearing another. *)

Lemma has_flag_with_location (o : GameObject.t) (l : option string) (f : ObjectFlag.t) :
  GameObject.has_flag (GameObject.with_location l o) f = GameObject.has_flag o f.
Proof. reflexivity. Qed.

Lemma value_is_bit (f : ObjectFlag.t) : ObjectFlag.value f = 2 ^ bit_of f.
Proof. destruct f; reflexivity. Qed.

Lemma bit_of_nonneg (f : ObjectFlag.t) : 0 <= bit_of f.
Proof. destruct f; vm_compute; discriminate. Qed.

Lemma bit_of_inj (f f' : ObjectFlag.t) : bit_of f = bit_of f' -> f = f'.
Proof. destruct f, f'; vm_compute; congruence. Qed.

Lemma has_flag_testbit (o : GameObject.t) (f : ObjectFlag.t) :
  GameObject.has_flag o f = Z.testbit (GameObject.flags o) (bit_of f).
Proof.
  unfold GameObject.has_flag. rewrite value_is_bit.
  pose proof (bit_of_nonneg f) as Hf.
  destruct (Z.testbit (GameObject.flags o) (bit_of f)) eqn:E.
  - apply negb_true_iff, Z.eqb_neq. intros H.
    assert (Z.testbit (Z.land (GameObject.flags o) (2 ^ bit_of f)) (bit_of f) = true) as T.
    { rewrite Z.land_spec, E, Z.pow2_bits_true; auto. }
    rewrite H in T. now rewrite Z.bits_0 in T.
  - apply negb_false_iff, Z.eqb_eq, Z.bits_inj'. intros n Hn.
    rewrite Z.land_spec, Z.bits_0.
    destruct (Z.eq_dec n (bit_of f)) as [->|Hne].
    + now rewrite E.
    + rewrite (Z.pow2_bits_false (bit_of f) n) by lia. apply andb_false_r.
Qed.

Lemma has_flag_set_flag (o : GameObject.t) (f f' : ObjectFlag.t) (b : bool) :
  GameObject.has_flag (GameObject.set_flag f b o) f' =
  if decide (bit_of f = bit_of f') then b else GameObject.has_flag o f'.
Proof.
  rewrite !has_flag_testbit. pose proof (bit_of_nonneg f) as Hf.
  pose proof (bit_of_nonneg f') as Hf'.
  unfold GameObject.set_flag. destruct b; simpl; rewrite value_is_bit.
  - rewrite Z.lor_spec. destruct (decide (bit_of f = bit_of f')) as [<-|Hne].
    + rewrite Z.pow2_bits_true by assumption. apply orb_true_r.
    + rewrite (Z.pow2_bits_false (bit_of f) (bit_of f')) by lia. apply orb_false_r.
  - rewrite Z.land_spec, Z.lnot_spec by assumption.
    destruct (decide (bit_of f = bit_of f')) as [<-|Hne].
    + rewrite Z.pow2_bits_true by assumption. apply andb_false_r.
    + rewrite (Z.pow2_bits_false (bit_of f) (bit_of f')) by lia. apply andb_true_r.
Qed.

(** ** The parser *)

Lemma direction_map_light : direction_map !! "light" = None.
Proof. vm_compute. reflexivity. Qed.

Lemma verb_map_light : verb_map !! "light" = Some VerbType.BURN.
Proof. vm_compute. reflexivity. Qed.

(** C10: "light" is written twice in the verb lexicon, first for the
    turn-on action and later for the burn action; the dictionary keeps the
    later entry, so every input line whose first word is "light" parses to
    the burn verb and never to the turn-on verb. *)
Theorem light_always_parses_to_burn :
  verb_map_entries !! 28%nat = Some ("light", VerbType.TURN_ON) /\
  verb_map_entries !! 47%nat = Some ("light", VerbType.BURN) /\
  forall (g : ZorkGame) (user_input : string) (rest : list string),
    Py.split user_input = "light" :: rest ->
    ParsedCommand.verb (_parse_command g user_input) = Some VerbType.BURN /\
    ParsedCommand.verb (_parse_command g user_input) <> Some VerbType.TURN_ON /\
    ParsedCommand.direction (_parse_command g user_input) = None.
Proof.
  split; [reflexivity|]. split; [reflexivity|].
  intros g user_input rest Hsplit.
  assert (ParsedCommand.verb (_parse_command g user_input) = Some VerbType.BURN
          /\ ParsedCommand.direction (_parse_command g user_input) = None) as [Hv Hd].
  { unfold _parse_command. rewrite Hsplit, direction_map_light, verb_map_light.
    destruct (1 <? length ("light" :: rest))%nat; split; reflexivity. }
  rewrite Hv. repeat split; [discriminate | assumption].
Qed.

Lemma light_always_parses_to_burn_witness :
  Py.split "light lamp" = "light" :: ["lamp"] /\
  ParsedCommand.verb (_parse_command blank_game "light lamp") = Some VerbType.BURN.
Proof.
  split; [reflexivity|].
  apply (proj2 (proj2 light_always_parses_to_burn) blank_game "light lamp" ["lamp"]).
  reflexivity.
Defined.

(** ** Visibility *)

Lemma opt_is_spec (o : option string) (s : string) :
  Py.opt_is o s = true <-> o = Some s.
Proof.
  unfold Py.opt_is. destruct o as [x|]; [|split; discriminate].
  rewrite String.eqb_eq. split; [now intros -> | now intros [= ->]].
Qed.

Lemma is_visible_spec (g : ZorkGame) (obj_id : string) (obj : GameObject.t) :
  OrderedDict.get obj_id (objects g) = Some obj ->
  OrderedDict.get "" (objects g) = None ->
  _is_visible g obj_id = true <->
    obj_id ∈ player_inventory g \/
    GameObject.location obj = Some (current_room g) \/
    in_viewable_container g obj.
Proof.
  intros Hobj Hempty. unfold _is_visible. rewrite Hobj.
  destruct (Py.mem obj_id (player_inventory g)) eqn:Hinv.
  { apply mem_In in Hinv. tauto. }
  apply mem_false in Hinv.
  destruct (Py.opt_is (GameObject.location obj) (current_room g)) eqn:Hroom.
  { apply opt_is_spec in Hroom. tauto. }
  assert (GameObject.location obj <> Some (current_room g)) as Hroom'.
  { intros H. apply opt_is_spec in H. congruence. }
  unfold in_viewable_container.
  destruct (GameObject.location obj) as [loc|] eqn:Hloc; simpl.
  2:{ split; [discriminate|]. intros [?|[?|(? & ? & ? & _)]]; [tauto | tauto | discriminate]. }
  destruct (Py.truthy loc) eqn:Htruthy.
  2:{ destruct loc; [|discriminate]. split; [discriminate|].
      intros [?|[?|(loc' & c & [= <-] & Hc & _)]]; [tauto | tauto | congruence]. }
  destruct (OrderedDict.get loc (objects g)) as [container|] eqn:Hc.
  2:{ split; [discriminate|].
      intros [?|[?|(loc' & c & [= <-] & Hc' & _)]]; [tauto | tauto | congruence]. }
  rewrite !andb_true_iff, !orb_true_iff, opt_is_spec, mem_In. split.
  - intros [[Hcont Hopen] Hwhere]. right. right. exists loc, container. tauto.
  - intros [?|[?|(loc' & c & [= <-] & Hc' & Hcont & Hopen & Hwhere)]]; [tauto | tauto |].
    assert (c = container) as -> by congruence. tauto.
Qed.

(** C6: [_is_visible] holds exactly of an object that is carried, or lies in
    the current room, or whose immediate parent is an open or transparent
    container that is in the current room or carried.  So the content of a
    container that is neither open nor transparent is not visible even when
    the container is, and one hop is all there is: what lies in a container
    that is itself inside another container is not visible, whatever is
    open. *)
Theorem is_visible_one_hop (g : ZorkGame) (obj_id : string) (obj : GameObject.t) :
  OrderedDict.get obj_id (objects g) = Some obj ->
  OrderedDict.get "" (objects g) = None ->
  (_is_visible g obj_id = true <->
     obj_id ∈ player_inventory g \/
     GameObject.location obj = Some (current_room g) \/
     in_viewable_container g obj) /\
  (forall (loc : string) (container : GameObject.t),
     obj_id ∉ player_inventory g ->
     GameObject.location obj = Some loc ->
     loc <> current_room g ->
     OrderedDict.get loc (objects g) = Some container ->
     GameObject.has_flag container ObjectFlag.OPEN = false ->
     GameObject.has_flag container ObjectFlag.TRANSPARENT = false ->
     _is_visible g obj_id = false) /\
  (forall (loc : string) (container : GameObject.t) (outer : string),
     obj_id ∉ player_inventory g ->
     GameObject.location obj = Some loc ->
     loc <> current_room g ->
     OrderedDict.get loc (objects g) = Some container ->
     GameObject.location container = Some outer ->
     outer <> current_room g ->
     GameObject.id container ∉ player_inventory g ->
     _is_visible g obj_id = false).
Proof.
  intros Hobj Hempty. pose proof (is_visible_spec g obj_id obj Hobj Hempty) as Hspec.
  split; [exact Hspec|]. split.
  - intros loc container Hinv Hloc Hne Hc Hopen Htrans.
    apply not_true_is_false. intros E.
    apply Hspec in E as [?|[?|(loc' & c & Hl & Hc' & _ & [Ho|Ht] & _)]];
      [tauto | congruence | |];
      assert (loc' = loc) as -> by congruence;
      assert (c = container) as -> by congruence; congruence.
  - intros loc container outer Hinv Hloc Hne Hc Hout Hne' Hcarried.
    apply not_true_is_false. intros E.
    apply Hspec in E as [?|[?|(loc' & c & Hl & Hc' & _ & _ & [Hw|Hw])]];
      [tauto | congruence | |];
      assert (loc' = loc) as -> by congruence;
      assert (c = container) as -> by congruence; [congruence | tauto].
Qed.

(** In the opening position the leaflet lies in the closed mailbox: the
    mailbox is visible, the leaflet is not. *)
Lemma is_visible_one_hop_witness :
  let g := game (new_game [] ∅ []) in
  _is_visible g "mailbox" = true /\ _is_visible g "leaflet" = false.
Proof.
  intros g.
  pose (nothing := GameObject.mk "" "" "" "" "" 0 None 0 0 0).
  pose (leaflet := default nothing (OrderedDict.get "leaflet" (objects g))).
  pose (mailbox := default nothing (OrderedDict.get "mailbox" (objects g))).
  assert (OrderedDict.get "leaflet" (objects g) = Some leaflet) as Hleaflet
    by (vm_compute; reflexivity).
  assert (OrderedDict.get "" (objects g) = None) as Hempty
    by (vm_compute; reflexivity).
  destruct (is_visible_one_hop g "leaflet" leaflet Hleaflet Hempty) as (_ & Hclosed & _).
  split; [vm_compute; reflexivity|].
  apply (Hclosed "mailbox" mailbox).
  - apply mem_false. vm_compute. reflexivity.
  - vm_compute. reflexivity.
  - vm_compute. discriminate.
  - vm_compute. reflexivity.
  - vm_compute. reflexivity.
  - vm_compute. reflexivity.
Defined.

(** ** Running monadic code *)

Lemma bind_ok {A B} (m : M A) (k : A -> M B) (s s' : Sys) (a : A) :
  m s = Ok a s' -> (x <- m ;; k x) s = k a s'.
Proof. unfold bind. now intros ->. Qed.

Lemma bind_raise {A B} (m : M A) (k : A -> M B) (s s' : Sys) (e : PyExc) :
  m s = Raise e s' -> (x <- m ;; k x) s = Raise e s'.
Proof. unfold bind. now intros ->. Qed.

Lemma object_at_ok (k : string) (o : GameObject.t) (s : Sys) :
  OrderedDict.get k (objects (game s)) = Some o -> object_at k s = Ok o s.
Proof. unfold object_at, bind, self, ret. now intros ->. Qed.

Lemma room_at_ok (k : string) (r : Room.t) (s : Sys) :
  rooms (game s) !! k = Some r -> room_at k s = Ok r s.
Proof. unfold room_at, bind, self, ret. now intros ->. Qed.

Lemma update_object_ok (k : string) (f : GameObject.t -> GameObject.t)
    (o : GameObject.t) (s : Sys) :
  OrderedDict.get k (objects (game s)) = Some o ->
  update_object k f s =
  Ok tt (with_game (set_objects (OrderedDict.set k (f o) (objects (game s))) (game s)) s).
Proof.
  intros H. unfold update_object. rewrite (bind_ok _ _ _ _ _ (object_at_ok _ _ _ H)).
  reflexivity.
Qed.

Lemma update_room_ok (k : string) (f : Room.t -> Room.t) (r : Room.t) (s : Sys) :
  rooms (game s) !! k = Some r ->
  update_room k f s =
  Ok tt (with_game (set_rooms (<[k := f r]> (rooms (game s))) (game s)) s).
Proof.
  intros H. unfold update_room. rewrite (bind_ok _ _ _ _ _ (room_at_ok _ _ _ H)).
  reflexivity.
Qed.

Ltac run :=
  repeat first
    [ progress cbn [bind ret self assign print when game stdout stdin files draws
                    with_game say final]
    | progress unfold bind, ret, self, assign, print, when ].

(** ** Locked doors *)

Lemma open_locked_door (s : Sys) (command : ParsedCommand.t) (obj_id : string)
    (obj : GameObject.t) :
  ParsedCommand.direct_object command = Some obj_id ->
  Py.truthy obj_id = true ->
  obj_id <> "window" -> obj_id <> "jeweled_egg" ->
  OrderedDict.get obj_id (objects (game s)) = Some obj ->
  GameObject.has_flag obj ObjectFlag.DOOR = true ->
  GameObject.has_flag obj ObjectFlag.LOCKED = true ->
  GameObject.has_flag obj ObjectFlag.OPEN = false ->
  _open command s = Ok tt (say "It's locked." s).
Proof.
  intros Hdo Htruthy Hw He Hobj Hdoor Hlocked Hopen.
  unfold _open, with_direct_object. rewrite Hdo, Htruthy.
  rewrite (bind_ok _ _ _ _ _ (object_at_ok _ _ _ Hobj)).
  apply String.eqb_neq in Hw, He. rewrite Hw, He, Hdoor, Hopen, Hlocked.
  rewrite orb_true_r. reflexivity.
Qed.

(** ** Frames

    [frames R m]: however a run of [m] ends, normally or with an exception,
    the machine it leaves is related by [R] to the machine it started from.
    A relation is a [Framing] when it is a preorder that does not look at
    what is printed, read or drawn. *)

Lemma framing_on_game (Rg : ZorkGame -> ZorkGame -> Prop) :
  (forall g, Rg g g) ->
  (forall g1 g2 g3, Rg g1 g2 -> Rg g2 g3 -> Rg g1 g3) ->
  Framing (on_game Rg).
Proof.
  intros Hrefl Htrans. split; unfold on_game; cbn; eauto.
Qed.

Section Frames.
Context (R : Sys -> Sys -> Prop) `{!Framing R}.

Lemma frames_ret {A} (a : A) : frames R (ret a).
Proof. intros s. apply framing_refl. Qed.

Lemma frames_raise {A} (e : PyExc) : frames R (@raise A e).
Proof. intros s. apply framing_refl. Qed.

Lemma frames_bind {A B} (m : M A) (k : A -> M B) :
  frames R m -> (forall a, frames R (k a)) -> frames R (x <- m ;; k x).
Proof.
  intros Hm Hk s. specialize (Hm s). unfold bind.
  destruct (m s) as [a s'|e s']; simpl in *; [|assumption].
  eapply framing_trans; [eassumption | apply Hk].
Qed.

Lemma frames_try_except {A} (m : M A) (h : PyExc -> M A) :
  frames R m -> (forall e, frames R (h e)) -> frames R (try_except m h).
Proof.
  intros Hm Hh s. specialize (Hm s). unfold try_except.
  destruct (m s) as [a s'|e s']; simpl in *; [assumption|].
  eapply framing_trans; [eassumption | apply Hh].
Qed.

Lemma frames_when (b : bool) (m : M unit) : frames R m -> frames R (when b m).
Proof. destruct b; [trivial | intros _; apply frames_ret]. Qed.

Lemma frames_for_each {A} (l : list A) (body : A -> M unit) :
  (forall x, frames R (body x)) -> frames R (for_each l body).
Proof.
  intros Hbody. induction l as [|x l IH]; simpl.
  - apply frames_ret.
  - apply frames_bind; auto.
Qed.

Lemma frames_self : frames R self.
Proof. intros s. apply framing_refl. Qed.

Lemma frames_print (line : string) : frames R (print line).
Proof. intros s. apply framing_out. Qed.

Lemma frames_input (prompt : string) : frames R (input prompt).
Proof.
  intros s. unfold input. destruct (stdin s) as [|line rest]; cbn.
  - eapply framing_trans; [apply (framing_out s prompt)|].
    apply (framing_in (say prompt s) []).
  - eapply framing_trans; [apply (framing_out s prompt)|].
    apply (framing_in (say prompt s) rest).
Qed.

Lemma frames_randint (a b : Z) : frames R (randint a b).
Proof.
  intros s. unfold randint. destruct (draws s); [apply framing_refl|].
  apply framing_draw.
Qed.

Lemma frames_choice (l : list string) : frames R (choice l).
Proof.
  intros s. unfold choice. destruct (draws s); [apply framing_refl|].
  apply framing_draw.
Qed.

Lemma frames_read_json (filename : string) : frames R (read_json filename).
Proof.
  intros s. unfold read_json.
  destruct (files s !! filename) as [[]|]; apply framing_refl.
Qed.

Lemma frames_field {A} (key : string) (o : option A) : frames R (field key o).
Proof. destruct o; [apply frames_ret | apply frames_raise]. Qed.

Lemma frames_room_at (k : string) : frames R (room_at k).
Proof.
  intros s. unfold room_at, bind, self.
  destruct (rooms (game s) !! k); apply framing_refl.
Qed.

Lemma frames_object_at (k : string) : frames R (object_at k).
Proof.
  intros s. unfold object_at, bind, self.
  destruct (OrderedDict.get k (objects (game s))); apply framing_refl.
Qed.

Lemma frames_actor_at (k : string) : frames R (actor_at k).
Proof.
  intros s. unfold actor_at, bind, self.
  destruct (OrderedDict.get k (actors (game s))); apply framing_refl.
Qed.

Lemma frames_message_of (actor : Actor.t) (key : string) :
  frames R (message_of actor key).
Proof.
  unfold message_of. destruct (Actor.messages actor !! key);
    [apply frames_ret | apply frames_raise].
Qed.

Lemma frames_assign (f : ZorkGame -> ZorkGame) :
  (forall s, R s (with_game (f (game s)) s)) -> frames R (assign f).
Proof. intros Hf s. apply Hf. Qed.

Lemma frames_write_json (filename : string) (d : SaveData.t) :
  (forall s fs, R s (mkSys (game s) (stdout s) (stdin s) fs (draws s))) ->
  frames R (write_json filename d).
Proof.
  intros Hw s. unfold write_json.
  destruct (files s !! filename) as [[]|]; cbn; solve [apply framing_refl | apply Hw].
Qed.

Lemma frames_update_object (k : string) (f : GameObject.t -> GameObject.t) :
  (forall s o, OrderedDict.get k (objects (game s)) = Some o ->
     R s (with_game (set_objects (OrderedDict.set k (f o) (objects (game s))) (game s)) s)) ->
  frames R (update_object k f).
Proof.
  intros Hf s. unfold update_object, object_at, bind, self.
  destruct (OrderedDict.get k (objects (game s))) as [o|] eqn:Ho; cbn.
  - now apply Hf.
  - apply framing_refl.
Qed.

Lemma frames_del_object (k : string) :
  (forall s, R s (with_game (set_objects (OrderedDict.del k (objects (game s))) (game s)) s)) ->
  frames R (del_object k).
Proof.
  intros Hf s. unfold del_object, object_at, bind, self.
  destruct (OrderedDict.get k (objects (game s))) as [o|] eqn:Ho; cbn.
  - apply Hf.
  - apply framing_refl.
Qed.

Lemma frames_update_actor (k : string) (f : Actor.t -> Actor.t) :
  (forall s a, OrderedDict.get k (actors (game s)) = Some a ->
     R s (with_game (set_actors (OrderedDict.set k (f a) (actors (game s))) (game s)) s)) ->
  frames R (update_actor k f).
Proof.
  intros Hf s. unfold update_actor, actor_at, bind, self.
  destruct (OrderedDict.get k (actors (game s))) as [a|] eqn:Ha; cbn.
  - now apply Hf.
  - apply framing_refl.
Qed.

Lemma frames_update_room (k : string) (f : Room.t -> Room.t) :
  (forall s r, rooms (game s) !! k = Some r ->
     R s (with_game (set_rooms (<[k := f r]> (rooms (game s))) (game s)) s)) ->
  frames R (update_room k f).
Proof.
  intros Hf s. unfold update_room, room_at, bind, self.
  destruct (rooms (game s) !! k) as [r|] eqn:Hr; cbn.
  - now apply Hf.
  - apply framing_refl.
Qed.

Lemma frames_set_exit (k : string) (d : Direction.t) (target : string) :
  (forall s r, rooms (game s) !! k = Some r ->
     R s (with_game
            (set_rooms (<[k := Room.with_exits (<[d := target]> (Room.exits r)) r]>
                          (rooms (game s))) (game s)) s)) ->
  frames R (set_exit k d target).
Proof. intros Hf. unfold set_exit. now apply frames_update_room. Qed.

Lemma frames_del_exit (k : string) (d : Direction.t) :
  (forall s r, rooms (game s) !! k = Some r ->
     R s (with_game
            (set_rooms (<[k := Room.with_exits (delete d (Room.exits r)) r]>
                          (rooms (game s))) (game s)) s)) ->
  frames R (del_exit k d).
Proof.
  intros Hf. unfold del_exit. apply frames_bind; [apply frames_room_at|].
  intros r. destruct (Room.exits r !! d); [|apply frames_raise].
  now apply frames_update_room.
Qed.

Lemma frames_inventory_remove (x : string) :
  (forall s l, Py.remove x (player_inventory (game s)) = Some l ->
     R s (with_game (set_player_inventory l (game s)) s)) ->
  frames R (inventory_remove x).
Proof.
  intros Hf s. unfold inventory_remove, bind, self.
  destruct (Py.remove x (player_inventory (game s))) as [l|] eqn:Hl; cbn.
  - now apply Hf.
  - apply framing_refl.
Qed.

Lemma frames_carried_light (inventory : list string) :
  frames R (carried_light inventory).
Proof.
  induction inventory as [|obj_id rest IH]; simpl.
  - apply frames_ret.
  - apply frames_bind; [apply frames_object_at|]. intros obj.
    destruct (is_lit obj); [apply frames_ret | assumption].
Qed.

Lemma frames_can_see : frames R _can_see.
Proof.
  unfold _can_see. apply frames_bind; [apply frames_self|]. intros g.
  apply frames_bind; [apply frames_room_at|]. intros room.
  destruct (Room.has_flag room RoomFlag.LIT); [apply frames_ret|].
  apply frames_bind; [apply frames_carried_light|]. intros [|]; apply frames_ret.
Qed.

Lemma frames_carried_treasures (inventory : list string) :
  frames R (carried_treasures inventory).
Proof.
  induction inventory as [|obj_id rest IH]; simpl.
  - apply frames_ret.
  - apply frames_bind; [apply frames_object_at|]. intros obj.
    apply frames_bind; [assumption|]. intros others. apply frames_ret.
Qed.
End Frames.

(** Breaking a frame goal down along the code; [solve_step] is tried on the
    side conditions of the mutating primitives. *)
Ltac framing_side :=
  lazymatch goal with
  | |- Framing _ => exact _
  | _ => idtac
  end.

Ltac frame_step solve_step :=
  cbv beta;
  lazymatch goal with
  | |- frames _ (bind _ _) => apply frames_bind; framing_side; [|intros ?]
  | |- frames _ (try_except _ _) => apply frames_try_except; framing_side; [|intros ?]
  | |- frames _ (when _ _) => apply frames_when; framing_side
  | |- frames _ (for_each _ _) => apply frames_for_each; framing_side; intros ?
  | |- frames _ (ret _) => apply frames_ret; framing_side
  | |- frames _ (raise _) => apply frames_raise; framing_side
  | |- frames _ self => apply frames_self; framing_side
  | |- frames _ (print _) => apply frames_print; framing_side
  | |- frames _ (input _) => apply frames_input; framing_side
  | |- frames _ (randint _ _) => apply frames_randint; framing_side
  | |- frames _ (choice _) => apply frames_choice; framing_side
  | |- frames _ (read_json _) => apply frames_read_json; framing_side
  | |- frames _ (field _ _) => apply frames_field; framing_side
  | |- frames _ (room_at _) => apply frames_room_at; framing_side
  | |- frames _ (object_at _) => apply frames_object_at; framing_side
  | |- frames _ (actor_at _) => apply frames_actor_at; framing_side
  | |- frames _ (message_of _ _) => apply frames_message_of; framing_side
  | |- frames _ _can_see => apply frames_can_see; framing_side
  | |- frames _ (carried_treasures _) => apply frames_carried_treasures; framing_side
  | |- frames _ (print_contents _) => unfold print_contents
  | |- frames _ (move_to _) => unfold move_to
  | |- frames _ (assign _) =>
      apply frames_assign; framing_side; intros ?; cbv beta; solve_step
  | |- frames _ (write_json _ _) =>
      apply frames_write_json; framing_side; intros ? ?; solve_step
  | |- frames _ (update_object _ _) =>
      apply frames_update_object; framing_side; intros ? ? ?; cbv beta; solve_step
  | |- frames _ (del_object _) =>
      apply frames_del_object; framing_side; intros ?; solve_step
  | |- frames _ (update_actor _ _) =>
      apply frames_update_actor; framing_side; intros ? ? ?; cbv beta; solve_step
  | |- frames _ (update_room _ _) =>
      apply frames_update_room; framing_side; intros ? ? ?; cbv beta; solve_step
  | |- frames _ (set_exit _ _ _) =>
      apply frames_set_exit; framing_side; intros ? ? ?; solve_step
  | |- frames _ (del_exit _ _) =>
      apply frames_del_exit; framing_side; intros ? ? ?; solve_step
  | |- frames _ (inventory_remove _) =>
      apply frames_inventory_remove; framing_side; intros ? ? ?; solve_step
  | |- frames _ (if ?b then _ else _) => destruct b
  | |- frames _ (match ?x with _ => _ end) => destruct x
  end.

(** *** Looking changes nothing but the set of visited rooms *)

Lemma up_to_visited_refl (g : ZorkGame) : up_to_visited g g.
Proof. exists (visited_rooms g). split; [now destruct g | reflexivity]. Qed.

Lemma up_to_visited_trans (g1 g2 g3 : ZorkGame) :
  up_to_visited g1 g2 -> up_to_visited g2 g3 -> up_to_visited g1 g3.
Proof.
  intros (V & -> & HV) (V' & -> & HV'). exists V'. split; [reflexivity|].
  cbn in HV'. set_solver.
Qed.

#[export] Instance up_to_visited_framing : Framing (on_game up_to_visited).
Proof. apply framing_on_game; [apply up_to_visited_refl | apply up_to_visited_trans]. Qed.

#[export] Instance output_grows_framing : Framing output_grows.
Proof.
  split; unfold output_grows; cbn.
  - intros s. exists []. now rewrite app_nil_r.
  - intros s1 s2 s3 [l1 H1] [l2 H2]. exists (l1 ++ l2)%list.
    now rewrite H2, H1, app_assoc.
  - intros s line. now exists [line].
  - intros s rest. exists []. now rewrite app_nil_r.
  - intros s rest. exists []. now rewrite app_nil_r.
Qed.

Ltac same_output := exists []; cbn; now rewrite app_nil_r.

Ltac visit := eexists; split; [reflexivity | cbn; set_solver].

Lemma frames_examine (R : Sys -> Sys -> Prop) `{!Framing R}
    (command : ParsedCommand.t) :
  frames R (_examine command).
Proof.
  unfold _examine, with_direct_object. repeat frame_step fail.
Qed.

Lemma frames_look_objects (R : Sys -> Sys -> Prop) `{!Framing R}
    (room : Room.t) (items : list (string * GameObject.t)) :
  frames R (look_objects room items).
Proof.
  induction items as [|[obj_id obj] rest IH]; simpl;
    repeat first [exact IH | frame_step fail].
Qed.

Lemma frames_look_containers (R : Sys -> Sys -> Prop) `{!Framing R}
    (g : ZorkGame) :
  frames R (look_containers g).
Proof. unfold look_containers. repeat frame_step fail. Qed.

(** [_look] frames every relation that allows the current room to be added
    to the visited rooms. *)
Lemma frames_look (R : Sys -> Sys -> Prop) `{!Framing R}
    (command : option ParsedCommand.t) :
  (forall s room_id,
     R s (with_game (set_visited_rooms ({[room_id]} ∪ visited_rooms (game s)) (game s)) s)) ->
  frames R (_look command).
Proof.
  intros Hvisit. unfold _look.
  destruct (match command with
            | Some c => if Py.truthy_opt (ParsedCommand.direct_object c)
                        then Some c else None
            | None => None
            end) as [c|]; [now apply frames_examine|].
  repeat first
    [ apply frames_look_objects; exact _
    | apply frames_look_containers; exact _
    | frame_step ltac:(apply Hvisit) ].
Qed.

Lemma look_up_to_visited (command : option ParsedCommand.t) :
  frames (on_game up_to_visited) (_look command).
Proof. apply frames_look; [exact _|]. intros s room_id. unfold on_game. visit. Qed.

Lemma look_output_grows (command : option ParsedCommand.t) :
  frames output_grows (_look command).
Proof. apply frames_look; [exact _|]. intros s room_id. same_output. Qed.

(** ** Code that only prints *)

Lemma says_nil (s : Sys) : says [] s = s.
Proof. unfold says. rewrite app_nil_r. now destruct s. Qed.

Lemma says_says (l1 l2 : list string) (s : Sys) :
  says l2 (says l1 s) = says (l1 ++ l2)%list s.
Proof. unfold says. cbn. now rewrite app_assoc. Qed.

Lemma prints_ret {A} (a : A) (s : Sys) : prints (ret a) s.
Proof. exists a, []. now rewrite says_nil. Qed.

Lemma prints_print (line : string) (s : Sys) : prints (print line) s.
Proof. now exists tt, [line]. Qed.

Lemma prints_self (s : Sys) : prints self s.
Proof. exists (game s), []. now rewrite says_nil. Qed.

Lemma prints_bind {A B} (m : M A) (k : A -> M B) (s : Sys) :
  prints m s -> (forall a lines, prints (k a) (says lines s)) ->
  prints (x <- m ;; k x) s.
Proof.
  intros (a & l1 & Hm) Hk. destruct (Hk a l1) as (b & l2 & Hb).
  exists b, (l1 ++ l2)%list. unfold bind. rewrite Hm, Hb. now rewrite says_says.
Qed.

Lemma prints_when (b : bool) (m : M unit) (s : Sys) :
  prints m s -> prints (when b m) s.
Proof. destruct b; [trivial | intros _; apply prints_ret]. Qed.

Lemma prints_for_each {A} (l : list A) (body : A -> M unit) (s : Sys) :
  (forall x lines, prints (body x) (says lines s)) -> prints (for_each l body) s.
Proof.
  intros Hbody. revert s Hbody. induction l as [|x l IH]; intros s Hbody; simpl.
  - apply prints_ret.
  - apply prints_bind.
    + rewrite <- (says_nil s). apply Hbody.
    + intros _ lines. apply IH. intros y lines'. rewrite says_says. apply Hbody.
Qed.

Lemma prints_object_at (k : string) (s : Sys) :
  is_Some (OrderedDict.get k (objects (game s))) -> prints (object_at k) s.
Proof.
  intros [o Ho]. exists o, []. rewrite says_nil. now apply object_at_ok.
Qed.

Ltac prints_step :=
  cbv beta;
  lazymatch goal with
  | |- prints (bind _ _) _ => apply prints_bind; [|intros ? ?]
  | |- prints (when _ _) _ => apply prints_when
  | |- prints (for_each _ _) _ => apply prints_for_each; intros ? ?
  | |- prints (ret _) _ => apply prints_ret
  | |- prints self _ => apply prints_self
  | |- prints (print _) _ => apply prints_print
  | |- prints (print_contents _) _ => unfold print_contents
  | |- prints (if ?b then _ else _) _ => destruct b
  | |- prints (match ?x with _ => _ end) _ => destruct x
  end.

Lemma prints_look_objects (room : Room.t) (items : list (string * GameObject.t))
    (s : Sys) :
  is_Some (OrderedDict.get "leaves" (objects (game s))) ->
  prints (look_objects room items) s.
Proof.
  intros Hleaves. revert s Hleaves.
  induction items as [|[obj_id obj] rest IH]; intros s Hleaves; simpl;
    repeat first [ apply IH; assumption
                 | apply prints_object_at; assumption
                 | prints_step ].
Qed.

Lemma prints_look_containers (g : ZorkGame) (s : Sys) :
  prints (look_containers g) s.
Proof. unfold look_containers. repeat prints_step. Qed.

(** ** Looking around, from a place where nothing can go wrong *)

Lemma can_see_empty_handed (s : Sys) (room : Room.t) :
  rooms (game s) !! current_room (game s) = Some room ->
  player_inventory (game s) = [] ->
  exists b, _can_see s = Ok b s /\
            (Room.has_flag room RoomFlag.LIT = true -> b = true).
Proof.
  intros Hroom Hinv. unfold _can_see.
  rewrite (bind_ok _ _ s s (game s)) by reflexivity.
  rewrite (bind_ok _ _ _ _ _ (room_at_ok _ _ _ Hroom)).
  destruct (Room.has_flag room RoomFlag.LIT); [now eexists|].
  rewrite Hinv. cbn [carried_light]. rewrite (bind_ok _ _ s s false) by reflexivity.
  eexists. split; [reflexivity | discriminate].
Qed.

Lemma look_returns (s : Sys) (room : Room.t) :
  rooms (game s) !! current_room (game s) = Some room ->
  player_inventory (game s) = [] ->
  is_Some (OrderedDict.get "leaves" (objects (game s))) ->
  exists s', _look None s = Ok tt s' /\ looked room s s'.
Proof.
  intros Hroom Hinv Hleaves. unfold _look.
  rewrite (bind_ok _ _ s s (game s)) by reflexivity.
  rewrite (bind_ok _ _ _ _ _ (room_at_ok _ _ _ Hroom)).
  destruct (can_see_empty_handed s room Hroom Hinv) as (can_see & Hsee & Hlit).
  rewrite (bind_ok _ _ _ _ _ Hsee).
  destruct can_see; cbn [negb].
  2:{ exists s. split; [reflexivity|]. exists (visited_rooms (game s)), [].
      rewrite app_nil_r. split; [now destruct s as [[] ? ? ? ?]|].
      intros H. now apply Hlit in H. }
  assert (prints
            (if bool_decide (Room.id room ∈ visited_rooms (game s)) && negb (verbose (game s))
             then print (Room.name room)
             else print (Room.name room);; print (Room.description room)) s)
    as ([] & l1 & H1) by (repeat prints_step).
  assert (exists rest, l1 = Room.name room :: rest) as [rest1 Hl1].
  { revert H1. unfold says, bind, print.
    destruct (bool_decide (Room.id room ∈ visited_rooms (game s)) && negb (verbose (game s)));
      cbn; intros [= H]; rewrite <- ?app_assoc in H;
      apply app_inv_head in H; subst l1; eauto. }
  rewrite (bind_ok _ _ _ _ _ H1).
  set (V := {[Room.id room]} ∪ visited_rooms (game s)).
  rewrite (bind_ok _ _ (says l1 s)
             (with_game (set_visited_rooms V (game s)) (says l1 s)) tt) by reflexivity.
  set (s2 := with_game (set_visited_rooms V (game s)) (says l1 s)).
  assert (is_Some (OrderedDict.get "leaves" (objects (game s2)))) as Hleaves2
    by exact Hleaves.
  match goal with
  | |- exists s', ?m s2 = _ /\ _ => assert (prints m s2) as ([] & l2 & H2)
  end.
  { repeat first [ apply prints_look_objects; assumption
                 | apply prints_look_containers
                 | prints_step ]. }
  rewrite H2. eexists. split; [reflexivity|].
  exists V, (l1 ++ l2)%list. split.
  - unfold says, s2, with_game, says. cbn. now rewrite app_assoc.
  - intros _. subst l1. now eexists.
Qed.

(** ** Death and respawn *)

Arguments dropped_all : simpl never.

Lemma get_dropped_all (room : string) (l : list string)
    (objs : list (string * GameObject.t)) (obj_id : string) :
  OrderedDict.get obj_id (dropped_all room l objs) =
  option_map (fun o => if Py.mem obj_id l
                       then GameObject.with_location (Some room) o else o)
             (OrderedDict.get obj_id objs).
Proof.
  revert objs. induction l as [|x l IH]; intros objs.
  - unfold dropped_all. simpl. now destruct (OrderedDict.get obj_id objs).
  - unfold dropped_all in *. cbn [fold_left]. rewrite IH. clear IH.
    cbn [Py.mem existsb]. fold (Py.mem obj_id l).
    destruct (String.eqb_spec obj_id x) as [->|Hne].
    + destruct (OrderedDict.get x objs) as [o|] eqn:Ho.
      * rewrite get_set_eq. cbn. now destruct (Py.mem x l).
      * now rewrite Ho.
    + destruct (OrderedDict.get x objs) as [o|] eqn:Ho; [|reflexivity].
      now rewrite get_set_ne by congruence.
Qed.

Lemma drop_everything (room : string) (l : list string) (s : Sys) :
  player_inventory (game s) = l ->
  Forall (fun obj_id => is_Some (OrderedDict.get obj_id (objects (game s)))) l ->
  for_each l (drop_one room) s =
  Ok tt (with_game
           (set_player_inventory []
              (set_objects (dropped_all room l (objects (game s))) (game s))) s).
Proof.
  revert s. induction l as [|x l IH]; intros s Hinv Hall.
  - simpl. unfold ret, with_game. f_equal.
    destruct s as [g ? ? ? ?]. cbn in *. f_equal. destruct g. cbn in *. now subst.
  - apply Forall_cons in Hall as [[o Ho] Hall].
    cbn [for_each]. unfold drop_one at 1.
    erewrite bind_ok; cycle 1.
    { erewrite bind_ok by (apply update_object_ok; eassumption).
      unfold inventory_remove. erewrite bind_ok by reflexivity.
      cbn. rewrite Hinv, remove_head. reflexivity. }
    rewrite IH.
    + unfold with_game. f_equal. cbn. unfold dropped_all. cbn [fold_left].
      rewrite Ho. reflexivity.
    + reflexivity.
    + cbn. eapply Forall_impl; [exact Hall|]. intros y [oy Hy]. cbn.
      destruct (String.eqb_spec x y) as [->|Hne].
      * rewrite get_set_eq. eauto.
      * rewrite get_set_ne by assumption. eauto.
Qed.



(** ** Locked doors and the grating *)

Lemma set_exit_ok (k : string) (d : Direction.t) (target : string) (r : Room.t)
    (s : Sys) :
  rooms (game s) !! k = Some r ->
  set_exit k d target s =
  Ok tt (with_game
           (set_rooms (<[k := Room.with_exits (<[d := target]> (Room.exits r)) r]>
                         (rooms (game s))) (game s)) s).
Proof. intros H. unfold set_exit. now rewrite (update_room_ok _ _ r). Qed.

Lemma unlock_grating (s : Sys) (command : ParsedCommand.t) (grating : GameObject.t)
    (place : string) (room : Room.t) :
  ParsedCommand.direct_object command = Some "grating" ->
  OrderedDict.get "grating" (objects (game s)) = Some grating ->
  GameObject.location grating = Some place ->
  "skeleton_key" ∈ player_inventory (game s) ->
  rooms (game s) !! "grating_room" = Some room ->
  exists s' : Sys,
    _unlock command s = Ok tt s' /\
    stdout s' = (stdout s ++ ["The grating is unlocked."])%list /\
    grating_unlocked (game s') = true /\
    OrderedDict.get "grating" (objects (game s')) =
      Some (GameObject.set_flag ObjectFlag.LOCKED false grating) /\
    has_exit (game s') "grating_room" Direction.UP "clearing".
Proof.
  intros Hdo Hgrating Hplace Hkey Hroom.
  unfold _unlock, with_direct_object. rewrite Hdo. cbn [Py.truthy String.eqb Ascii.eqb Bool.eqb].
  erewrite bind_ok; cycle 1.
  { erewrite bind_ok by (apply object_at_ok; eassumption). rewrite Hplace. reflexivity. }
  cbv iota. erewrite bind_ok by reflexivity.
  apply mem_In in Hkey. rewrite Hkey.
  erewrite bind_ok by reflexivity.
  erewrite bind_ok by reflexivity.
  erewrite bind_ok by (apply update_object_ok; exact Hgrating).
  erewrite set_exit_ok by exact Hroom.
  eexists. split; [reflexivity|]. cbn.
  split; [reflexivity|]. split; [reflexivity|]. split.
  - apply get_set_eq.
  - unfold has_exit. eexists. split; [apply lookup_insert_eq|]. cbn.
    apply lookup_insert_eq.
Qed.

(** C8: opening a door whose LOCKED flag is set answers "It's locked." and
    changes nothing; unlocking the grating with the skeleton key in the
    inventory succeeds, clears the flag and writes the exit from the grating
    room up to the clearing into the room graph, after which the same
    [open] goes through. *)
Theorem locked_door_opens_only_after_unlock (s : Sys) (command : ParsedCommand.t)
    (grating : GameObject.t) (place : string) (room : Room.t) :
  ParsedCommand.direct_object command = Some "grating" ->
  OrderedDict.get "grating" (objects (game s)) = Some grating ->
  GameObject.location grating = Some place ->
  GameObject.has_flag grating ObjectFlag.DOOR = true ->
  GameObject.has_flag grating ObjectFlag.LOCKED = true ->
  GameObject.has_flag grating ObjectFlag.OPEN = false ->
  "skeleton_key" ∈ player_inventory (game s) ->
  rooms (game s) !! "grating_room" = Some room ->
  (forall (command' : ParsedCommand.t) (obj_id : string) (obj : GameObject.t),
     ParsedCommand.direct_object command' = Some obj_id ->
     Py.truthy obj_id = true ->
     obj_id <> "window" -> obj_id <> "jeweled_egg" ->
     OrderedDict.get obj_id (objects (game s)) = Some obj ->
     GameObject.has_flag obj ObjectFlag.DOOR = true ->
     GameObject.has_flag obj ObjectFlag.LOCKED = true ->
     GameObject.has_flag obj ObjectFlag.OPEN = false ->
     _open command' s = Ok tt (say "It's locked." s)) /\
  _open command s = Ok tt (say "It's locked." s) /\
  exists (s1 s2 : Sys) (revealed : list string) (opened : GameObject.t),
    _unlock command s = Ok tt s1 /\
    stdout s1 = (stdout s ++ ["The grating is unlocked."])%list /\
    grating_unlocked (game s1) = true /\
    OrderedDict.get "grating" (objects (game s1)) =
      Some (GameObject.set_flag ObjectFlag.LOCKED false grating) /\
    has_exit (game s1) "grating_room" Direction.UP "clearing" /\
    _open command s1 = Ok tt s2 /\
    stdout s2 = (stdout s1 ++ "Opened." :: revealed)%list /\
    has_exit (game s2) "grating_room" Direction.UP "clearing" /\
    OrderedDict.get "grating" (objects (game s2)) = Some opened /\
    GameObject.has_flag opened ObjectFlag.OPEN = true /\
    GameObject.has_flag opened ObjectFlag.CLOSED = false /\
    GameObject.has_flag opened ObjectFlag.LOCKED = false.
Proof.
  intros Hdo Hgrating Hplace Hdoor Hlocked Hopen Hkey Hroom.
  split; [intros; now apply (open_locked_door s command' obj_id obj)|].
  split; [now apply (open_locked_door s command "grating" grating)|].
  destruct (unlock_grating s command grating place room Hdo Hgrating Hplace Hkey Hroom)
    as (s1 & Hunlock & Hout & Hflag & Hg1 & Hexit).
  exists s1.
  set (unlocked := GameObject.set_flag ObjectFlag.LOCKED false grating) in *.
  assert (GameObject.has_flag unlocked ObjectFlag.DOOR = true) as Hdoor1.
  { unfold unlocked. rewrite has_flag_set_flag. now destruct (decide _). }
  assert (GameObject.has_flag unlocked ObjectFlag.OPEN = false) as Hopen1.
  { unfold unlocked. rewrite has_flag_set_flag. now destruct (decide _). }
  assert (GameObject.has_flag unlocked ObjectFlag.LOCKED = false) as Hlocked1.
  { unfold unlocked. rewrite has_flag_set_flag. now destruct (decide _). }
  set (opened := GameObject.set_flag ObjectFlag.CLOSED false
                   (GameObject.set_flag ObjectFlag.OPEN true unlocked)).
  assert (exists s2 revealed, _open command s1 = Ok tt s2 /\
            stdout s2 = (stdout s1 ++ "Opened." :: revealed)%list /\
            rooms (game s2) = rooms (game s1) /\
            OrderedDict.get "grating" (objects (game s2)) = Some opened)
    as (s2 & revealed & Hrun & Hout2 & Hrooms2 & Hg2).
  { unfold _open, with_direct_object. rewrite Hdo.
    cbn [Py.truthy String.eqb Ascii.eqb Bool.eqb].
    erewrite bind_ok by (apply object_at_ok; exact Hg1).
    rewrite Hdoor1, Hopen1, Hlocked1, orb_true_r. cbn [negb].
    erewrite bind_ok by (apply update_object_ok; exact Hg1).
    erewrite bind_ok by (apply update_object_ok; cbn; apply get_set_eq).
    erewrite bind_ok by reflexivity.
    match goal with
    | |- exists s2 revealed, ?m ?s3 = _ /\ _ => assert (prints m s3) as ([] & lines & Hp)
    end.
    { cbn [String.eqb Ascii.eqb Bool.eqb when]. repeat prints_step. }
    rewrite Hp. eexists. exists lines.
    split; [reflexivity|]. cbn. split; [now rewrite <- app_assoc|].
    split; [reflexivity|]. rewrite get_set_eq. reflexivity. }
  exists s2, revealed, opened.
  repeat (split; [assumption|]).
  split; [unfold has_exit; rewrite Hrooms2; exact Hexit|].
  split; [assumption|].
  unfold opened. rewrite !has_flag_set_flag.
  repeat split; repeat (destruct (decide _); try discriminate; try reflexivity);
    try assumption.
Qed.

(** ** Taking and dropping *)

Lemma take_treasure (s : Sys) (command : ParsedCommand.t) (obj_id : string)
    (obj : GameObject.t) :
  ParsedCommand.direct_object command = Some obj_id ->
  Py.truthy obj_id = true ->
  OrderedDict.contains obj_id (actors (game s)) = false ->
  OrderedDict.get obj_id (objects (game s)) = Some obj ->
  GameObject.has_flag obj ObjectFlag.TAKEABLE = true ->
  GameObject.has_flag obj ObjectFlag.TREASURE = true ->
  obj_id ∉ player_inventory (game s) ->
  out_of_reach (game s) obj = false ->
  (length (player_inventory (game s)) < 7)%nat ->
  _take command s = Ok tt (say "Taken." (with_game (taken obj_id obj (game s)) s)).
Proof.
  intros Hdo Htruthy Hactor Hobj Htake Htreasure Hinv Hreach Hload.
  unfold _take, with_direct_object. rewrite Hdo, Htruthy.
  erewrite bind_ok by reflexivity. rewrite Hactor.
  erewrite bind_ok by (apply object_at_ok; exact Hobj).
  rewrite Htake. cbn [negb].
  apply mem_false in Hinv. rewrite Hinv.
  fold (out_of_reach (game s) obj). rewrite Hreach.
  apply Nat.leb_gt in Hload. rewrite Hload.
  erewrite bind_ok by reflexivity.
  erewrite bind_ok by (apply update_object_ok; exact Hobj).
  erewrite bind_ok by reflexivity.
  rewrite Htreasure. reflexivity.
Qed.

Lemma drop_outside (s : Sys) (command : ParsedCommand.t) (obj_id : string)
    (obj : GameObject.t) (rest : list string) :
  ParsedCommand.direct_object command = Some obj_id ->
  Py.truthy obj_id = true ->
  Py.remove obj_id (player_inventory (game s)) = Some rest ->
  OrderedDict.get obj_id (objects (game s)) = Some obj ->
  current_room (game s) <> "living_room" ->
  _drop command s = Ok tt (say "Dropped." (with_game (dropped obj_id obj rest (game s)) s)).
Proof.
  intros Hdo Htruthy Hrem Hobj Hroom.
  unfold _drop, with_direct_object. rewrite Hdo, Htruthy.
  erewrite bind_ok by reflexivity.
  assert (Py.mem obj_id (player_inventory (game s)) = true) as ->.
  { apply mem_In. clear -Hrem. revert rest Hrem.
    induction (player_inventory (game s)) as [|y l IH]; simpl; intros rest; [discriminate|].
    destruct (String.eqb_spec obj_id y) as [->|Hne]; [intros; apply elem_of_cons; now left|].
    destruct (Py.remove obj_id l); [|discriminate]. intros _.
    apply elem_of_cons. right. eauto. }
  cbn [negb]. unfold inventory_remove.
  erewrite bind_ok; cycle 1.
  { erewrite bind_ok by reflexivity. rewrite Hrem. reflexivity. }
  erewrite bind_ok by (apply object_at_ok; exact Hobj).
  erewrite bind_ok by (apply update_object_ok; exact Hobj).
  erewrite bind_ok by reflexivity.
  apply String.eqb_neq in Hroom. cbn [game with_game say assign].
  unfold set_player_inventory at 1. cbn [current_room]. rewrite Hroom.
  reflexivity.
Qed.

Lemma set_set {V} (d : list (string * V)) (k : string) (v v' : V) :
  OrderedDict.set k v' (OrderedDict.set k v d) = OrderedDict.set k v' d.
Proof.
  induction d as [|[k0 v0] d IH]; simpl.
  - now rewrite String.eqb_refl.
  - destruct (String.eqb k k0) eqn:E; simpl; rewrite ?String.eqb_refl, ?E; congruence.
Qed.

Lemma drop_into_case (s : Sys) (command : ParsedCommand.t) (obj_id : string)
    (obj trophy_case : GameObject.t) (rest : list string) :
  ParsedCommand.direct_object command = Some obj_id ->
  Py.truthy obj_id = true ->
  Py.remove obj_id (player_inventory (game s)) = Some rest ->
  OrderedDict.get obj_id (objects (game s)) = Some obj ->
  current_room (game s) = "living_room" ->
  obj_id <> "case" ->
  OrderedDict.get "case" (objects (game s)) = Some trophy_case ->
  GameObject.has_flag trophy_case ObjectFlag.OPEN = true ->
  GameObject.has_flag obj ObjectFlag.TREASURE = true ->
  _drop command s =
  Ok tt (say ("The " +:+ GameObject.name obj +:+ " is now in the trophy case.")
           (say "Dropped." (with_game (deposited obj_id obj rest (game s)) s))).
Proof.
  intros Hdo Htruthy Hrem Hobj Hroom Hne Hcase Hopen Htreasure.
  unfold _drop, with_direct_object. rewrite Hdo, Htruthy.
  erewrite bind_ok by reflexivity.
  assert (Py.mem obj_id (player_inventory (game s)) = true) as ->.
  { apply mem_In. clear -Hrem. revert rest Hrem.
    induction (player_inventory (game s)) as [|y l IH]; simpl; intros rest; [discriminate|].
    destruct (String.eqb_spec obj_id y) as [->|Hne]; [intros; apply elem_of_cons; now left|].
    destruct (Py.remove obj_id l); [|discriminate]. intros _.
    apply elem_of_cons. right. eauto. }
  cbn [negb]. unfold inventory_remove.
  erewrite bind_ok; cycle 1.
  { erewrite bind_ok by reflexivity. rewrite Hrem. reflexivity. }
  erewrite bind_ok by (apply object_at_ok; exact Hobj).
  erewrite bind_ok by (apply update_object_ok; exact Hobj).
  erewrite bind_ok by reflexivity.
  rewrite Hroom. cbn [String.eqb Ascii.eqb Bool.eqb when].
  erewrite bind_ok; cycle 1.
  { apply object_at_ok. cbn. rewrite get_set_ne by assumption. exact Hcase. }
  rewrite Hopen, Htreasure. cbn [andb when].
  erewrite bind_ok by (apply update_object_ok; cbn; apply get_set_eq).
  erewrite bind_ok by reflexivity.
  erewrite bind_ok by reflexivity.
  unfold assign, say, with_game, deposited. cbn. rewrite set_set.
  reflexivity.
Qed.

(** C1, as the code has it: every successful take of a treasure adds its
    value to the score, so taking a treasure, dropping it (anywhere but the
    living room) and taking it again leaves the score increased by twice
    the value. *)
Theorem every_take_of_a_treasure_scores (s : Sys) (command : ParsedCommand.t)
    (obj_id : string) (obj : GameObject.t) :
  ParsedCommand.direct_object command = Some obj_id ->
  Py.truthy obj_id = true ->
  OrderedDict.contains obj_id (actors (game s)) = false ->
  OrderedDict.get obj_id (objects (game s)) = Some obj ->
  GameObject.has_flag obj ObjectFlag.TAKEABLE = true ->
  GameObject.has_flag obj ObjectFlag.TREASURE = true ->
  obj_id ∉ player_inventory (game s) ->
  out_of_reach (game s) obj = false ->
  (length (player_inventory (game s)) < 7)%nat ->
  current_room (game s) <> "living_room" ->
  OrderedDict.get (current_room (game s)) (objects (game s)) = None ->
  exists s1 s2 s3 : Sys,
    _take command s = Ok tt s1 /\
    score (game s1) = score (game s) + GameObject.value obj /\
    _drop command s1 = Ok tt s2 /\
    score (game s2) = score (game s1) /\
    player_inventory (game s2) = player_inventory (game s) /\
    OrderedDict.get obj_id (objects (game s2)) =
      Some (GameObject.with_location (Some (current_room (game s))) obj) /\
    _take command s2 = Ok tt s3 /\
    score (game s3) = score (game s) + 2 * GameObject.value obj.
Proof.
  intros Hdo Htruthy Hactor Hobj Htake Htreasure Hinv Hreach Hload Hroom Hfree.
  pose proof (take_treasure s command obj_id obj Hdo Htruthy Hactor Hobj Htake
                Htreasure Hinv Hreach Hload) as H1.
  set (s1 := say "Taken." (with_game (taken obj_id obj (game s)) s)) in *.
  set (carried := GameObject.with_location (Some "player") obj).
  assert (_drop command s1 =
          Ok tt (say "Dropped."
                   (with_game (dropped obj_id carried (player_inventory (game s)) (game s1)) s1)))
    as H2.
  { apply drop_outside; try assumption.
    - cbn. now apply remove_last.
    - cbn. apply get_set_eq. }
  set (s2 := say "Dropped."
               (with_game (dropped obj_id carried (player_inventory (game s)) (game s1)) s1)) in *.
  set (lying := GameObject.with_location (Some (current_room (game s))) obj).
  assert (OrderedDict.get obj_id (objects (game s2)) = Some lying) as Hlying.
  { cbn. apply get_set_eq. }
  assert (obj_id <> current_room (game s)) as Hne by (intros ->; congruence).
  pose proof (take_treasure s2 command obj_id lying Hdo Htruthy Hactor Hlying Htake
                Htreasure Hinv) as H3.
  exists s1, s2, (say "Taken." (with_game (taken obj_id lying (game s2)) s2)).
  split; [exact H1|]. split; [reflexivity|]. split; [exact H2|].
  split; [reflexivity|]. split; [reflexivity|]. split; [exact Hlying|]. split.
  - apply H3; [|exact Hload].
    unfold out_of_reach. cbn. rewrite !get_set_ne by assumption. now rewrite Hfree.
  - cbn. lia.
Qed.

Lemma every_take_of_a_treasure_scores_witness :
  let command := _parse_command (game up_the_tree) "take egg" in
  exists s1 s2 s3 : Sys,
    _take command up_the_tree = Ok tt s1 /\
    _drop command s1 = Ok tt s2 /\
    _take command s2 = Ok tt s3 /\
    score (game up_the_tree) = 0 /\
    score (game s3) = 10.
Proof.
  intros command.
  pose (egg := default nothing (OrderedDict.get "jeweled_egg" (objects (game up_the_tree)))).
  destruct (every_take_of_a_treasure_scores up_the_tree command "jeweled_egg" egg)
    as (s1 & s2 & s3 & H1 & _ & H2 & _ & _ & _ & H3 & Hscore).
  - vm_compute. reflexivity.
  - reflexivity.
  - vm_compute. reflexivity.
  - vm_compute. reflexivity.
  - vm_compute. reflexivity.
  - vm_compute. reflexivity.
  - apply mem_false. vm_compute. reflexivity.
  - vm_compute. reflexivity.
  - vm_compute. lia.
  - vm_compute. discriminate.
  - vm_compute. reflexivity.
  - exists s1, s2, s3. repeat (split; [assumption|]).
    split; [vm_compute; reflexivity|]. rewrite Hscore. vm_compute. reflexivity.
Defined.

(** C1 fails as stated: the egg is worth 5 points; the first take brings the
    score from 0 to 5, and after dropping it and taking it again the score
    is 10, not 5. *)
Lemma second_take_scores_again :
  let first_take := final (play ["take egg"] up_the_tree) in
  let second_take := final (play ["take egg"; "drop egg"; "take egg"] up_the_tree) in
  (GameObject.value <$> OrderedDict.get "jeweled_egg" (objects (game up_the_tree))) = Some 5 /\
  (GameObject.has_flag
     (default nothing (OrderedDict.get "jeweled_egg" (objects (game up_the_tree))))
     ObjectFlag.TREASURE) = true /\
  score (game up_the_tree) = 0 /\
  score (game first_take) = 5 /\
  score (game second_take) = 10 /\
  score (game second_take) <> score (game up_the_tree) + 5.
Proof.
  vm_compute. repeat split; discriminate.
Qed.

(** ** The trophy case *)

(** C2, as the code has it: every drop of a treasure in the living room
    while the trophy case is open puts it in the case, adds its value to
    the score and adds one to the deposit counter; taking it back out of the
    case and dropping it again does so again. *)
Theorem every_deposit_counts (s : Sys) (command : ParsedCommand.t)
    (obj_id : string) (obj trophy_case : GameObject.t) :
  ParsedCommand.direct_object command = Some obj_id ->
  Py.truthy obj_id = true ->
  OrderedDict.contains obj_id (actors (game s)) = false ->
  OrderedDict.get obj_id (objects (game s)) = Some obj ->
  GameObject.has_flag obj ObjectFlag.TAKEABLE = true ->
  GameObject.has_flag obj ObjectFlag.TREASURE = true ->
  obj_id ∈ player_inventory (game s) ->
  NoDup (player_inventory (game s)) ->
  (length (player_inventory (game s)) <= 7)%nat ->
  current_room (game s) = "living_room" ->
  obj_id <> "case" ->
  OrderedDict.get "case" (objects (game s)) = Some trophy_case ->
  GameObject.has_flag trophy_case ObjectFlag.OPEN = true ->
  exists s1 s2 s3 : Sys,
    _drop command s = Ok tt s1 /\
    score (game s1) = score (game s) + GameObject.value obj /\
    treasures_deposited (game s1) = treasures_deposited (game s) + 1 /\
    (GameObject.location <$> OrderedDict.get obj_id (objects (game s1)))
      = Some (Some "case") /\
    _take command s1 = Ok tt s2 /\
    obj_id ∈ player_inventory (game s2) /\
    treasures_deposited (game s2) = treasures_deposited (game s1) /\
    _drop command s2 = Ok tt s3 /\
    score (game s3) = score (game s2) + GameObject.value obj /\
    treasures_deposited (game s3) = treasures_deposited (game s) + 2.
Proof.
  intros Hdo Htruthy Hactor Hobj Htake Htreasure Hin Hnodup Hload Hroom Hne Hcase Hopen.
  destruct (remove_In obj_id _ Hin) as (rest & Hrem & Hlen).
  destruct (remove_NoDup _ _ _ Hnodup Hrem) as [Hout Hnodup'].
  pose proof (drop_into_case s command obj_id obj trophy_case rest Hdo Htruthy Hrem
                Hobj Hroom Hne Hcase Hopen Htreasure) as H1.
  match type of H1 with _ = Ok tt ?x => set (s1 := x) in * end.
  set (cased := GameObject.with_location (Some "case") obj).
  assert (OrderedDict.get obj_id (objects (game s1)) = Some cased) as Hcased
    by (cbn; apply get_set_eq).
  assert (OrderedDict.get "case" (objects (game s1)) = Some trophy_case) as Hcase1
    by (cbn; now rewrite get_set_ne).
  assert (_take command s1 =
          Ok tt (say "Taken." (with_game (taken obj_id cased (game s1)) s1))) as H2.
  { apply take_treasure; try assumption.
    - unfold out_of_reach. change (GameObject.location cased) with (Some "case").
      cbv beta iota. rewrite Hcase1, Hopen. cbn. apply andb_false_r.
    - cbn. lia. }
  match type of H2 with _ = Ok tt ?x => set (s2 := x) in * end.
  set (carried := GameObject.with_location (Some "player") cased).
  assert (_drop command s2 =
          Ok tt (say ("The " +:+ GameObject.name carried +:+ " is now in the trophy case.")
                   (say "Dropped." (with_game (deposited obj_id carried rest (game s2)) s2))))
    as H3.
  { apply (drop_into_case s2 command obj_id carried trophy_case rest); try assumption.
    - cbn. now apply remove_last.
    - cbn. apply get_set_eq.
    - cbn. now rewrite !get_set_ne. }
  eexists s1, s2, _.
  split; [exact H1|]. split; [reflexivity|]. split; [reflexivity|].
  split; [now rewrite Hcased|]. split; [exact H2|]. split.
  { cbn. apply elem_of_app. right. apply elem_of_cons. now left. }
  split; [reflexivity|]. split; [exact H3|]. split; [reflexivity|].
  cbn. lia.
Qed.

Lemma every_deposit_counts_witness :
  let command := _parse_command (game at_the_case) "drop egg" in
  exists s1 s2 s3 : Sys,
    _drop command at_the_case = Ok tt s1 /\
    _take command s1 = Ok tt s2 /\
    _drop command s2 = Ok tt s3 /\
    treasures_deposited (game at_the_case) = 0 /\
    treasures_deposited (game s3) = 2.
Proof.
  intros command.
  pose (egg := default nothing (OrderedDict.get "jeweled_egg" (objects (game at_the_case)))).
  pose (trophy_case := default nothing (OrderedDict.get "case" (objects (game at_the_case)))).
  destruct (every_deposit_counts at_the_case command "jeweled_egg" egg trophy_case)
    as (s1 & s2 & s3 & H1 & _ & _ & _ & H2 & _ & _ & H3 & _ & Hcount).
  - vm_compute. reflexivity.
  - reflexivity.
  - vm_compute. reflexivity.
  - vm_compute. reflexivity.
  - vm_compute. reflexivity.
  - vm_compute. reflexivity.
  - apply mem_In. vm_compute. reflexivity.
  - assert (player_inventory (game at_the_case) = ["jeweled_egg"]) as ->
      by (vm_compute; reflexivity).
    apply NoDup_singleton.
  - vm_compute. lia.
  - vm_compute. reflexivity.
  - discriminate.
  - vm_compute. reflexivity.
  - vm_compute. reflexivity.
  - exists s1, s2, s3. repeat (split; [assumption|]).
    split; [vm_compute; reflexivity|]. rewrite Hcount. vm_compute. reflexivity.
Defined.

(** C2 fails as stated: with the egg (5 points) carried into the living
    room, the first drop puts it in the open case, the score goes from 5 to
    10 and the counter to 1; after taking it out and dropping it again the
    counter is 2 and the deposits alone have added 10 points. *)
Lemma second_deposit_counts_again :
  let first_deposit := final (play ["drop egg"] at_the_case) in
  let second_deposit := final (play ["drop egg"; "take egg"; "drop egg"] at_the_case) in
  current_room (game at_the_case) = "living_room" /\
  score (game at_the_case) = 5 /\
  treasures_deposited (game at_the_case) = 0 /\
  score (game first_deposit) = 10 /\
  treasures_deposited (game first_deposit) = 1 /\
  (GameObject.location <$> OrderedDict.get "jeweled_egg" (objects (game first_deposit)))
    = Some (Some "case") /\
  score (game second_deposit) = 20 /\
  treasures_deposited (game second_deposit) = 2 /\
  treasures_deposited (game second_deposit) <> treasures_deposited (game at_the_case) + 1.
Proof.
  vm_compute. repeat split; discriminate.
Qed.

(** ** Words the parser does not know *)

Lemma parse_unknown_word (g : ZorkGame) (user_input word : string) (rest : list string) :
  Py.split user_input = word :: rest ->
  direction_map !! word = None ->
  verb_map !! word = None ->
  _parse_command g user_input = ParsedCommand.mk None None None None user_input.
Proof.
  intros Hsplit Hdir Hverb. unfold _parse_command. now rewrite Hsplit, Hdir, Hverb.
Qed.




(** ** Save and restore *)

Lemma In_get {V} (d : list (string * V)) (k : string) (v : V) :
  NoDup (OrderedDict.keys d) -> (k, v) ∈ d -> OrderedDict.get k d = Some v.
Proof.
  unfold OrderedDict.keys.
  induction d as [|[k0 v0] d IH]; simpl; intros Hnd Hin.
  - now apply elem_of_nil in Hin.
  - apply NoDup_cons in Hnd as [Hk0 Hd].
    apply elem_of_cons in Hin as [[= -> ->]|Hin].
    + now rewrite String.eqb_refl.
    + destruct (String.eqb_spec k k0) as [->|Hk]; [|auto].
      exfalso. apply Hk0. apply list_elem_of_fmap. now exists (k0, v).
Qed.

Lemma with_game_same (s : Sys) : with_game (game s) s = s.
Proof. now destruct s. Qed.

Lemma set_objects_same (g : ZorkGame) : set_objects (objects g) g = g.
Proof. now destruct g. Qed.

Lemma set_actors_same (g : ZorkGame) : set_actors (actors g) g = g.
Proof. now destruct g. Qed.

Lemma restore_object_same (s : Sys) (k : string) (o : GameObject.t) :
  OrderedDict.get k (objects (game s)) = Some o ->
  restore_object (saved_object (k, o)) s = Ok tt s.
Proof.
  intros Hget. unfold restore_object, saved_object. cbn [fst snd].
  erewrite bind_ok by reflexivity.
  unfold OrderedDict.contains. rewrite Hget. cbn [when SaveData.o_location
    SaveData.o_flags SaveData.o_value field default].
  erewrite bind_ok by reflexivity.
  assert (forall f, f o = o -> update_object k f s = Ok tt s) as Hsame.
  { intros f Hf. rewrite (update_object_ok k f o s Hget), Hf.
    rewrite (set_same _ _ _ Hget), set_objects_same. now rewrite with_game_same. }
  erewrite bind_ok by (apply Hsame; now destruct o).
  erewrite bind_ok by reflexivity.
  erewrite bind_ok by (apply Hsame; now destruct o).
  apply Hsame. now destruct o.
Qed.

Lemma restore_objects_same (s : Sys) (l : list (string * GameObject.t)) :
  (forall k o, (k, o) ∈ l -> OrderedDict.get k (objects (game s)) = Some o) ->
  for_each (map saved_object l) restore_object s = Ok tt s.
Proof.
  induction l as [|[k o] l IH]; intros Hl; [reflexivity|].
  cbn [map for_each].
  erewrite bind_ok by (apply restore_object_same, Hl, elem_of_cons; now left).
  apply IH. intros k' o' Hin. apply Hl, elem_of_cons. now right.
Qed.

Lemma update_actor_ok (k : string) (f : Actor.t -> Actor.t) (a : Actor.t) (s : Sys) :
  OrderedDict.get k (actors (game s)) = Some a ->
  update_actor k f s =
  Ok tt (with_game (set_actors (OrderedDict.set k (f a) (actors (game s))) (game s)) s).
Proof.
  intros H. unfold update_actor, actor_at.
  erewrite bind_ok; [reflexivity|].
  erewrite bind_ok by reflexivity. now rewrite H.
Qed.

Lemma restore_actor_same (s : Sys) (k : string) (a : Actor.t) :
  OrderedDict.get k (actors (game s)) = Some a ->
  restore_actor (saved_actor (k, a)) s = Ok tt s.
Proof.
  intros Hget. unfold restore_actor, saved_actor. cbn [fst snd].
  erewrite bind_ok by reflexivity.
  unfold OrderedDict.contains. rewrite Hget. cbn [when SaveData.a_location
    SaveData.a_health SaveData.a_active field].
  assert (forall f, f a = a -> update_actor k f s = Ok tt s) as Hsame.
  { intros f Hf. rewrite (update_actor_ok k f a s Hget), Hf.
    rewrite (set_same _ _ _ Hget), set_actors_same. now rewrite with_game_same. }
  erewrite bind_ok by reflexivity.
  erewrite bind_ok by (apply Hsame; now destruct a).
  erewrite bind_ok by reflexivity.
  erewrite bind_ok by (apply Hsame; now destruct a).
  erewrite bind_ok by reflexivity.
  apply Hsame. now destruct a.
Qed.

Lemma restore_actors_same (s : Sys) (l : list (string * Actor.t)) :
  (forall k a, (k, a) ∈ l -> OrderedDict.get k (actors (game s)) = Some a) ->
  for_each (map saved_actor l) restore_actor s = Ok tt s.
Proof.
  induction l as [|[k a] l IH]; intros Hl; [reflexivity|].
  cbn [map for_each].
  erewrite bind_ok by (apply restore_actor_same, Hl, elem_of_cons; now left).
  apply IH. intros k' a' Hin. apply Hl, elem_of_cons. now right.
Qed.

Lemma restore_unfold (command : ParsedCommand.t) :
  _restore command =
  (filename <- input "Restore filename: " ;;
   try_except (load_then filename (print "Game restored." ;; _look None))
              restore_failed).
Proof. reflexivity. Qed.

Lemma input_ok (prompt line : string) (rest : list string) (s : Sys) :
  stdin s = line :: rest ->
  input prompt s =
  Ok line (mkSys (game s) (stdout s ++ [prompt]) rest (files s) (draws s)).
Proof. unfold input. now intros ->. Qed.

Lemma read_json_ok (filename : string) (d : SaveData.t) (s : Sys) :
  files s !! filename = Some (Json d) -> read_json filename s = Ok d s.
Proof. unfold read_json. now intros ->. Qed.

(** Loading the file that [_save] has just written changes nothing. *)
Lemma load_saved (s : Sys) (filename : string) (next : M unit) :
  files s !! filename = Some (Json (save_data_of (game s))) ->
  NoDup (OrderedDict.keys (objects (game s))) ->
  NoDup (OrderedDict.keys (actors (game s))) ->
  load_then filename next s = next s.
Proof.
  intros Hfile Hobjs Hactors. unfold load_then.
  erewrite bind_ok by (apply read_json_ok; exact Hfile).
  cbn [bind assign field ret save_data_of default
       SaveData.player_name SaveData.current_room SaveData.inventory
       SaveData.score SaveData.moves SaveData.deaths SaveData.visited_rooms
       SaveData.lamp_on SaveData.lamp_life SaveData.grating_unlocked
       SaveData.trap_door_open SaveData.rainbow_solid SaveData.dam_open
       SaveData.loud_room_level SaveData.coffin_open SaveData.bell_rung
       SaveData.candles_lit SaveData.book_read SaveData.spirits_released
       SaveData.cyclops_fled SaveData.mirror_broken SaveData.troll_payment
       SaveData.thief_here SaveData.treasures_deposited SaveData.objects
       SaveData.actors game stdout stdin files draws id].
  match goal with
  | |- bind _ _ ?big = _ => assert (big = s) as ->
  end.
  { clear. destruct s as [g out inp fs dr]. destruct g. cbn.
    now rewrite list_to_set_elements_L. }
  change (map _ (objects (game s))) with (map saved_object (objects (game s))).
  change (map _ (actors (game s))) with (map saved_actor (actors (game s))).
  erewrite bind_ok by (apply restore_objects_same; intros; now apply In_get).
  erewrite bind_ok by (apply restore_actors_same; intros; now apply In_get).
  reflexivity.
Qed.



(** *** Restoring from a file that is missing, unreadable or old *)

Lemma restore_without_data (s : Sys) (command : ParsedCommand.t)
    (filename : string) (rest : list string) (e : PyExc) :
  stdin s = filename :: rest ->
  read_json filename (asked "Restore filename: " rest s)
    = Raise e (asked "Restore filename: " rest s) ->
  _restore command s = restore_failed e (asked "Restore filename: " rest s).
Proof.
  intros Hin Hread. rewrite restore_unfold.
  erewrite bind_ok by (apply input_ok; exact Hin).
  unfold try_except, load_then. fold (asked "Restore filename: " rest s).
  erewrite bind_raise by exact Hread. reflexivity.
Qed.

Lemma restore_objects_complete (l : list (string * SaveData.obj_entry)) (s : Sys) :
  Forall object_entry_complete l ->
  exists objs, for_each l restore_object s
               = Ok tt (with_game (set_objects objs (game s)) s).
Proof.
  intros Hl. revert s. induction Hl as [|[k e] l [[loc Hloc] [fl Hfl]] _ IH]; intros s.
  - exists (objects (game s)). cbn. now rewrite set_objects_same, with_game_same.
  - cbn [for_each]. cbn [snd] in Hloc, Hfl.
    assert (exists objs, restore_object (k, e) s
                         = Ok tt (with_game (set_objects objs (game s)) s))
      as [objs1 H1].
    { unfold restore_object. cbn [fst snd]. erewrite bind_ok by reflexivity.
      unfold OrderedDict.contains.
      destruct (OrderedDict.get k (objects (game s))) as [o|] eqn:Ho.
      - cbn [when]. rewrite Hloc, Hfl. cbn [field].
        erewrite bind_ok by reflexivity.
        erewrite bind_ok by (apply update_object_ok; exact Ho).
        erewrite bind_ok by reflexivity.
        erewrite bind_ok by (apply update_object_ok; cbn; apply get_set_eq).
        erewrite update_object_ok by (cbn; apply get_set_eq).
        eexists. reflexivity.
      - exists (objects (game s)). cbn. now rewrite set_objects_same, with_game_same. }
    erewrite bind_ok by exact H1.
    destruct (IH (with_game (set_objects objs1 (game s)) s)) as [objs2 H2].
    exists objs2. rewrite H2. reflexivity.
Qed.

Lemma restore_actors_complete (l : list (string * SaveData.actor_entry)) (s : Sys) :
  Forall actor_entry_complete l ->
  exists acts, for_each l restore_actor s
               = Ok tt (with_game (set_actors acts (game s)) s).
Proof.
  intros Hl. revert s.
  induction Hl as [|[k e] l ([loc Hloc] & [h Hh] & [a Ha]) _ IH]; intros s.
  - exists (actors (game s)). cbn. now rewrite set_actors_same, with_game_same.
  - cbn [for_each]. cbn [snd] in Hloc, Hh, Ha.
    assert (exists acts, restore_actor (k, e) s
                         = Ok tt (with_game (set_actors acts (game s)) s))
      as [acts1 H1].
    { unfold restore_actor. cbn [fst snd]. erewrite bind_ok by reflexivity.
      unfold OrderedDict.contains.
      destruct (OrderedDict.get k (actors (game s))) as [o|] eqn:Ho.
      - cbn [when]. rewrite Hloc, Hh, Ha. cbn [field].
        erewrite bind_ok by reflexivity.
        erewrite bind_ok by (apply update_actor_ok; exact Ho).
        erewrite bind_ok by reflexivity.
        erewrite bind_ok by (apply update_actor_ok; cbn; apply get_set_eq).
        erewrite bind_ok by reflexivity.
        erewrite update_actor_ok by (cbn; apply get_set_eq).
        eexists. reflexivity.
      - exists (actors (game s)). cbn. now rewrite set_actors_same, with_game_same. }
    erewrite bind_ok by exact H1.
    destruct (IH (with_game (set_actors acts1 (game s)) s)) as [acts2 H2].
    exists acts2. rewrite H2. reflexivity.
Qed.

Lemma load_old_file (s : Sys) (filename : string) (next : M unit) (d : SaveData.t)
    (room : string) (inv : list string) (sc mv : Z) (vr : list string) (lo : bool)
    (objs : list (string * SaveData.obj_entry)) :
  files s !! filename = Some (Json d) ->
  SaveData.current_room d = Some room ->
  SaveData.inventory d = Some inv ->
  SaveData.score d = Some sc ->
  SaveData.moves d = Some mv ->
  SaveData.visited_rooms d = Some vr ->
  SaveData.lamp_on d = Some lo ->
  SaveData.objects d = Some objs ->
  Forall object_entry_complete objs ->
  Forall actor_entry_complete (default [] (SaveData.actors d)) ->
  exists objs' acts',
    load_then filename next s =
    next (with_game
            (set_actors acts' (set_objects objs' (loaded d room inv sc mv vr lo (game s))))
            s).
Proof.
  intros Hfile Hroom Hinv Hsc Hmv Hvr Hlo Hobjs Hcomplete Hcomplete'.
  unfold load_then.
  erewrite bind_ok by (apply read_json_ok; exact Hfile).
  rewrite Hroom, Hinv, Hsc, Hmv, Hvr, Hlo, Hobjs.
  cbn [bind assign field ret game stdout stdin files draws].
  match goal with
  | |- exists objs' acts', bind _ _ ?big = _ =>
      change big with (with_game (loaded d room inv sc mv vr lo (game s)) s)
  end.
  set (s0 := with_game (loaded d room inv sc mv vr lo (game s)) s).
  destruct (restore_objects_complete objs s0 Hcomplete) as [objs' H1].
  set (s1 := with_game (set_objects objs' (game s0)) s0) in *.
  destruct (restore_actors_complete (default [] (SaveData.actors d)) s1 Hcomplete')
    as [acts' H2].
  exists objs', acts'.
  rewrite (bind_ok _ _ _ _ _ H1), (bind_ok _ _ _ _ _ H2). reflexivity.
Qed.

Lemma restore_failed_output (e : PyExc) : frames output_grows (restore_failed e).
Proof. unfold restore_failed. destruct e; repeat frame_step fail. Qed.

Lemma restore_failed_game (e : PyExc) (s : Sys) :
  exists s', restore_failed e s = Ok tt s' /\ game s' = game s.
Proof. unfold restore_failed. destruct e; eexists; split; reflexivity. Qed.

(** C4, as the code has it: a restore that fails before anything is loaded,
    because the file is missing, cannot be opened or is not JSON, leaves the
    game exactly as it was, and a missing file is reported with its own
    message; a save file that has the required fields is loaded, every
    absent optional field taking its default. *)
Theorem restore_fails_cleanly_before_loading (s : Sys) (command : ParsedCommand.t)
    (filename : string) (rest : list string) :
  stdin s = filename :: rest ->
  (files s !! filename = None ->
   exists s', _restore command s = Ok tt s' /\
     game s' = game s /\
     stdout s' = (stdout s ++ ["Restore filename: "; "Restore failed. File not found."])%list) /\
  (forall err,
     files s !! filename = Some (Denied err) \/ files s !! filename = Some (NotJson err) ->
     exists s', _restore command s = Ok tt s' /\
       game s' = game s /\
       stdout s' = (stdout s ++ ["Restore filename: "; "Restore failed: " +:+ err])%list /\
       "Restore failed: " +:+ err <> "Restore failed. File not found.") /\
  (forall d room inv sc mv vr lo objs,
     files s !! filename = Some (Json d) ->
     SaveData.current_room d = Some room ->
     SaveData.inventory d = Some inv ->
     SaveData.score d = Some sc ->
     SaveData.moves d = Some mv ->
     SaveData.visited_rooms d = Some vr ->
     SaveData.lamp_on d = Some lo ->
     SaveData.objects d = Some objs ->
     Forall object_entry_complete objs ->
     Forall actor_entry_complete (default [] (SaveData.actors d)) ->
     exists s' objs' acts' V more,
       _restore command s = Ok tt s' /\
       game s' = set_visited_rooms V
                   (set_actors acts'
                      (set_objects objs' (loaded d room inv sc mv vr lo (game s)))) /\
       stdout s' = (stdout s ++ ["Restore filename: "; "Game restored."] ++ more)%list).
Proof.
  intros Hin. split; [|split].
  - intros Hfile.
    rewrite (restore_without_data s command filename rest (FileNotFoundError filename) Hin).
    + eexists. split; [reflexivity|]. split; [reflexivity|]. cbn.
      now rewrite <- app_assoc.
    + unfold read_json. cbn [files asked]. now rewrite Hfile.
  - intros err Hfile. split with
      (say ("Restore failed: " +:+ err) (asked "Restore filename: " rest s)).
    assert ("Restore failed: " +:+ err <> "Restore failed. File not found.") as Hne
      by (cbn; discriminate).
    destruct Hfile as [Hfile|Hfile].
    + rewrite (restore_without_data s command filename rest (OSError err) Hin).
      * repeat split; [cbn; now rewrite <- app_assoc | exact Hne].
      * unfold read_json. cbn [files asked]. now rewrite Hfile.
    + rewrite (restore_without_data s command filename rest (JSONDecodeError err) Hin).
      * repeat split; [cbn; now rewrite <- app_assoc | exact Hne].
      * unfold read_json. cbn [files asked]. now rewrite Hfile.
  - intros d room inv sc mv vr lo objs Hfile Hroom Hinv Hsc Hmv Hvr Hlo Hobjs Hc Hc'.
    rewrite restore_unfold.
    erewrite bind_ok by (apply input_ok; exact Hin).
    fold (asked "Restore filename: " rest s). set (s0 := asked "Restore filename: " rest s).
    destruct (load_old_file s0 filename (print "Game restored." ;; _look None)
                d room inv sc mv vr lo objs Hfile Hroom Hinv Hsc Hmv Hvr Hlo Hobjs Hc Hc')
      as (objs' & acts' & Hload).
    unfold try_except. rewrite Hload. clear Hload.
    erewrite bind_ok by reflexivity.
    match goal with |- context [_look None ?st] => set (s1 := st) end.
    pose proof (look_up_to_visited None s1) as Hgame.
    pose proof (look_output_grows None s1) as Hout.
    unfold on_game in Hgame.
    destruct (_look None s1) as [[] s2|e s2]; cbn [final] in Hgame, Hout.
    + destruct Hgame as (V & Hg & _). destruct Hout as [more Hmore].
      exists s2, objs', acts', V, more. split; [reflexivity|]. split; [exact Hg|].
      rewrite Hmore. cbn. now rewrite <- !app_assoc.
    + destruct (restore_failed_game e s2) as (s3 & Hfail & Hsame).
      pose proof (restore_failed_output e s2) as Hout'. rewrite Hfail in Hout'.
      cbn [final] in Hout'.
      destruct Hgame as (V & Hg & _). destruct Hout as [more Hmore].
      destruct Hout' as [more' Hmore'].
      exists s3, objs', acts', V, (more ++ more')%list.
      split; [exact Hfail|]. split; [now rewrite Hsame|].
      rewrite Hmore', Hmore. cbn. now rewrite <- !app_assoc.
Qed.

Lemma restore_fails_cleanly_before_loading_witness :
  let s := new_game ["zork.sav"] ∅ [] in
  let t := new_game ["zork.sav"] {["zork.sav" := Json old_save]} [] in
  let command := _parse_command (game s) "restore" in
  (exists s', _restore command s = Ok tt s' /\ game s' = game s) /\
  (exists t', _restore command t = Ok tt t' /\
     current_room (game t') = "kitchen" /\
     score (game t') = 7 /\
     deaths (game t') = 0 /\
     lamp_life (game t') = 330 /\
     loud_room_level (game t') = 4).
Proof.
  intros s t command. split.
  - destruct (restore_fails_cleanly_before_loading s command "zork.sav" [])
      as (Hmissing & _ & _); [reflexivity|].
    destruct Hmissing as (s' & Hrun & Hsame & _); [reflexivity|].
    exists s'. now split.
  - destruct (restore_fails_cleanly_before_loading t command "zork.sav" [])
      as (_ & _ & Hload); [reflexivity|].
    destruct (Hload old_save "kitchen" [] 7 12 ["kitchen"] false [])
      as (t' & objs' & acts' & V & more & Hrun & Hgame & _);
      try reflexivity; try constructor.
    exists t'. split; [exact Hrun|]. rewrite Hgame. repeat split.
Defined.

Lemma failed_restore_moves_the_player :
  let s := new_game ["torn.sav"] {["torn.sav" := Json torn_save]} [] in
  let s' := final (_restore (_parse_command (game s) "restore") s) in
  current_room (game s) = "west_of_house" /\
  stdout s' = ["Restore filename: "; "Restore failed: 'inventory'"] /\
  current_room (game s') = "kitchen" /\
  game s' <> game s.
Proof.
  intros s s'.
  assert (current_room (game s') = "kitchen") as Hroom by (vm_compute; reflexivity).
  split; [vm_compute; reflexivity|]. split; [vm_compute; reflexivity|].
  split; [exact Hroom|]. intros H. rewrite H in Hroom. vm_compute in Hroom.
  discriminate.
Qed.

(** ** The room graph *)

Lemma locked_door_opens_only_after_unlock_witness :
  let command := _parse_command (game at_the_grating) "open grating" in
  _open command at_the_grating = Ok tt (say "It's locked." at_the_grating) /\
  exists s1 s2 : Sys,
    _unlock command at_the_grating = Ok tt s1 /\
    has_exit (game s1) "grating_room" Direction.UP "clearing" /\
    _open command s1 = Ok tt s2 /\
    List.last (stdout s1) "" = "The grating is unlocked." /\
    List.nth (length (stdout s1)) (stdout s2) "" = "Opened.".
Proof.
  intros command.
  pose (grating := default nothing (OrderedDict.get "grating" (objects (game at_the_grating)))).
  pose (room := default (Room.mk "" "" "" 0 ∅) (rooms (game at_the_grating) !! "grating_room")).
  destruct (locked_door_opens_only_after_unlock at_the_grating command grating
              "clearing" room)
    as (_ & Hlocked & s1 & s2 & revealed & opened & Hunlock & Hout1 & _ & _ & Hexit &
        Hopen & Hout2 & _).
  - vm_compute. reflexivity.
  - vm_compute. reflexivity.
  - vm_compute. reflexivity.
  - vm_compute. reflexivity.
  - vm_compute. reflexivity.
  - vm_compute. reflexivity.
  - apply mem_In. vm_compute. reflexivity.
  - vm_compute. reflexivity.
  - split; [exact Hlocked|]. exists s1, s2.
    repeat (split; [assumption|]). split.
    + rewrite Hout1. apply last_last.
    + rewrite Hout2. rewrite nth_middle. reflexivity.
Defined.

Lemma go_to_missing_room (s : Sys) (room : Room.t) :
  current_room (game s) = "stream" ->
  rooms (game s) !! "stream" = Some room ->
  Room.exits room !! Direction.WEST = Some "sluice_gate" ->
  rooms (game s) !! "sluice_gate" = None ->
  _go Direction.WEST s =
  Raise (KeyError "sluice_gate") (with_game (set_current_room "sluice_gate" (game s)) s).
Proof.
  intros Hhere Hroom Hexit Hnone. unfold _go.
  erewrite bind_ok by reflexivity.
  cbv beta zeta. rewrite Hhere.
  erewrite bind_ok by (apply room_at_ok; exact Hroom).
  cbn [String.eqb Ascii.eqb Bool.eqb andb].
  do 3 (erewrite bind_ok by reflexivity; cbv beta iota).
  rewrite Hexit. cbn [String.eqb Ascii.eqb Bool.eqb].
  unfold move_to. erewrite bind_ok by reflexivity.
  apply bind_raise. unfold _check_light.
  erewrite bind_ok by reflexivity. apply bind_raise.
  unfold room_at. erewrite bind_ok by reflexivity.
  cbn [game current_room set_current_room rooms]. rewrite Hnone. reflexivity.
Qed.

(** C5 does not hold of the code: the world is built with an exit from the
    stream west to "sluice_gate", which is no room and no self-loop, and it
    is the only such exit; going through it moves the player to the missing
    room and the lookup of that room raises KeyError, which nothing
    catches. *)
Theorem stream_exit_leads_to_no_room :
  let world := game (new_game [] ∅ []) in
  has_exit world "stream" Direction.WEST "sluice_gate" /\
  rooms world !! "sluice_gate" = None /\
  dangling_exits world = [("stream", Direction.WEST, "sluice_gate")] /\
  forall (s : Sys) (room : Room.t),
    current_room (game s) = "stream" ->
    rooms (game s) !! "stream" = Some room ->
    Room.exits room !! Direction.WEST = Some "sluice_gate" ->
    rooms (game s) !! "sluice_gate" = None ->
    exists s' : Sys,
      _go Direction.WEST s = Raise (KeyError "sluice_gate") s' /\
      current_room (game s') = "sluice_gate" /\
      rooms (game s') !! current_room (game s') = None /\
      stdout s' = stdout s.
Proof.
  intros world. split.
  { eexists. split; vm_compute; reflexivity. }
  split; [vm_compute; reflexivity|].
  split; [vm_compute; reflexivity|].
  intros s room Hhere Hroom Hexit Hnone.
  eexists. split; [now apply (go_to_missing_room s room)|].
  repeat split. exact Hnone.
Qed.

Lemma stream_exit_leads_to_no_room_witness :
  current_room (game on_the_stream) = "stream" /\
  exists s' : Sys,
    turn "w" on_the_stream = Raise (KeyError "sluice_gate") s' /\
    rooms (game s') !! current_room (game s') = None.
Proof.
  split; [vm_compute; reflexivity|].
  pose (room := default (Room.mk "" "" "" 0 ∅) (rooms (game on_the_stream) !! "stream")).
  destruct stream_exit_leads_to_no_room as (_ & _ & _ & Hgo).
  destruct (Hgo on_the_stream room) as (s' & Hrun & Hhere & Hnone & _).
  - vm_compute. reflexivity.
  - vm_compute. reflexivity.
  - vm_compute. reflexivity.
  - vm_compute. reflexivity.
  - exists s'. split; [|exact Hnone].
    assert (turn "w" on_the_stream = _go Direction.WEST on_the_stream) as ->
      by (vm_compute; reflexivity).
    exact Hrun.
Defined.

Lemma init_gives_the_world (s : Sys) : __init__ s = Ok tt (with_game world s).
Proof. vm_compute. reflexivity. Qed.

Lemma new_game_is_the_world (stdin : list string) (files : gmap string File)
    (draws : list Z) :
  game (new_game stdin files draws) = world.
Proof. unfold new_game. now rewrite init_gives_the_world. Qed.

(** The side condition of a mutating primitive, by the kind of change. *)
Ltac change_side :=
  first
    [ apply changes_scalar; reflexivity
    | eapply changes_object; [eassumption | reflexivity]
    | apply changes_new_object; [reflexivity | auto]
    | apply changes_del_object
    | eapply changes_actor; eassumption
    | eapply changes_room; [eassumption | reflexivity]
    | eapply changes_exit_set;
      [eassumption | apply (bool_decide_unpack _); vm_compute; reflexivity]
    | eapply changes_exit_del; eassumption
    | apply changes_files ].

Create HintDb changes discriminated.

Ltac change_step :=
  cbv beta zeta;
  first [ frame_step change_side | solve [auto 1 with changes nocore] ].

Section Changes.
Context (R : Sys -> Sys -> Prop) `{!Changes R}.

Lemma changes_init_ : frames R __init__.
Proof. intros s. rewrite init_gives_the_world. apply changes_init. Qed.
#[local] Hint Resolve changes_init_ : changes.

Lemma changes_look_objects (room : Room.t) (items : list (string * GameObject.t)) :
  frames R (look_objects room items).
Proof. apply frames_look_objects; exact _. Qed.
#[local] Hint Resolve changes_look_objects : changes.

Lemma changes_look_containers (g : ZorkGame) : frames R (look_containers g).
Proof. apply frames_look_containers; exact _. Qed.
#[local] Hint Resolve changes_look_containers : changes.

Lemma changes_look (command : option ParsedCommand.t) : frames R (_look command).
Proof.
  apply frames_look; [exact _|]. intros s room_id. apply changes_scalar; reflexivity.
Qed.
#[local] Hint Resolve changes_look : changes.

Lemma changes_examine (command : ParsedCommand.t) : frames R (_examine command).
Proof. unfold _examine, with_direct_object. repeat change_step. Qed.
#[local] Hint Resolve changes_examine : changes.

Lemma changes_death (message : string) : frames R (_death message).
Proof. unfold _death, with_direct_object. repeat change_step. Qed.
#[local] Hint Resolve changes_death : changes.

Lemma changes_check_light : frames R _check_light.
Proof. unfold _check_light, with_direct_object. repeat change_step. Qed.
#[local] Hint Resolve changes_check_light : changes.

Lemma changes_go (direction : Direction.t) : frames R (_go direction).
Proof. unfold _go, with_direct_object. repeat change_step. Qed.
#[local] Hint Resolve changes_go : changes.

Lemma changes_take (command : ParsedCommand.t) : frames R (_take command).
Proof. unfold _take, with_direct_object. repeat change_step. Qed.
#[local] Hint Resolve changes_take : changes.

Lemma changes_drop (command : ParsedCommand.t) : frames R (_drop command).
Proof. unfold _drop, with_direct_object. repeat change_step. Qed.
#[local] Hint Resolve changes_drop : changes.

Lemma changes_inventory (command : ParsedCommand.t) : frames R (_inventory command).
Proof. unfold _inventory, with_direct_object. repeat change_step. Qed.
#[local] Hint Resolve changes_inventory : changes.

Lemma changes_open (command : ParsedCommand.t) : frames R (_open command).
Proof. unfold _open, with_direct_object. repeat change_step. Qed.
#[local] Hint Resolve changes_open : changes.

Lemma changes_close (command : ParsedCommand.t) : frames R (_close command).
Proof. unfold _close, with_direct_object. repeat change_step. Qed.
#[local] Hint Resolve changes_close : changes.

Lemma changes_read (command : ParsedCommand.t) : frames R (_read command).
Proof. unfold _read, with_direct_object. repeat change_step. Qed.
#[local] Hint Resolve changes_read : changes.

Lemma changes_turn_on (command : ParsedCommand.t) : frames R (_turn_on command).
Proof. unfold _turn_on, with_direct_object. repeat change_step. Qed.
#[local] Hint Resolve changes_turn_on : changes.

Lemma changes_turn_off (command : ParsedCommand.t) : frames R (_turn_off command).
Proof. unfold _turn_off, with_direct_object. repeat change_step. Qed.
#[local] Hint Resolve changes_turn_off : changes.

Lemma changes_move (command : ParsedCommand.t) : frames R (_move command).
Proof. unfold _move, with_direct_object. repeat change_step. Qed.
#[local] Hint Resolve changes_move : changes.

Lemma changes_drain_reservoir : frames R _drain_reservoir.
Proof. unfold _drain_reservoir, with_direct_object. repeat change_step. Qed.
#[local] Hint Resolve changes_drain_reservoir : changes.

Lemma changes_fill_reservoir : frames R _fill_reservoir.
Proof. unfold _fill_reservoir, with_direct_object. repeat change_step. Qed.
#[local] Hint Resolve changes_fill_reservoir : changes.

Lemma changes_push (command : ParsedCommand.t) : frames R (_push command).
Proof. unfold _push, with_direct_object. repeat change_step. Qed.
#[local] Hint Resolve changes_push : changes.

Lemma changes_attack (command : ParsedCommand.t) : frames R (_attack command).
Proof. unfold _attack, with_direct_object. repeat change_step. Qed.
#[local] Hint Resolve changes_attack : changes.

Lemma changes_eat (command : ParsedCommand.t) : frames R (_eat command).
Proof. unfold _eat, with_direct_object. repeat change_step. Qed.
#[local] Hint Resolve changes_eat : changes.

Lemma changes_drink (command : ParsedCommand.t) : frames R (_drink command).
Proof. unfold _drink, with_direct_object. repeat change_step. Qed.
#[local] Hint Resolve changes_drink : changes.

Lemma changes_give (command : ParsedCommand.t) : frames R (_give command).
Proof. unfold _give, with_direct_object. repeat change_step. Qed.
#[local] Hint Resolve changes_give : changes.

Lemma changes_unlock (command : ParsedCommand.t) : frames R (_unlock command).
Proof. unfold _unlock, with_direct_object. repeat change_step. Qed.
#[local] Hint Resolve changes_unlock : changes.

Lemma changes_lock (command : ParsedCommand.t) : frames R (_lock command).
Proof. unfold _lock, with_direct_object. repeat change_step. Qed.
#[local] Hint Resolve changes_lock : changes.

Lemma changes_tie (command : ParsedCommand.t) : frames R (_tie command).
Proof. unfold _tie, with_direct_object. repeat change_step. Qed.
#[local] Hint Resolve changes_tie : changes.

Lemma changes_untie (command : ParsedCommand.t) : frames R (_untie command).
Proof. unfold _untie, with_direct_object. repeat change_step. Qed.
#[local] Hint Resolve changes_untie : changes.

Lemma changes_burn (command : ParsedCommand.t) : frames R (_burn command).
Proof. unfold _burn, with_direct_object. repeat change_step. Qed.
#[local] Hint Resolve changes_burn : changes.

Lemma changes_extinguish (command : ParsedCommand.t) : frames R (_extinguish command).
Proof. unfold _extinguish, with_direct_object. repeat change_step. Qed.
#[local] Hint Resolve changes_extinguish : changes.

Lemma changes_check_exorcism : frames R _check_exorcism.
Proof. unfold _check_exorcism, with_direct_object. repeat change_step. Qed.
#[local] Hint Resolve changes_check_exorcism : changes.

Lemma changes_ring (command : ParsedCommand.t) : frames R (_ring command).
Proof. unfold _ring, with_direct_object. repeat change_step. Qed.
#[local] Hint Resolve changes_ring : changes.

Lemma changes_wind (command : ParsedCommand.t) : frames R (_wind command).
Proof. unfold _wind, with_direct_object. repeat change_step. Qed.
#[local] Hint Resolve changes_wind : changes.

Lemma changes_dig (command : ParsedCommand.t) : frames R (_dig command).
Proof. unfold _dig, with_direct_object. repeat change_step. Qed.
#[local] Hint Resolve changes_dig : changes.

Lemma changes_fill (command : ParsedCommand.t) : frames R (_fill command).
Proof. unfold _fill, with_direct_object. repeat change_step. Qed.
#[local] Hint Resolve changes_fill : changes.

Lemma changes_pour (command : ParsedCommand.t) : frames R (_pour command).
Proof. unfold _pour, with_direct_object. repeat change_step. Qed.
#[local] Hint Resolve changes_pour : changes.

Lemma changes_pray (command : ParsedCommand.t) : frames R (_pray command).
Proof. unfold _pray, with_direct_object. repeat change_step. Qed.
#[local] Hint Resolve changes_pray : changes.

Lemma changes_wave (command : ParsedCommand.t) : frames R (_wave command).
Proof. unfold _wave, with_direct_object. repeat change_step. Qed.
#[local] Hint Resolve changes_wave : changes.

Lemma changes_raise (command : ParsedCommand.t) : frames R (_raise command).
Proof. unfold _raise, with_direct_object. repeat change_step. Qed.
#[local] Hint Resolve changes_raise : changes.

Lemma changes_lower (command : ParsedCommand.t) : frames R (_lower command).
Proof. unfold _lower, with_direct_object. repeat change_step. Qed.
#[local] Hint Resolve changes_lower : changes.

Lemma changes_climb (command : ParsedCommand.t) : frames R (_climb command).
Proof. unfold _climb, with_direct_object. repeat change_step. Qed.
#[local] Hint Resolve changes_climb : changes.

Lemma changes_jump (command : ParsedCommand.t) : frames R (_jump command).
Proof. unfold _jump, with_direct_object. repeat change_step. Qed.
#[local] Hint Resolve changes_jump : changes.

Lemma changes_break (command : ParsedCommand.t) : frames R (_break command).
Proof. unfold _break, with_direct_object. repeat change_step. Qed.
#[local] Hint Resolve changes_break : changes.

Lemma changes_show_final_score : frames R _show_final_score.
Proof. unfold _show_final_score, with_direct_object. repeat change_step. Qed.
#[local] Hint Resolve changes_show_final_score : changes.

Lemma changes_quit (command : ParsedCommand.t) : frames R (_quit command).
Proof. unfold _quit, with_direct_object. repeat change_step. Qed.
#[local] Hint Resolve changes_quit : changes.

Lemma changes_save (command : ParsedCommand.t) : frames R (_save command).
Proof. unfold _save, with_direct_object. repeat change_step. Qed.
#[local] Hint Resolve changes_save : changes.

Lemma changes_restore (command : ParsedCommand.t) : frames R (_restore command).
Proof. unfold _restore, with_direct_object. repeat change_step. Qed.
#[local] Hint Resolve changes_restore : changes.

Lemma changes_restart (command : ParsedCommand.t) : frames R (_restart command).
Proof. unfold _restart, with_direct_object. repeat change_step. Qed.
#[local] Hint Resolve changes_restart : changes.

Lemma changes_score (command : ParsedCommand.t) : frames R (_score command).
Proof. unfold _score, with_direct_object. repeat change_step. Qed.
#[local] Hint Resolve changes_score : changes.

Lemma changes_version (command : ParsedCommand.t) : frames R (_version command).
Proof. unfold _version, with_direct_object. repeat change_step. Qed.
#[local] Hint Resolve changes_version : changes.

Lemma changes_verbose (command : ParsedCommand.t) : frames R (_verbose command).
Proof. unfold _verbose, with_direct_object. repeat change_step. Qed.
#[local] Hint Resolve changes_verbose : changes.

Lemma changes_brief (command : ParsedCommand.t) : frames R (_brief command).
Proof. unfold _brief, with_direct_object. repeat change_step. Qed.
#[local] Hint Resolve changes_brief : changes.

Lemma changes_wait (command : ParsedCommand.t) : frames R (_wait command).
Proof. unfold _wait, with_direct_object. repeat change_step. Qed.
#[local] Hint Resolve changes_wait : changes.

Lemma changes_diagnose (command : ParsedCommand.t) : frames R (_diagnose command).
Proof. unfold _diagnose, with_direct_object. repeat change_step. Qed.
#[local] Hint Resolve changes_diagnose : changes.

Lemma changes_check_random_events : frames R _check_random_events.
Proof. unfold _check_random_events, with_direct_object. repeat change_step. Qed.
#[local] Hint Resolve changes_check_random_events : changes.

Lemma changes_show_intro : frames R _show_intro.
Proof. unfold _show_intro, with_direct_object. repeat change_step. Qed.
#[local] Hint Resolve changes_show_intro : changes.

Lemma changes_execute_command (command : ParsedCommand.t) :
  frames R (_execute_command command).
Proof.
  unfold _execute_command, handlers.
  destruct (ParsedCommand.direction command); [apply changes_go|].
  destruct (ParsedCommand.verb command) as [[]|]; repeat change_step.
Qed.
#[local] Hint Resolve changes_execute_command : changes.

Lemma changes_turn (user_input : string) : frames R (turn user_input).
Proof. unfold turn. repeat change_step. Qed.
#[local] Hint Resolve changes_turn : changes.

Lemma changes_loop_body : frames R loop_body.
Proof.
  intros s. unfold loop_body.
  match goal with
  | |- R s (final (match ?m s with _ => _ end)) =>
      assert (frames R m) as Hm by (repeat change_step); specialize (Hm s);
      destruct (m s) as [a s'|e s']
  end; [exact Hm|].
  destruct e; try exact Hm.
  eapply framing_trans; [exact Hm|]. apply changes_scalar; reflexivity.
Qed.
#[local] Hint Resolve changes_loop_body : changes.

Lemma changes_main_loop (fuel : nat) : frames R (main_loop fuel).
Proof.
  induction fuel as [|fuel IH]; simpl; [apply frames_ret; exact _|].
  repeat first [exact IH | change_step].
Qed.
#[local] Hint Resolve changes_main_loop : changes.

Lemma changes_start (fuel : nat) : frames R (start fuel).
Proof. unfold start. repeat change_step. Qed.

Lemma changes_session (stdin : list string) (files : gmap string File)
    (draws : list Z) (rounds : nat) :
  R (new_game stdin files draws) (session stdin files draws rounds).
Proof. apply changes_start. Qed.

Lemma changes_play (lines : list string) : frames R (for_each lines turn).
Proof. repeat change_step. Qed.
End Changes.

(** ** Invariants of a session *)

Lemma keeps_framing (I : ZorkGame -> Prop) : Framing (keeps I).
Proof. split; unfold keeps; cbn; auto. Qed.

(** *** The room graph *)

Lemma rooms_sound_update (g : ZorkGame) (k : string) (r r' : Room.t) :
  rooms g !! k = Some r ->
  (forall d target, Room.exits r' !! d = Some target ->
     Room.exits r !! d = Some target \/ is_Some (rooms world !! target)) ->
  rooms_sound g ->
  rooms_sound (set_rooms (<[k := r']> (rooms g)) g).
Proof.
  intros Hk Hexits [Hdom Hclosed]. split; cbn [rooms set_rooms].
  - intros k'. rewrite <- Hdom. destruct (decide (k = k')) as [<-|Hne].
    + rewrite lookup_insert_eq, Hk. split; eauto.
    + now rewrite lookup_insert_ne.
  - intros k' r0 d target. destruct (decide (k = k')) as [<-|Hne].
    + rewrite lookup_insert_eq. intros [= <-] Hd Hother.
      destruct (Hexits d target Hd) as [Hold|Hnew]; [|exact Hnew].
      now apply (Hclosed k r d target).
    + rewrite lookup_insert_ne by exact Hne. apply Hclosed.
Qed.

Lemma world_rooms_sound : rooms_sound world.
Proof.
  split; [reflexivity|].
  assert (map_Forall (fun k r =>
            map_Forall (fun d target =>
              (k, d) <> ("stream", Direction.WEST) ->
              is_Some (rooms world !! target)) (Room.exits r)) (rooms world)) as H.
  { apply (bool_decide_unpack _). vm_compute. reflexivity. }
  intros k r d target Hk Hd. exact (H k r Hk d target Hd).
Qed.

Lemma rooms_sound_same (g g' : ZorkGame) :
  rooms g' = rooms g -> rooms_sound g -> rooms_sound g'.
Proof. unfold rooms_sound. now intros ->. Qed.

#[export] Instance rooms_sound_changes : Changes (keeps rooms_sound).
Proof.
  split; [apply keeps_framing|..]; unfold keeps; cbn [game with_game].
  - intros. now apply (rooms_sound_same (game s)).
  - intros s g' Hr _ _. now apply rooms_sound_same.
  - intros. now apply (rooms_sound_same (game s)).
  - intros. now apply (rooms_sound_same (game s)).
  - intros. now apply (rooms_sound_same (game s)).
  - intros. now apply (rooms_sound_same (game s)).
  - intros s k r r' Hk Hsame. apply (rooms_sound_update _ k r r' Hk).
    intros d target. rewrite Hsame. auto.
  - intros s k r d target Hk Htarget. apply (rooms_sound_update _ k r _ Hk).
    intros d' target'. cbn [Room.exits Room.with_exits]. destruct (decide (d = d')) as [<-|Hne].
    + rewrite lookup_insert_eq. intros [= <-]. now right.
    + rewrite lookup_insert_ne by exact Hne. auto.
  - intros s k r d Hk. apply (rooms_sound_update _ k r _ Hk).
    intros d' target'. cbn [Room.exits Room.with_exits]. intros Hd. left.
    apply lookup_delete_Some in Hd. tauto.
  - intros s _. exact world_rooms_sound.
Qed.

(** *** The object store *)

Section Store.
Context {V : Type}.
Implicit Types (d : list (string * V)) (k : string) (v : V).

Lemma keys_set_new d k v :
  OrderedDict.get k d = None ->
  OrderedDict.keys (OrderedDict.set k v d) = (OrderedDict.keys d ++ [k])%list.
Proof.
  unfold OrderedDict.keys. induction d as [|[k0 v0] d IH]; simpl; [reflexivity|].
  destruct (String.eqb_spec k k0) as [->|Hk]; [discriminate|].
  intros H. simpl. now rewrite IH.
Qed.

Lemma get_None_keys d k : OrderedDict.get k d = None -> k ∉ OrderedDict.keys d.
Proof.
  unfold OrderedDict.keys. induction d as [|[k0 v0] d IH]; simpl.
  - intros _. apply not_elem_of_nil.
  - destruct (String.eqb_spec k k0) as [->|Hk]; [discriminate|].
    intros H. apply not_elem_of_cons. split; auto.
Qed.

Lemma NoDup_keys_set d k v :
  NoDup (OrderedDict.keys d) -> NoDup (OrderedDict.keys (OrderedDict.set k v d)).
Proof.
  intros Hd. destruct (OrderedDict.get k d) as [v0|] eqn:Hk.
  - now rewrite (keys_set d k v v0 Hk).
  - rewrite (keys_set_new d k v Hk). apply NoDup_app. split; [exact Hd|].
    split; [|apply NoDup_singleton].
    intros x Hx Hx'. apply list_elem_of_singleton in Hx'. subst x.
    now apply (get_None_keys d k Hk).
Qed.

Lemma keys_del_sublist d k :
  sublist (OrderedDict.keys (OrderedDict.del k d)) (OrderedDict.keys d).
Proof.
  unfold OrderedDict.keys. induction d as [|[k0 v0] d IH]; simpl; [constructor|].
  destruct (String.eqb k k0); simpl.
  - now apply sublist_cons.
  - now apply sublist_skip.
Qed.

Lemma del_sublist d k : sublist (OrderedDict.del k d) d.
Proof.
  induction d as [|[k0 v0] d IH]; simpl; [constructor|].
  destruct (String.eqb k k0); simpl.
  - now apply sublist_cons.
  - now apply sublist_skip.
Qed.

Lemma Forall_set (P : string * V -> Prop) d k v :
  P (k, v) -> Forall P d -> Forall P (OrderedDict.set k v d).
Proof.
  intros Hv. induction 1 as [|[k0 v0] d H0 Hd IH]; simpl.
  - repeat constructor. exact Hv.
  - destruct (String.eqb k k0); constructor; assumption.
Qed.
End Store.

Lemma objects_by_id_set (g : ZorkGame) (k : string) (o : GameObject.t) :
  GameObject.id o = k ->
  Py.mem k known_ids = true ->
  objects_by_id g ->
  objects_by_id (set_objects (OrderedDict.set k o (objects g)) g).
Proof.
  intros Hid Hknown [Hnodup Hall]. split; cbn [objects set_objects].
  - apply NoDup_keys_set. exact Hnodup.
  - apply Forall_set; [split; assumption | exact Hall].
Qed.

Lemma world_objects_by_id : objects_by_id world.
Proof.
  split.
  - apply (bool_decide_unpack _). vm_compute. reflexivity.
  - apply (bool_decide_unpack _). vm_compute. reflexivity.
Qed.

Lemma objects_by_id_same (g g' : ZorkGame) :
  objects g' = objects g -> objects_by_id g -> objects_by_id g'.
Proof. unfold objects_by_id. now intros ->. Qed.

#[export] Instance objects_by_id_changes : Changes (keeps objects_by_id).
Proof.
  split; [apply keeps_framing|..]; unfold keeps; cbn [game with_game].
  - intros. now apply (objects_by_id_same (game s)).
  - intros s g' _ Ho _. now apply objects_by_id_same.
  - intros s k o o' Hk Hid Hinv.
    assert (GameObject.id o = k /\ Py.mem k known_ids = true) as [Hko Hknown].
    { destruct Hinv as [_ Hall]. rewrite Forall_forall in Hall.
      exact (Hall (k, o) (get_In _ _ _ Hk)). }
    apply objects_by_id_set; [congruence | exact Hknown | exact Hinv].
  - intros s k o Hid Hnew. apply objects_by_id_set; [exact Hid|].
    destruct Hnew as [->| ->]; vm_compute; reflexivity.
  - intros s k [Hnodup Hall]. split; cbn.
    + exact (sublist_NoDup _ _ Hnodup (keys_del_sublist _ k)).
    + rewrite Forall_forall in Hall |- *. intros x Hx.
      apply Hall. exact (elem_of_sublist _ _ x Hx (del_sublist _ k)).
  - intros. now apply (objects_by_id_same (game s)).
  - intros. now apply (objects_by_id_same (game s)).
  - intros. now apply (objects_by_id_same (game s)).
  - intros. now apply (objects_by_id_same (game s)).
  - intros s _. exact world_objects_by_id.
Qed.

(** *** The actors *)

#[export] Instance actors_present_changes : Changes (keeps actors_present).
Proof.
  split; [apply keeps_framing|..]; unfold keeps, actors_present;
    cbn [game with_game set_actors set_objects set_rooms actors];
    try (intros; assumption).
  - intros s g' _ _ Ha. now rewrite Ha.
  - intros s k a a' Hk. now rewrite (keys_set _ k a' a Hk).
  - intros s _. vm_compute. reflexivity.
Qed.

(** X1: in every game a session can reach, the rooms are exactly the rooms
    the world was built with, and every exit of every room, the exit west
    of the stream excepted, leads to a room that exists: no command adds or
    removes a room, and the exits that world events write (the grating, the
    rainbow, the reservoir, the rope, the mirror, the altar, Hades) all
    point at rooms of the world. *)
Theorem exits_stay_within_the_world (stdin : list string)
    (files : gmap string File) (draws : list Z) (rounds : nat) :
  (forall k, is_Some (rooms (game (session stdin files draws rounds)) !! k)
             <-> is_Some (rooms world !! k)) /\
  (forall k r d target,
     rooms (game (session stdin files draws rounds)) !! k = Some r ->
     Room.exits r !! d = Some target ->
     (k, d) <> ("stream", Direction.WEST) ->
     is_Some (rooms (game (session stdin files draws rounds)) !! target)).
Proof.
  assert (rooms_sound (game (session stdin files draws rounds))) as [Hdom Hclosed].
  { apply (changes_session (keeps rooms_sound)).
    rewrite new_game_is_the_world. exact world_rooms_sound. }
  split; [exact Hdom|]. intros k r d target Hk Hd Hother.
  apply Hdom. now apply (Hclosed k r d target).
Qed.

(** X2: whatever is typed, every object of a game a session can reach is
    stored under its own id, so that [obj.id] and the key of [self.objects]
    can be used for one another, as the code does; and it is one of the
    objects the world was built with or the bauble: commands delete objects
    and bring the water and the bauble into being, nothing else. *)
Theorem objects_are_stored_under_their_id (stdin : list string)
    (files : gmap string File) (draws : list Z) (rounds : nat)
    (k : string) (o : GameObject.t) :
  OrderedDict.get k (objects (game (session stdin files draws rounds))) = Some o ->
  GameObject.id o = k /\
  (OrderedDict.contains k (objects world) = true \/ k = "bauble").
Proof.
  intros Hk.
  assert (objects_by_id (game (session stdin files draws rounds))) as [_ Hall].
  { apply (changes_session (keeps objects_by_id)).
    rewrite new_game_is_the_world. exact world_objects_by_id. }
  rewrite Forall_forall in Hall.
  destruct (Hall (k, o) (get_In _ _ _ Hk)) as [Hid Hknown]. split; [exact Hid|].
  unfold known_ids, Py.mem in Hknown. rewrite existsb_app in Hknown.
  apply orb_true_iff in Hknown as [Hworld|Hbauble].
  - left. apply existsb_exists in Hworld as (k' & Hin & Heq).
    apply String.eqb_eq in Heq. subst k'.
    destruct (OrderedDict.contains k (objects world)) eqn:Hc; [reflexivity|].
    exfalso. unfold OrderedDict.contains in Hc.
    destruct (OrderedDict.get k (objects world)) eqn:Hget; [discriminate|].
    apply get_None_keys in Hget. apply Hget. apply list_elem_of_In. exact Hin.
  - right. cbn in Hbauble. rewrite orb_false_r in Hbauble.
    now apply String.eqb_eq in Hbauble.
Qed.

Lemma objects_are_stored_under_their_id_witness :
  GameObject.id
    (GameObject.with_location (Some "player")
       (default (GameObject.mk "" "" "" "" "" 0 None 0 0 0)
          (OrderedDict.get "leaflet" (objects world)))) = "leaflet".
Proof.
  refine (proj1 (objects_are_stored_under_their_id
                   ["Ford"; "open mailbox"; "take leaflet"] ∅ [] 3 "leaflet" _ _)).
  vm_compute. reflexivity.
Defined.

(** X3: no command creates or removes an actor: in every game a session can
    reach, the troll, the thief, the cyclops, the spirits and the bat are
    all in [self.actors], so the lookups [self.actors["troll"]] and the like
    never raise. *)
Theorem actors_never_leave (stdin : list string)
    (files : gmap string File) (draws : list Z) (rounds : nat) :
  OrderedDict.keys (actors (game (session stdin files draws rounds)))
    = ["troll"; "thief"; "cyclops"; "spirits"; "bat"] /\
  forall k, k ∈ ["troll"; "thief"; "cyclops"; "spirits"; "bat"] ->
    exists a, actor_at k (session stdin files draws rounds)
              = Ok a (session stdin files draws rounds).
Proof.
  set (s := session stdin files draws rounds).
  assert (actors_present (game s)) as Hkeys.
  { apply (changes_session (keeps actors_present)).
    rewrite new_game_is_the_world. vm_compute. reflexivity. }
  split; [exact Hkeys|]. intros k Hk.
  unfold actor_at, bind, self. 
  destruct (OrderedDict.get k (actors (game s))) as [a|] eqn:Ha; [now exists a|].
  apply get_None_keys in Ha. rewrite Hkeys in Ha. contradiction.
Qed.

(** ** Resolving names and dispatching verbs *)

Lemma first_key_Some {V} (test : string -> V -> bool) (d : list (string * V))
    (k : string) :
  first_key test d = Some k -> exists v, (k, v) ∈ d /\ test k v = true.
Proof.
  unfold first_key. destruct (List.find _ d) as [[k' v]|] eqn:Hfind; [|discriminate].
  intros [= <-]. apply List.find_some in Hfind as [Hin Htest].
  exists v. split; [now apply list_elem_of_In | exact Htest].
Qed.

Lemma first_key_None {V} (test : string -> V -> bool) (d : list (string * V))
    (k : string) (v : V) :
  first_key test d = None -> (k, v) ∈ d -> test k v = false.
Proof.
  unfold first_key. destruct (List.find _ d) as [kv|] eqn:Hfind; [discriminate|].
  intros _ Hin. apply list_elem_of_In in Hin.
  exact (List.find_none _ _ Hfind (k, v) Hin).
Qed.

(** X4: a name is only ever resolved to something that is there: an actor
    of that very name standing in the current room, or an object that is
    visible and whose name or description contains the name. *)
Theorem find_object_finds_what_is_there (g : ZorkGame) (name found : string) :
  _find_object g name = Some found ->
  (found = name /\
   exists actor, (found, actor) ∈ actors g /\
     Actor.location actor = Some (current_room g)) \/
  (_is_visible g found = true /\
   exists obj, (found, obj) ∈ objects g /\
     (GameObject.name obj = name \/
      Py.contains name (GameObject.name obj) = true \/
      Py.contains name (GameObject.description obj) = true)).
Proof.
  unfold _find_object.
  destruct (first_key _ (actors g)) as [actor_id|] eqn:Hactor.
  { intros [= <-]. apply first_key_Some in Hactor as (actor & Hin & Htest).
    apply andb_true_iff in Htest as [Hloc Hname].
    apply opt_is_spec in Hloc. apply String.eqb_eq in Hname. left. eauto. }
  destruct (first_key _ (objects g)) as [obj_id|] eqn:Hexact.
  { intros [= <-]. apply first_key_Some in Hexact as (obj & Hin & Htest).
    apply andb_true_iff in Htest as [Hname Hvisible].
    apply String.eqb_eq in Hname. right. eauto. }
  clear Hexact.
  destruct (first_key _ (objects g)) as [obj_id|] eqn:Hpartial.
  { intros [= <-]. apply first_key_Some in Hpartial as (obj & Hin & Htest).
    apply andb_true_iff in Htest as [Hname Hvisible]. right. eauto 6. }
  clear Hpartial. intros Hdescription.
  apply first_key_Some in Hdescription as (obj & Hin & Htest).
  apply andb_true_iff in Htest as [Hname Hvisible]. right. eauto 6.
Qed.

Lemma find_object_finds_what_is_there_witness :
  ("mailbox" = "mailbox" /\
   exists actor, ("mailbox", actor) ∈ actors world /\
     Actor.location actor = Some (current_room world)) \/
  (_is_visible world "mailbox" = true /\
   exists obj, ("mailbox", obj) ∈ objects world /\
     (GameObject.name obj = "mailbox" \/
      Py.contains "mailbox" (GameObject.name obj) = true \/
      Py.contains "mailbox" (GameObject.description obj) = true)).
Proof.
  apply (find_object_finds_what_is_there world "mailbox" "mailbox").
  vm_compute. reflexivity.
Defined.

(** X5: an object that is visible is found by its exact name: the answer
    may be an actor or another visible object (the first match in the order
    of the search wins), but it is never "nothing". *)
Theorem visible_object_is_found_by_name (g : ZorkGame) (obj_id : string)
    (obj : GameObject.t) :
  (obj_id, obj) ∈ objects g ->
  _is_visible g obj_id = true ->
  exists found, _find_object g (GameObject.name obj) = Some found.
Proof.
  intros Hin Hvisible. unfold _find_object.
  destruct (first_key _ (actors g)) as [actor_id|]; [eauto|].
  destruct (first_key _ (objects g)) as [found|] eqn:Hexact; [eauto|].
  apply (first_key_None _ _ obj_id obj) in Hexact; [|exact Hin].
  cbv beta in Hexact. rewrite String.eqb_refl, Hvisible in Hexact. discriminate.
Qed.

Lemma visible_object_is_found_by_name_witness :
  exists found, _find_object world "mailbox" = Some found.
Proof.
  pose (mailbox := default (GameObject.mk "" "" "" "" "" 0 None 0 0 0)
                     (OrderedDict.get "mailbox" (objects world))).
  apply (visible_object_is_found_by_name world "mailbox" mailbox).
  - apply get_In. vm_compute. reflexivity.
  - vm_compute. reflexivity.
Defined.

(** *** Verbs *)

Lemma verb_words :
  map_Forall (fun word v =>
    v <> VerbType.TURN_ON /\ v <> VerbType.TURN_OFF /\
    (v = VerbType.TURN -> word = "turn") /\
    (v = VerbType.KILL -> word = "kill") /\
    (has_handler v = false -> v = VerbType.TURN \/ v = VerbType.KILL)) verb_map.
Proof. apply (bool_decide_unpack _). vm_compute. reflexivity. Qed.

(** X6: the verbs [turn on] and [turn off] are reached in one way only, by
    a line that begins "turn on " or "turn off " and goes on with at least
    one more word; no single verb word stands for them ("light" and
    "extinguish" mean burn and extinguish). *)
Theorem turn_on_needs_turn_and_an_object (g : ZorkGame) (user_input : string) :
  let command := _parse_command g user_input in
  (ParsedCommand.verb command = Some VerbType.TURN_ON ->
   exists rest, Py.split user_input = "turn" :: rest /\
     Py.startswith (Py.join " " rest) "on " = true) /\
  (ParsedCommand.verb command = Some VerbType.TURN_OFF ->
   exists rest, Py.split user_input = "turn" :: rest /\
     Py.startswith (Py.join " " rest) "off " = true).
Proof.
  cbv zeta. unfold _parse_command.
  destruct (Py.split user_input) as [|word0 rest] eqn:Hsplit; [split; discriminate|].
  destruct (direction_map !! word0); [split; discriminate|].
  destruct (verb_map !! word0) as [v|] eqn:Hv; [|split; discriminate].
  destruct (verb_words word0 v Hv) as (Hon & Hoff & Hturn & _).
  destruct (1 <? length (word0 :: rest))%nat;
    [|split; cbn [ParsedCommand.verb ParsedCommand.with_verb]; congruence].
  unfold verb_is, VerbType.eqb. cbn [ParsedCommand.verb ParsedCommand.with_verb].
  destruct (bool_decide (v = VerbType.TURN)) eqn:Histurn.
  - apply bool_decide_eq_true in Histurn. rewrite (Hturn Histurn). subst v.
    change (bool_decide (VerbType.TURN = VerbType.EXAMINE)) with false.
    cbn [andb].
    destruct (Py.startswith (Py.join " " rest) "on ") eqn:Hstarts.
    + split; cbn [ParsedCommand.verb ParsedCommand.with_verb
                  ParsedCommand.with_direct_object]; [eauto | discriminate].
    + destruct (Py.startswith (Py.join " " rest) "off ") eqn:Hstarts'.
      * split; cbn [ParsedCommand.verb ParsedCommand.with_verb
                    ParsedCommand.with_direct_object]; [discriminate | eauto].
      * split; cbn [ParsedCommand.verb ParsedCommand.with_verb
                    ParsedCommand.with_direct_object]; discriminate.
  - split; cbn [ParsedCommand.verb ParsedCommand.with_verb
                ParsedCommand.with_direct_object]; congruence.
Qed.

Lemma turn_on_needs_turn_and_an_object_witness :
  exists rest, Py.split "turn on lamp" = "turn" :: rest /\
    Py.startswith (Py.join " " rest) "on " = true.
Proof.
  apply (turn_on_needs_turn_and_an_object world "turn on lamp").
  vm_compute. reflexivity.
Defined.

(** X7: of all the verb words the parser accepts, "kill" and a "turn" that
    is not followed by "on " or "off " are the only ones the game has no
    handler for; a line that begins with "kill" is answered "I don't know
    how to do that." and changes nothing, whatever it names. *)
Theorem kill_is_parsed_but_not_handled (s : Sys) (user_input : string)
    (rest : list string) :
  Py.split user_input = "kill" :: rest ->
  (forall word v, verb_map !! word = Some v -> handlers v = None ->
     word = "turn" \/ word = "kill") /\
  _execute_command (_parse_command (game s) user_input) s
    = Ok tt (say "I don't know how to do that." s).
Proof.
  intros Hsplit. split.
  { intros word v Hw Hnone.
    destruct (verb_words word v Hw) as (_ & _ & Hturn & Hkill & Hhandler).
    destruct Hhandler; [unfold has_handler; now rewrite Hnone | auto | auto]. }
  unfold _parse_command. rewrite Hsplit.
  assert (direction_map !! "kill" = None) as -> by (vm_compute; reflexivity).
  assert (verb_map !! "kill" = Some VerbType.KILL) as -> by (vm_compute; reflexivity).
  unfold verb_is, VerbType.eqb. cbn [ParsedCommand.verb ParsedCommand.with_verb].
  assert (forall command,
            ParsedCommand.direction command = None ->
            ParsedCommand.verb command = Some VerbType.KILL ->
            _execute_command command s = Ok tt (say "I don't know how to do that." s))
    as Hrun.
  { intros command Hd Hv. unfold _execute_command. rewrite Hd, Hv. reflexivity. }
  destruct (1 <? length ("kill" :: rest))%nat; apply Hrun; reflexivity.
Qed.

Lemma kill_is_parsed_but_not_handled_witness :
  stdout (final (_execute_command
                   (_parse_command (game (new_game [] ∅ [])) "kill troll")
                   (new_game [] ∅ [])))
    = ["I don't know how to do that."].
Proof.
  destruct (kill_is_parsed_but_not_handled (new_game [] ∅ []) "kill troll" ["troll"])
    as [_ Hrun]; [vm_compute; reflexivity|].
  rewrite Hrun. reflexivity.
Defined.

(** ** What the parser hands to the handlers *)

Lemma parse_shape (g : ZorkGame) (user_input : string) :
  (forall v, ParsedCommand.verb (_parse_command g user_input) = Some v ->
     ParsedCommand.direction (_parse_command g user_input) = None) /\
  (forall found,
     ParsedCommand.direct_object (_parse_command g user_input) = Some found ->
     exists name, _find_object g name = Some found).
Proof.
  unfold _parse_command.
  destruct (Py.split user_input) as [|word0 rest]; [split; intros ?; discriminate|].
  destruct (direction_map !! word0); [split; intros ?; discriminate|].
  destruct (verb_map !! word0) as [v|]; [|split; intros ?; discriminate].
  destruct (1 <? length (word0 :: rest))%nat; [|split; intros ?; cbn; auto; discriminate].
  repeat match goal with
         | |- context [if ?b then _ else _] => destruct b
         end;
    (split; intros ?; cbn [ParsedCommand.verb ParsedCommand.direction
                           ParsedCommand.direct_object ParsedCommand.with_verb
                           ParsedCommand.with_direct_object]; [reflexivity | eauto]).
Qed.

Lemma find_object_key (g : ZorkGame) (name found : string) :
  _find_object g name = Some found ->
  found ∈ OrderedDict.keys (actors g) \/ found ∈ OrderedDict.keys (objects g).
Proof.
  assert (forall V (test : string -> V -> bool) (d : list (string * V)) k,
            first_key test d = Some k -> k ∈ OrderedDict.keys d) as Hkey.
  { intros V test d k Hk. apply first_key_Some in Hk as (v & Hin & _).
    unfold OrderedDict.keys. apply list_elem_of_fmap. now exists (k, v). }
  unfold _find_object.
  destruct (first_key _ (actors g)) as [k|] eqn:H1; [intros [= <-]; eauto|].
  destruct (first_key _ (objects g)) as [k|] eqn:H2; [intros [= <-]; eauto|].
  clear H2.
  destruct (first_key _ (objects g)) as [k|] eqn:H3; [intros [= <-]; eauto|].
  eauto.
Qed.

Lemma wind_without_canary (s : Sys) (user_input : string) :
  actors_present (game s) ->
  objects_by_id (game s) ->
  ParsedCommand.verb (_parse_command (game s) user_input) = Some VerbType.WIND ->
  exists line,
    _execute_command (_parse_command (game s) user_input) s = Ok tt (say line s) /\
    (line = "What do you want to wind?" \/ line = "You can't wind that.").
Proof.
  intros Hkeys [_ Hall].
  set (command := _parse_command (game s) user_input). intros Hverb.
  destruct (parse_shape (game s) user_input) as [Hdirection Hobject].
  fold command in Hdirection, Hobject.
  unfold _execute_command. rewrite (Hdirection _ Hverb), Hverb.
  cbn [handlers]. unfold _wind, with_direct_object.
  destruct (ParsedCommand.direct_object command) as [found|] eqn:Hfound; [|eauto].
  destruct (Py.truthy found); [|eauto].
  erewrite bind_ok by reflexivity.
  assert (found <> "canary") as Hne.
  { destruct (Hobject found eq_refl) as [name Hname].
    intros ->. apply find_object_key in Hname as [Hactor|Hobj].
    - rewrite Hkeys in Hactor. revert Hactor.
      apply (bool_decide_unpack _). vm_compute. reflexivity.
    - unfold OrderedDict.keys in Hobj.
      apply list_elem_of_fmap in Hobj as ([k o] & Hk & Hin). cbn in Hk. subst k.
      rewrite Forall_forall in Hall. destruct (Hall _ Hin) as [_ Hknown].
      cbn [fst] in Hknown. vm_compute in Hknown. discriminate. }
  apply String.eqb_neq in Hne. rewrite Hne. cbn [andb]. eauto.
Qed.

(** X8: the canary cannot be wound.  [_wind] asks for the direct object
    "canary", but the parser hands over the id of what it found, and no
    object or actor of any game a session can reach has that id (the
    canary's is "golden_canary"): a line with the verb [wind] is answered
    with the question or with "You can't wind that.", and the game is left
    as it was, so the bauble is never made this way. *)
Theorem the_canary_cannot_be_wound (stdin : list string)
    (files : gmap string File) (draws : list Z) (rounds : nat)
    (user_input : string) :
  ParsedCommand.verb
    (_parse_command (game (session stdin files draws rounds)) user_input)
    = Some VerbType.WIND ->
  exists line,
    _execute_command
      (_parse_command (game (session stdin files draws rounds)) user_input)
      (session stdin files draws rounds)
    = Ok tt (say line (session stdin files draws rounds)) /\
    (line = "What do you want to wind?" \/ line = "You can't wind that.").
Proof.
  apply wind_without_canary.
  - apply (changes_session (keeps actors_present)).
    rewrite new_game_is_the_world. vm_compute. reflexivity.
  - apply (changes_session (keeps objects_by_id)).
    rewrite new_game_is_the_world. exact world_objects_by_id.
Qed.

Lemma the_canary_cannot_be_wound_witness :
  exists line,
    _execute_command
      (_parse_command (game (session ["Ford"; "n"; "n"; "u"; "take egg"] ∅ [] 4))
         "wind canary")
      (session ["Ford"; "n"; "n"; "u"; "take egg"] ∅ [] 4)
    = Ok tt (say line (session ["Ford"; "n"; "n"; "u"; "take egg"] ∅ [] 4)) /\
    (line = "What do you want to wind?" \/ line = "You can't wind that.").
Proof.
  apply (the_canary_cannot_be_wound ["Ford"; "n"; "n"; "u"; "take egg"] ∅ [] 4
           "wind canary").
  vm_compute. reflexivity.
Defined.

(** ** Moving about *)

(** [_go] from a room that has no rule of its own comes down to the
    normal movement. *)
Lemma go_plain (s : Sys) (room : Room.t) (d : Direction.t) :
  rooms (game s) !! current_room (game s) = Some room ->
  Py.mem (current_room (game s)) special_rooms = false ->
  _go d s =
  match Room.exits room !! d with
  | Some new_room =>
      if String.eqb new_room (current_room (game s))
      then print "You can't go that way." s
      else (move_to new_room ;; _check_light ;; _look None) s
  | None => print "You can't go that way." s
  end.
Proof.
  intros Hroom Hplain. unfold _go.
  erewrite bind_ok by reflexivity. cbv zeta.
  erewrite bind_ok by (apply room_at_ok; exact Hroom).
  cbn [Py.mem special_rooms existsb] in Hplain.
  repeat (apply orb_false_iff in Hplain as [? Hplain]).
  repeat match goal with
         | H : String.eqb _ _ = false |- _ => rewrite H; clear H
         end.
  cbn [andb]. do 3 (erewrite bind_ok by reflexivity; cbv iota).
  destruct (Room.exits room !! d) as [new_room|]; [|reflexivity].
  now destruct (String.eqb new_room (current_room (game s))).
Qed.

(** X9: where there is no exit in a direction, and where the exit leads
    back to the room itself (the way the world marks a blocked path), a
    move is answered "You can't go that way." and nothing changes: the
    player stays, and the room is not looked at again. *)
Theorem no_exit_and_self_exit_block_the_way (s : Sys) (room : Room.t)
    (d : Direction.t) :
  rooms (game s) !! current_room (game s) = Some room ->
  Py.mem (current_room (game s)) special_rooms = false ->
  Room.exits room !! d = None \/ Room.exits room !! d = Some (current_room (game s)) ->
  _go d s = Ok tt (say "You can't go that way." s).
Proof.
  intros Hroom Hplain Hexit. rewrite (go_plain s room d Hroom Hplain).
  destruct Hexit as [-> | ->]; [reflexivity|].
  now rewrite String.eqb_refl.
Qed.

Lemma no_exit_and_self_exit_block_the_way_witness :
  _go Direction.EAST (new_game [] ∅ [])
    = Ok tt (say "You can't go that way." (new_game [] ∅ [])) /\
  _go Direction.UP (new_game [] ∅ [])
    = Ok tt (say "You can't go that way." (new_game [] ∅ [])).
Proof.
  pose (room := default (Room.mk "" "" "" 0 ∅) (rooms world !! "west_of_house")).
  split.
  - apply (no_exit_and_self_exit_block_the_way (new_game [] ∅ []) room);
      [vm_compute; reflexivity | vm_compute; reflexivity |].
    right. vm_compute. reflexivity.
  - apply (no_exit_and_self_exit_block_the_way (new_game [] ∅ []) room);
      [vm_compute; reflexivity | vm_compute; reflexivity |].
    left. vm_compute. reflexivity.
Defined.

(** X10: an ordinary move into a room that is lit changes the current room
    and, through the look that follows, the set of visited rooms, and
    nothing else: inventory, score, objects, actors, rooms and flags are as
    they were, however the look ends. *)
Theorem a_move_changes_the_room_only (s : Sys) (room target_room : Room.t)
    (d : Direction.t) (target : string) :
  rooms (game s) !! current_room (game s) = Some room ->
  Py.mem (current_room (game s)) special_rooms = false ->
  Room.exits room !! d = Some target ->
  target <> current_room (game s) ->
  rooms (game s) !! target = Some target_room ->
  Room.has_flag target_room RoomFlag.LIT = true ->
  exists V : gset string,
    game (final (_go d s))
      = set_visited_rooms V (set_current_room target (game s)) /\
    visited_rooms (game s) ⊆ V.
Proof.
  intros Hroom Hplain Hexit Hne Htarget Hlit.
  rewrite (go_plain s room d Hroom Hplain), Hexit.
  apply String.eqb_neq in Hne. rewrite Hne.
  unfold move_to. erewrite bind_ok by reflexivity.
  set (s1 := mkSys (set_current_room target (game s)) (stdout s) (stdin s)
               (files s) (draws s)).
  assert (_check_light s1 = Ok tt s1) as Hlight.
  { unfold _check_light. erewrite bind_ok by reflexivity.
    erewrite bind_ok by (apply room_at_ok; exact Htarget).
    now rewrite Hlit. }
  rewrite (bind_ok _ _ _ _ _ Hlight).
  exact (look_up_to_visited None s1).
Qed.

Lemma a_move_changes_the_room_only_witness :
  exists V : gset string,
    game (final (_go Direction.NORTH (new_game [] ∅ [])))
      = set_visited_rooms V (set_current_room "north_of_house" (game (new_game [] ∅ []))) /\
    visited_rooms (game (new_game [] ∅ [])) ⊆ V.
Proof.
  pose (room := default (Room.mk "" "" "" 0 ∅) (rooms world !! "west_of_house")).
  pose (target_room := default (Room.mk "" "" "" 0 ∅) (rooms world !! "north_of_house")).
  apply (a_move_changes_the_room_only (new_game [] ∅ []) room target_room).
  - vm_compute. reflexivity.
  - vm_compute. reflexivity.
  - vm_compute. reflexivity.
  - vm_compute. discriminate.
  - vm_compute. reflexivity.
  - vm_compute. reflexivity.
Defined.

(** ** Carrying and containers *)

Lemma same_load_framing : Framing (on_game same_load).
Proof.
  apply framing_on_game; unfold same_load; [reflexivity|].
  intros g1 g2 g3 H1 H2. now rewrite H2.
Qed.

(** X11: a take adds at most the thing named, at the end of the inventory,
    and only when it was not carried already and fewer than seven things
    were: through [take] the load never goes beyond seven and never holds
    a thing twice. *)
Theorem take_adds_the_named_thing_at_most (s : Sys) (command : ParsedCommand.t) :
  player_inventory (game (final (_take command s))) = player_inventory (game s) \/
  exists obj_id,
    ParsedCommand.direct_object command = Some obj_id /\
    (obj_id ∉ player_inventory (game s)) /\
    (length (player_inventory (game s)) < 7)%nat /\
    player_inventory (game (final (_take command s)))
      = (player_inventory (game s) ++ [obj_id])%list.
Proof.
  unfold _take, with_direct_object.
  destruct (ParsedCommand.direct_object command) as [obj_id|]; [|now left].
  destruct (Py.truthy obj_id); [|now left].
  erewrite bind_ok by reflexivity.
  destruct (OrderedDict.contains obj_id (actors (game s))); [now left|].
  cbv zeta.
  destruct (OrderedDict.get obj_id (objects (game s))) as [obj|] eqn:Hobj.
  2:{ left. unfold bind at 1, object_at, bind at 1, self. now rewrite Hobj. }
  erewrite bind_ok by (apply object_at_ok; exact Hobj).
  destruct (negb (GameObject.has_flag obj ObjectFlag.TAKEABLE)); [now left|].
  destruct (Py.mem obj_id (player_inventory (game s))) eqn:Hmem; [now left|].
  match goal with
  | |- context [if ?b then print _ else _] => destruct b; [now left|]
  end.
  destruct (7 <=? length (player_inventory (game s)))%nat eqn:Hlen; [now left|].
  right. exists obj_id. split; [reflexivity|].
  split; [now apply mem_false|]. split; [now apply Nat.leb_gt|].
  erewrite bind_ok by reflexivity.
  match goal with
  | |- player_inventory (game (final (?m ?s1))) = _ =>
      assert (frames (on_game same_load) m) as Hrest
  end.
  { pose proof same_load_framing.
    repeat frame_step ltac:(unfold on_game, same_load; reflexivity). }
  apply Hrest.
Qed.

Lemma take_adds_the_named_thing_at_most_witness :
  player_inventory (game (final (_take (_parse_command world "take mat")
                                   (new_game [] ∅ [])))) = ["mat"].
Proof.
  destruct (take_adds_the_named_thing_at_most (new_game [] ∅ [])
              (_parse_command world "take mat")) as [Hsame|(obj_id & Hid & _ & _ & Htaken)].
  - vm_compute in Hsame. discriminate.
  - rewrite Htaken. vm_compute in Hid. injection Hid as <-. reflexivity.
Defined.

(** *** Opening and closing *)

Lemma open_close_flags (z : Z) :
  Z.testbit z 4 = false -> Z.testbit z 5 = true ->
  Z.lor (Z.land (Z.land (Z.lor z 16) (Z.lnot 32)) (Z.lnot 16)) 32 = z.
Proof.
  intros H4 H5. apply Z.bits_inj'. intros n Hn.
  change 16 with (2 ^ 4). change 32 with (2 ^ 5).
  rewrite Z.lor_spec, !Z.land_spec, Z.lor_spec, !Z.lnot_spec by exact Hn.
  rewrite !Z.pow2_bits_eqb by lia.
  destruct (Z.eq_dec n 4) as [->|N4]; [now rewrite H4|].
  destruct (Z.eq_dec n 5) as [->|N5]; [now rewrite H5|].
  rewrite (proj2 (Z.eqb_neq 4 n)), (proj2 (Z.eqb_neq 5 n)) by lia.
  now destruct (Z.testbit z n).
Qed.

Lemma open_then_closed (obj : GameObject.t) :
  GameObject.has_flag obj ObjectFlag.OPEN = false ->
  GameObject.has_flag obj ObjectFlag.CLOSED = true ->
  GameObject.set_flag ObjectFlag.CLOSED true
    (GameObject.set_flag ObjectFlag.OPEN false
       (GameObject.set_flag ObjectFlag.CLOSED false
          (GameObject.set_flag ObjectFlag.OPEN true obj))) = obj.
Proof.
  rewrite !has_flag_testbit. change (bit_of ObjectFlag.OPEN) with 4.
  change (bit_of ObjectFlag.CLOSED) with 5. intros H4 H5.
  destruct obj as [id name description examine_text initial_text flags location
                   capacity size value].
  unfold GameObject.set_flag, GameObject.with_flags. cbn in *.
  f_equal. now apply open_close_flags.
Qed.

(** X12: closing undoes opening.  For a container or door that is closed
    and not locked (the window, the egg, the coffin and the machine, which
    have rules of their own, apart), [open] followed by [close] gives back
    the very game it started from; only the transcript has grown, by
    "Opened.", what the opening revealed, and "Closed.". *)
Theorem close_undoes_open (s : Sys) (command : ParsedCommand.t)
    (obj_id : string) (obj : GameObject.t) :
  ParsedCommand.direct_object command = Some obj_id ->
  Py.truthy obj_id = true ->
  Py.mem obj_id ["window"; "jeweled_egg"; "coffin"; "machine"] = false ->
  OrderedDict.get obj_id (objects (game s)) = Some obj ->
  GameObject.has_flag obj ObjectFlag.CONTAINER
    || GameObject.has_flag obj ObjectFlag.DOOR = true ->
  GameObject.has_flag obj ObjectFlag.OPEN = false ->
  GameObject.has_flag obj ObjectFlag.LOCKED = false ->
  GameObject.has_flag obj ObjectFlag.CLOSED = true ->
  exists (s1 s2 : Sys) (revealed : list string),
    _open command s = Ok tt s1 /\
    OrderedDict.get obj_id (objects (game s1))
      = Some (GameObject.set_flag ObjectFlag.CLOSED false
                (GameObject.set_flag ObjectFlag.OPEN true obj)) /\
    _close command s1 = Ok tt s2 /\
    game s2 = game s /\
    stdout s2 = (stdout s ++ "Opened." :: revealed ++ ["Closed."])%list.
Proof.
  intros Hdo Htruthy Hplain Hobj Hkind Hopen Hlocked Hclosed.
  cbn [Py.mem existsb] in Hplain.
  repeat (apply orb_false_iff in Hplain as [? Hplain]).
  set (opened := GameObject.set_flag ObjectFlag.CLOSED false
                   (GameObject.set_flag ObjectFlag.OPEN true obj)).
  assert (exists revealed,
            _open command s
            = Ok tt (says ("Opened." :: revealed)
                       (with_game (set_objects
                                     (OrderedDict.set obj_id opened (objects (game s)))
                                     (game s)) s))) as [revealed Hrun].
  { unfold _open, with_direct_object. rewrite Hdo, Htruthy.
    erewrite bind_ok by (apply object_at_ok; exact Hobj).
    repeat match goal with
           | H : String.eqb obj_id _ = false |- _ => rewrite H; clear H
           end.
    rewrite Hkind, Hopen, Hlocked. cbn [negb].
    erewrite bind_ok by (apply update_object_ok; exact Hobj).
    erewrite bind_ok by (apply update_object_ok; cbn [game with_game says objects set_objects]; apply get_set_eq).
    cbn [game with_game objects set_objects]. rewrite set_set.
    erewrite bind_ok by reflexivity.
    match goal with
    | |- exists revealed, ?m ?s3 = _ => assert (prints m s3) as ([] & lines & Hp)
    end.
    { cbn [when]. repeat prints_step. }
    rewrite Hp. exists lines. unfold says. cbn. now rewrite <- app_assoc. }
  eexists _, _, revealed. split; [exact Hrun|].
  split; [cbn [game with_game says objects set_objects]; apply get_set_eq|].
  assert (GameObject.has_flag opened ObjectFlag.CONTAINER
          || GameObject.has_flag opened ObjectFlag.DOOR = true) as Hkind'.
  { unfold opened. rewrite !has_flag_set_flag.
    repeat (destruct (decide _) as [Hbit|_]; [vm_compute in Hbit; discriminate|]).
    exact Hkind. }
  assert (GameObject.has_flag opened ObjectFlag.CLOSED = false) as Hclosed'.
  { unfold opened. rewrite has_flag_set_flag. now destruct (decide _). }
  unfold _close, with_direct_object. rewrite Hdo, Htruthy.
  erewrite bind_ok by (apply object_at_ok; cbn [game with_game says objects set_objects]; apply get_set_eq).
  rewrite Hkind', Hclosed'. cbn [negb].
  erewrite bind_ok by (apply update_object_ok; cbn [game with_game says objects set_objects]; apply get_set_eq).
  erewrite bind_ok by (apply update_object_ok; cbn [game with_game says objects set_objects]; apply get_set_eq).
  split; [reflexivity|]. cbn [game with_game objects set_objects says stdout].
  rewrite !set_set. unfold opened. rewrite (open_then_closed obj Hopen Hclosed).
  rewrite (set_same _ _ _ Hobj). split; [now destruct (game s)|].
  cbn. now rewrite <- !app_assoc.
Qed.

Lemma close_undoes_open_witness :
  exists (s1 s2 : Sys),
    _open (_parse_command world "open mailbox") (new_game [] ∅ []) = Ok tt s1 /\
    _close (_parse_command world "open mailbox") s1 = Ok tt s2 /\
    game s2 = game (new_game [] ∅ []).
Proof.
  pose (mailbox := default nothing (OrderedDict.get "mailbox" (objects world))).
  destruct (close_undoes_open (new_game [] ∅ []) (_parse_command world "open mailbox")
              "mailbox" mailbox)
    as (s1 & s2 & revealed & Hopen & _ & Hclose & Hsame & _);
    try (vm_compute; reflexivity).
  exists s1, s2. auto.
Defined.

(** ** Light *)

Lemma carried_light_ok (s : Sys) (inventory : list string) :
  Forall (fun obj_id => is_Some (OrderedDict.get obj_id (objects (game s)))) inventory ->
  exists b, carried_light inventory s = Ok b s /\
    (b = true <-> exists obj_id obj,
       obj_id ∈ inventory /\
       OrderedDict.get obj_id (objects (game s)) = Some obj /\
       is_lit obj = true).
Proof.
  induction 1 as [|obj_id rest [obj Hobj] Hrest (b & Hrun & Hb)]; simpl.
  - exists false. split; [reflexivity|]. split; [discriminate|].
    intros (? & ? & Hin & _). now apply elem_of_nil in Hin.
  - erewrite bind_ok by (apply object_at_ok; exact Hobj).
    destruct (is_lit obj) eqn:Hlit.
    + exists true. split; [reflexivity|]. split; [|reflexivity]. intros _.
      exists obj_id, obj. split; [apply elem_of_cons; now left | auto].
    + exists b. split; [exact Hrun|]. rewrite Hb. split.
      * intros (k & o & Hin & Hk & Ho). exists k, o.
        split; [apply elem_of_cons; now right | auto].
      * intros (k & o & Hin & Hk & Ho). exists k, o.
        apply elem_of_cons in Hin as [->|Hin]; [congruence | auto].
Qed.

(** X13: when the player can see.  Provided the current room exists and
    everything carried is an object, [_can_see] returns, changes nothing,
    and answers yes exactly when the room is lit, or a carried thing is a
    light that is turned on, or such a thing lies in the room itself; a
    light inside a container in the room does not count. *)
Theorem can_see_by_room_or_lamp (s : Sys) (room : Room.t) :
  rooms (game s) !! current_room (game s) = Some room ->
  Forall (fun obj_id => is_Some (OrderedDict.get obj_id (objects (game s))))
         (player_inventory (game s)) ->
  exists b, _can_see s = Ok b s /\
    (b = true <->
       Room.has_flag room RoomFlag.LIT = true \/
       carries_light (game s) \/ light_lies_here (game s)).
Proof.
  intros Hroom Hcarried. unfold _can_see.
  erewrite bind_ok by reflexivity.
  erewrite bind_ok by (apply room_at_ok; exact Hroom).
  destruct (Room.has_flag room RoomFlag.LIT) eqn:Hlit.
  { exists true. split; [reflexivity | tauto]. }
  destruct (carried_light_ok s _ Hcarried) as (b & Hrun & Hb).
  erewrite bind_ok by exact Hrun.
  destruct b.
  { exists true. split; [reflexivity|]. split; [|reflexivity]. intros _.
    right. left. now apply Hb. }
  eexists. split; [reflexivity|]. rewrite existsb_exists. split.
  - intros (obj & Hin & Htest). right. right.
    apply andb_true_iff in Htest as [Hloc Hobj]. apply opt_is_spec in Hloc.
    apply list_elem_of_In in Hin. unfold OrderedDict.values in Hin.
    apply list_elem_of_fmap in Hin as ([k o] & -> & Hin). now exists k, o.
  - intros [?|[Hc|(k & o & Hin & Hloc & Ho)]]; [discriminate| |].
    + apply Hb in Hc. discriminate.
    + exists o. split.
      * apply list_elem_of_In. unfold OrderedDict.values.
        apply list_elem_of_fmap. now exists (k, o).
      * apply andb_true_iff. split; [now apply opt_is_spec | exact Ho].
Qed.

Lemma can_see_by_room_or_lamp_witness :
  _can_see (new_game [] ∅ []) = Ok true (new_game [] ∅ []).
Proof.
  pose (room := default (Room.mk "" "" "" 0 ∅) (rooms world !! "west_of_house")).
  destruct (can_see_by_room_or_lamp (new_game [] ∅ []) room) as (b & Hrun & Hb).
  - vm_compute. reflexivity.
  - assert (player_inventory (game (new_game [] ∅ [])) = []) as ->
      by (vm_compute; reflexivity).
    constructor.
  - assert (b = true) as -> by (apply Hb; left; vm_compute; reflexivity).
    exact Hrun.
Defined.

(** X14: the lamp burns out.  When a command has been carried out and the
    lamp is on with one unit of life left, the turn ends with the life at
    zero, "Your lamp has run out of power." printed, the lamp off and its
    LIGHT and TURNEDON flags cleared; nothing else of the lamp changes, so
    its examine text goes on saying what it said.  (The room is taken to be
    lit, so that the check for darkness that follows has nothing to say.) *)
Theorem the_lamp_burns_out (s s1 : Sys) (user_input : string)
    (lamp : GameObject.t) (room : Room.t) :
  _execute_command (_parse_command (game s) user_input) s = Ok tt s1 ->
  lamp_on (game s1) = true ->
  lamp_life (game s1) = 1 ->
  OrderedDict.get "lamp" (objects (game s1)) = Some lamp ->
  rooms (game s1) !! current_room (game s1) = Some room ->
  Room.has_flag room RoomFlag.LIT = true ->
  exists (s2 : Sys) (lamp' : GameObject.t),
    turn user_input s = Ok tt s2 /\
    stdout s2 = (stdout s1 ++ ["Your lamp has run out of power."])%list /\
    lamp_on (game s2) = false /\
    lamp_life (game s2) = 0 /\
    moves (game s2) = moves (game s1) + 1 /\
    OrderedDict.get "lamp" (objects (game s2)) = Some lamp' /\
    GameObject.has_flag lamp' ObjectFlag.LIGHT = false /\
    GameObject.has_flag lamp' ObjectFlag.TURNEDON = false /\
    GameObject.examine_text lamp' = GameObject.examine_text lamp.
Proof.
  intros Hrun Hon Hlife Hlamp Hroom Hlit.
  set (lamp' := GameObject.set_flag ObjectFlag.TURNEDON false
                  (GameObject.set_flag ObjectFlag.LIGHT false lamp)).
  exists (with_game
            (set_objects (OrderedDict.set "lamp" lamp' (objects (game s1)))
               (set_lamp_on false
                  (set_lamp_life 0 (set_moves (moves (game s1) + 1) (game s1)))))
            (say "Your lamp has run out of power." s1)), lamp'.
  split.
  { unfold turn. erewrite bind_ok by reflexivity. cbv zeta.
    rewrite (bind_ok _ _ _ _ _ Hrun).
    erewrite bind_ok by reflexivity. erewrite bind_ok by reflexivity.
    cbn [game lamp_on set_moves]. rewrite Hon. cbn [when].
    erewrite bind_ok by reflexivity. erewrite bind_ok by reflexivity.
    cbn [game lamp_life set_lamp_life set_moves]. rewrite Hlife.
    change (1 - 1 =? 30) with false. change (1 - 1 =? 0) with true. cbv iota.
    erewrite bind_ok by reflexivity. erewrite bind_ok by reflexivity.
    erewrite bind_ok by (apply update_object_ok; cbn [game objects set_lamp_on
      set_lamp_life set_moves]; exact Hlamp).
    erewrite bind_ok by (apply update_object_ok; cbn [game with_game objects
      set_objects set_lamp_on set_lamp_life set_moves]; apply get_set_eq).
    cbn [game with_game objects set_objects set_lamp_on set_lamp_life set_moves].
    rewrite set_set. fold lamp'.
    unfold _check_light. erewrite bind_ok by reflexivity.
    erewrite bind_ok by (apply room_at_ok; cbn; exact Hroom).
    rewrite Hlit. reflexivity. }
  split; [reflexivity|]. split; [reflexivity|]. split; [reflexivity|].
  split; [reflexivity|]. split; [cbn; apply get_set_eq|].
  unfold lamp'. rewrite !has_flag_set_flag.
  split; [now repeat destruct (decide _)|]. split; [now destruct (decide _)|].
  now destruct lamp.
Qed.

Lemma the_lamp_burns_out_witness :
  exists s2 : Sys,
    turn "xyzzy" lamp_nearly_out = Ok tt s2 /\
    lamp_on (game lamp_nearly_out) = true /\
    lamp_on (game s2) = false /\
    lamp_life (game s2) = 0.
Proof.
  pose (lamp := default nothing (OrderedDict.get "lamp" (objects (game lamp_nearly_out)))).
  pose (room := default (Room.mk "" "" "" 0 ∅) (rooms world !! "living_room")).
  destruct (the_lamp_burns_out lamp_nearly_out
              (say "I don't understand that." lamp_nearly_out) "xyzzy" lamp room)
    as (s2 & lamp' & Hturn & _ & Hoff & Hlife & _).
  - rewrite (parse_unknown_word _ "xyzzy" "xyzzy" []); reflexivity.
  - vm_compute. reflexivity.
  - vm_compute. reflexivity.
  - vm_compute. reflexivity.
  - vm_compute. reflexivity.
  - vm_compute. reflexivity.
  - exists s2. split; [exact Hturn|]. split; [vm_compute; reflexivity|].
    split; assumption.
Defined.

(** ** The session: quitting, saving, restarting, the end of the input *)

(** the game is the same *)
Lemma same_game_framing : Framing (on_game (@eq ZorkGame)).
Proof. apply framing_on_game; congruence. Qed.

(** X15: quit asks first.  An answer that does not begin with "y" or "Y"
    leaves everything as it was but for the question printed and the answer
    read; an answer that does prints the final score and rank and sets
    [game_over], and changes nothing else of the game. *)
Theorem quit_asks_first (s : Sys) (command : ParsedCommand.t)
    (answer : string) (rest : list string) :
  stdin s = answer :: rest ->
  (Py.startswith (Py.lower answer) "y" = false ->
   _quit command s = Ok tt (asked "Are you sure you want to quit? " rest s)) /\
  (Py.startswith (Py.lower answer) "y" = true ->
   exists more,
     _quit command s
     = Ok tt (with_game (set_game_over true (game s))
                (says (["Are you sure you want to quit? "; "";
                        "In " +:+ Py.str_of_int (moves (game s))
                        +:+ " moves, you have scored "
                        +:+ Py.str_of_int (score (game s))
                        +:+ " points (total of 350 points).";
                        "This gives you the rank of " +:+ _get_rank (game s) +:+ "."]
                       ++ more)
                   (mkSys (game s) (stdout s) rest (files s) (draws s)))) /\
     (more = [] \/
      more = ["You died " +:+ Py.str_of_int (deaths (game s)) +:+ " times."] /\
      0 < deaths (game s))).
Proof.
  intros Hin. unfold _quit.
  erewrite bind_ok by (apply input_ok; exact Hin). split; intros ->; [reflexivity|].
  cbn [when]. unfold _show_final_score.
  destruct (0 <? deaths (game s)) eqn:Hdeaths.
  - eexists. split; [|right; split; [reflexivity | now apply Z.ltb_lt]].
    unfold bind, self, print, assign, when, says, with_game. cbn.
    rewrite Hdeaths. cbn. now rewrite <- !app_assoc.
  - exists []. split; [|now left].
    unfold bind, self, print, assign, when, says, with_game, ret. cbn.
    rewrite Hdeaths. cbn. now rewrite <- !app_assoc.
Qed.

Lemma quit_asks_first_witness :
  _quit (_parse_command world "quit") (new_game ["no"] ∅ [])
    = Ok tt (asked "Are you sure you want to quit? " [] (new_game ["no"] ∅ [])) /\
  game_over (game (final (_quit (_parse_command world "quit")
                            (new_game ["Yes"] ∅ [])))) = true.
Proof.
  split.
  - apply (quit_asks_first (new_game ["no"] ∅ []) _ "no" []); reflexivity.
  - destruct (quit_asks_first (new_game ["Yes"] ∅ []) (_parse_command world "quit")
                "Yes" []) as [_ Hyes]; [reflexivity|].
    destruct Hyes as (more & -> & _); reflexivity.
Defined.

(** *** Ranks *)

(** X16: the rank never falls when the score rises: of two games, the one
    with the higher score has the same or a higher rank, the top rank is
    held exactly from 350 points on, and a score below 25, a negative one
    included, is a Beginner's. *)
Theorem rank_grows_with_score (g g' : ZorkGame) :
  score g <= score g' ->
  (rank_level (_get_rank g) ranks <= rank_level (_get_rank g') ranks)%nat /\
  (_get_rank g = "Master Adventurer" <-> 350 <= score g) /\
  (_get_rank g = "Beginner" <-> score g < 25).
Proof.
  intros Hle. unfold _get_rank.
  repeat match goal with
         | |- context [?a <=? ?b] =>
             let H := fresh in destruct (Z.leb_spec a b) as [H|H]
         end; cbn; repeat split; try lia; try discriminate; try reflexivity.
Qed.

Lemma rank_grows_with_score_witness :
  (rank_level (_get_rank world) ranks
   <= rank_level (_get_rank (set_score 120 world)) ranks)%nat.
Proof.
  apply (rank_grows_with_score world (set_score 120 world)).
  vm_compute. discriminate.
Defined.

(** *** Commands that only report *)

(** X17: examine, inventory, score, version, wait, diagnose, lock and
    raise never change the game, whatever their object and however they
    end (an examine of a thing that is no object raises KeyError): the game
    after the command is the game before it. *)
Theorem reporting_changes_nothing (s : Sys) (command : ParsedCommand.t)
    (verb : VerbType.t) :
  ParsedCommand.direction command = None ->
  ParsedCommand.verb command = Some verb ->
  verb ∈ reporting_verbs ->
  game (final (_execute_command command s)) = game s.
Proof.
  intros Hdirection Hverb Hin. symmetry.
  assert (frames (on_game (@eq ZorkGame)) (_execute_command command)) as Hframe;
    [|exact (Hframe s)].
  pose proof same_game_framing.
  unfold _execute_command. rewrite Hdirection, Hverb.
  unfold reporting_verbs in Hin.
  repeat (apply elem_of_cons in Hin as [->|Hin]);
    [..|now apply elem_of_nil in Hin]; cbn [handlers].
  - apply frames_examine; assumption.
  - unfold _inventory. repeat frame_step fail.
  - unfold _score. repeat frame_step fail.
  - unfold _version. repeat frame_step fail.
  - unfold _wait. repeat frame_step fail.
  - unfold _diagnose. repeat frame_step fail.
  - unfold _lock, with_direct_object. repeat frame_step fail.
  - unfold _raise, with_direct_object. repeat frame_step fail.
Qed.

Lemma reporting_changes_nothing_witness :
  game (final (_execute_command (_parse_command world "examine mailbox")
                 (new_game [] ∅ [])))
    = game (new_game [] ∅ []).
Proof.
  apply (reporting_changes_nothing _ _ VerbType.EXAMINE).
  - vm_compute. reflexivity.
  - vm_compute. reflexivity.
  - apply elem_of_cons. now left.
Defined.

(** *** Saving *)

(** X18: saving never changes the game, whether the file is written or
    not; when the file cannot be written the failure is reported as "Save
    failed: " and the reason, and the disk is as it was. *)
Theorem save_leaves_the_game_alone (s : Sys) (command : ParsedCommand.t) :
  game (final (_save command s)) = game s /\
  forall filename rest err,
    stdin s = filename :: rest ->
    files s !! filename = Some (Denied err) ->
    _save command s
    = Ok tt (say ("Save failed: " +:+ err) (asked "Save filename: " rest s)).
Proof.
  split.
  - symmetry. pose proof same_game_framing.
    assert (frames (on_game (@eq ZorkGame)) (_save command)) as Hframe;
      [|exact (Hframe s)].
    unfold _save. repeat frame_step ltac:(reflexivity).
  - intros filename rest err Hin Hfile. unfold _save.
    erewrite bind_ok by (apply input_ok; exact Hin).
    unfold try_except. erewrite bind_ok by reflexivity. cbv zeta.
    erewrite bind_raise
      by (unfold write_json; cbn [files]; rewrite Hfile; reflexivity).
    reflexivity.
Qed.

Lemma save_leaves_the_game_alone_witness :
  _save (_parse_command world "save")
    (new_game ["zork.sav"] {["zork.sav" := Denied "Permission denied"]} [])
  = Ok tt (say "Save failed: Permission denied"
             (asked "Save filename: " []
                (new_game ["zork.sav"] {["zork.sav" := Denied "Permission denied"]} []))).
Proof.
  apply (proj2 (save_leaves_the_game_alone
                  (new_game ["zork.sav"] {["zork.sav" := Denied "Permission denied"]} [])
                  (_parse_command world "save")) "zork.sav" [] "Permission denied");
    reflexivity.
Defined.

(** *** Restarting *)

(** X19: a restart that is confirmed forgets everything but the player's
    name: what is left is the world as it was built, under the old name;
    the look that follows can do no more than mark the first room as
    visited. *)
Theorem restart_keeps_the_name_only (s : Sys) (command : ParsedCommand.t)
    (answer : string) (rest : list string) :
  stdin s = answer :: rest ->
  Py.startswith (Py.lower answer) "y" = true ->
  exists V : gset string,
    game (final (_restart command s))
    = set_visited_rooms V (set_player_name (player_name (game s)) world) /\
    score (game (final (_restart command s))) = 0 /\
    moves (game (final (_restart command s))) = 0 /\
    deaths (game (final (_restart command s))) = 0 /\
    current_room (game (final (_restart command s))) = "west_of_house".
Proof.
  intros Hin Hyes. unfold _restart.
  erewrite bind_ok by (apply input_ok; exact Hin). rewrite Hyes. cbn [when].
  erewrite bind_ok by reflexivity. cbv zeta.
  erewrite bind_ok by apply init_gives_the_world.
  erewrite bind_ok by reflexivity. erewrite bind_ok by reflexivity.
  match goal with
  | |- context [_look None ?s1] =>
      destruct (look_up_to_visited None s1) as (V & HV & _)
  end.
  exists V. rewrite HV. repeat split.
Qed.

Lemma restart_keeps_the_name_only_witness :
  score (game (final (play ["n"; "n"; "u"; "take egg"] (new_game [] ∅ [])))) = 5 /\
  score (game (final (_restart (_parse_command world "restart")
                        (mkSys (game (final (play ["n"; "n"; "u"; "take egg"]
                                               (new_game [] ∅ []))))
                           [] ["yes"] ∅ [])))) = 0.
Proof.
  split; [vm_compute; reflexivity|].
  destruct (restart_keeps_the_name_only
              (mkSys (game (final (play ["n"; "n"; "u"; "take egg"]
                                     (new_game [] ∅ []))))
                 [] ["yes"] ∅ [])
              (_parse_command world "restart") "yes" [])
    as (V & _ & Hscore & _); [reflexivity | reflexivity | exact Hscore].
Defined.

(** *** The end of the input *)

(** In a lit room that is neither the bat's nor the cyclops's, and with the
    thief away, the random events of a turn do nothing. *)
Lemma random_events_quiet (s : Sys) (room : Room.t) :
  thief_here (game s) = false ->
  rooms (game s) !! current_room (game s) = Some room ->
  Room.has_flag room RoomFlag.LIT = true ->
  Py.mem (current_room (game s)) ["bat_room"; "cyclops_room"] = false ->
  _check_random_events s = Ok tt s.
Proof.
  intros Hthief Hroom Hlit Hplace. unfold _check_random_events.
  cbn [Py.mem existsb] in Hplace.
  apply orb_false_iff in Hplace as [Hbat Hplace].
  apply orb_false_iff in Hplace as [Hcyclops _].
  erewrite bind_ok by reflexivity. rewrite Hthief.
  erewrite bind_ok
    by (erewrite bind_ok by (apply room_at_ok; exact Hroom); now rewrite Hlit).
  cbv iota. erewrite bind_ok by reflexivity.
  erewrite bind_ok by reflexivity.
  rewrite Hbat, Hcyclops. reflexivity.
Qed.

(** X20: the end of the input ends the game.  When the random events of a
    turn have passed and there is nothing left to read, the prompt is
    printed, the [EOFError] of [input] is caught, [game_over] is set and the
    main loop stops there, with nothing else changed. *)
Theorem end_of_input_ends_the_game (s s1 : Sys) (rounds : nat) :
  game_over (game s) = false ->
  _check_random_events s = Ok tt s1 ->
  stdin s1 = [] ->
  main_loop (S rounds) s
  = Ok tt (with_game (set_game_over true (game s1)) (say "> " s1)).
Proof.
  intros Hover Hevents Hin. cbn [main_loop].
  erewrite bind_ok by reflexivity. rewrite Hover.
  assert (loop_body s = Ok tt (with_game (set_game_over true (game s1)) (say "> " s1)))
    as Hbody.
  { unfold loop_body. rewrite (bind_ok _ _ _ _ _ Hevents).
    erewrite bind_raise by (unfold input; rewrite Hin; reflexivity).
    unfold assign, with_game, say. cbn. now rewrite Hin. }
  rewrite (bind_ok _ _ _ _ _ Hbody). destruct rounds; [reflexivity|].
  cbn [main_loop]. erewrite bind_ok by reflexivity. reflexivity.
Qed.

Lemma end_of_input_ends_the_game_witness :
  main_loop 5 (new_game [] ∅ [])
  = Ok tt (with_game (set_game_over true (game (new_game [] ∅ [])))
             (say "> " (new_game [] ∅ []))).
Proof.
  pose (room := default (Room.mk "" "" "" 0 ∅) (rooms world !! "west_of_house")).
  apply (end_of_input_ends_the_game (new_game [] ∅ []) (new_game [] ∅ []) 4).
  - vm_compute. reflexivity.
  - apply (random_events_quiet _ room); vm_compute; reflexivity.
  - vm_compute. reflexivity.
Defined.

(** ** The troll, the torch, the grue, the spirits and the dam *)

Lemma go_in_the_troll_room (s : Sys) (room : Room.t) (troll : Actor.t)
    (d : Direction.t) :
  current_room (game s) = "troll_room" ->
  rooms (game s) !! "troll_room" = Some room ->
  OrderedDict.get "troll" (actors (game s)) = Some troll ->
  _go d s =
  if Py.opt_is (Actor.location troll) "troll_room" && Actor.active troll
     && negb (troll_payment (game s))
  then Ok tt (say "The troll blocks your way!" s)
  else match Room.exits room !! d with
       | Some new_room =>
           if String.eqb new_room "troll_room"
           then print "You can't go that way." s
           else (move_to new_room ;; _check_light ;; _look None) s
       | None => print "You can't go that way." s
       end.
Proof.
  intros Hhere Hroom Htroll. unfold _go.
  erewrite bind_ok by reflexivity. cbv zeta. rewrite Hhere.
  erewrite bind_ok by (apply room_at_ok; exact Hroom).
  cbn [String.eqb Ascii.eqb Bool.eqb andb].
  erewrite bind_ok by reflexivity. cbv iota.
  unfold actor_at. 
  destruct (Py.opt_is (Actor.location troll) "troll_room" && Actor.active troll
            && negb (troll_payment (game s))) eqn:Hblock.
  - erewrite bind_ok; cycle 1.
    { erewrite bind_ok; cycle 1.
      { erewrite bind_ok by reflexivity. rewrite Htroll. reflexivity. }
      cbv beta. rewrite Hblock. reflexivity. }
    reflexivity.
  - erewrite bind_ok; cycle 1.
    { erewrite bind_ok; cycle 1.
      { erewrite bind_ok by reflexivity. rewrite Htroll. reflexivity. }
      cbv beta. rewrite Hblock. reflexivity. }
    cbv iota. erewrite bind_ok by reflexivity. cbv iota.
    destruct (Room.exits room !! d) as [new_room|]; [|reflexivity].
    now destruct (String.eqb new_room "troll_room").
Qed.



(** *** The torch *)

Lemma get_del_eq {V} (d : list (string * V)) (k : string) :
  NoDup (OrderedDict.keys d) -> OrderedDict.get k (OrderedDict.del k d) = None.
Proof.
  unfold OrderedDict.keys. induction d as [|[k0 v0] d IH]; simpl; [reflexivity|].
  intros Hnd. apply NoDup_cons in Hnd as [Hk0 Hd].
  destruct (String.eqb_spec k k0) as [->|Hne]; simpl.
  - destruct (OrderedDict.get k0 d) as [v|] eqn:Hget; [|reflexivity].
    exfalso. apply Hk0. apply get_In in Hget.
    apply list_elem_of_fmap. now exists (k0, v).
  - destruct (String.eqb_spec k k0); [congruence | auto].
Qed.

Lemma get_del_ne {V} (d : list (string * V)) (k k' : string) :
  k <> k' -> OrderedDict.get k' (OrderedDict.del k d) = OrderedDict.get k' d.
Proof.
  intros Hne. induction d as [|[k0 v0] d IH]; simpl; [reflexivity|].
  destruct (String.eqb_spec k k0) as [->|Hk]; simpl.
  - destruct (String.eqb_spec k' k0); [congruence | reflexivity].
  - now rewrite IH.
Qed.

Lemma remove_Some_In (x : string) (l l' : list string) :
  Py.remove x l = Some l' -> x ∈ l.
Proof.
  revert l'. induction l as [|y l IH]; simpl; intros l'; [discriminate|].
  destruct (String.eqb_spec x y) as [->|Hne]; [intros _; apply elem_of_cons; now left|].
  destruct (Py.remove x l) as [l0|] eqn:Hl; [|discriminate].
  intros _. apply elem_of_cons. right. eauto.
Qed.

(** X22: the torch can be burnt with its own flame, and the game does not
    survive it for long.  [burn] of the torch, carried and burning, prints
    "The torch burns to ashes.", takes it out of the inventory and deletes
    the object; as [_burn] looks for a flame at [self.objects["torch"]]
    before anything else, every later [burn] of something flammable raises
    KeyError 'torch', which nothing catches. *)
Theorem burning_the_torch_breaks_burn (s : Sys) (command : ParsedCommand.t)
    (torch : GameObject.t) (rest : list string) :
  ParsedCommand.direct_object command = Some "torch" ->
  OrderedDict.get "torch" (objects (game s)) = Some torch ->
  NoDup (OrderedDict.keys (objects (game s))) ->
  GameObject.has_flag torch ObjectFlag.FLAMMABLE = true ->
  GameObject.has_flag torch ObjectFlag.TURNEDON = true ->
  GameObject.location torch = Some "player" ->
  Py.remove "torch" (player_inventory (game s)) = Some rest ->
  exists s1 : Sys,
    _burn command s = Ok tt s1 /\
    stdout s1 = (stdout s ++ ["The " +:+ GameObject.name torch +:+ " burns to ashes."])%list /\
    game s1 = set_objects (OrderedDict.del "torch" (objects (game s)))
                (set_player_inventory rest (game s)) /\
    OrderedDict.get "torch" (objects (game s1)) = None /\
    forall (command' : ParsedCommand.t) (obj_id : string) (obj : GameObject.t),
      ParsedCommand.direct_object command' = Some obj_id ->
      Py.truthy obj_id = true ->
      OrderedDict.get obj_id (objects (game s1)) = Some obj ->
      GameObject.has_flag obj ObjectFlag.FLAMMABLE = true ->
      _burn command' s1 = Raise (KeyError "torch") s1.
Proof.
  intros Hdo Htorch Hnodup Hflammable Hon Hheld Hremove.
  set (g1 := set_objects (OrderedDict.del "torch" (objects (game s)))
               (set_player_inventory rest (game s))).
  exists (with_game g1 (say ("The " +:+ GameObject.name torch +:+ " burns to ashes.") s)).
  assert (Py.mem "torch" (player_inventory (game s)) = true) as Hmem.
  { apply mem_In. exact (remove_Some_In _ _ _ Hremove). }
  split.
  { unfold _burn, with_direct_object. rewrite Hdo. cbn [Py.truthy].
    erewrite bind_ok by (apply object_at_ok; exact Htorch). rewrite Hflammable.
    erewrite bind_ok by reflexivity.
    erewrite bind_ok by (apply object_at_ok; exact Htorch).
    rewrite Hheld, Hon. cbn [Py.opt_is String.eqb Ascii.eqb Bool.eqb andb].
    erewrite bind_ok by reflexivity. cbv iota.
    erewrite bind_ok by reflexivity. rewrite Hmem. cbn [when].
    erewrite bind_ok;
      [|unfold inventory_remove; erewrite bind_ok by reflexivity;
        cbn [game player_inventory]; rewrite Hremove; reflexivity].
    unfold del_object.
    erewrite bind_ok by (apply object_at_ok; cbn; exact Htorch).
    reflexivity. }
  split; [reflexivity|]. split; [reflexivity|].
  split; [cbn; now apply get_del_eq|].
  intros command' obj_id obj Hdo' Htruthy Hobj Hflammable'.
  unfold _burn, with_direct_object. rewrite Hdo', Htruthy.
  erewrite bind_ok by (apply object_at_ok; exact Hobj). rewrite Hflammable'.
  erewrite bind_ok by reflexivity. apply bind_raise.
  unfold object_at. erewrite bind_ok by reflexivity.
  cbn [game with_game say g1 objects set_objects].
  now rewrite get_del_eq.
Qed.

Lemma burning_the_torch_breaks_burn_witness :
  exists s1 : Sys,
    _burn (_parse_command (game holding_the_torch) "burn torch") holding_the_torch
      = Ok tt s1 /\
    player_inventory (game s1) = ["lamp"; "sword"] /\
    _burn (ParsedCommand.mk (Some VerbType.BURN) (Some "candles") None None
             "burn candles") s1
      = Raise (KeyError "torch") s1.
Proof.
  pose (torch := default nothing (OrderedDict.get "torch" (objects world))).
  pose (candles := default nothing (OrderedDict.get "candles" (objects world))).
  destruct (burning_the_torch_breaks_burn holding_the_torch
              (_parse_command (game holding_the_torch) "burn torch")
              (GameObject.with_location (Some "player") torch) ["lamp"; "sword"])
    as (s1 & Hburn & _ & Hgame & _ & Hcrash).
  - vm_compute. reflexivity.
  - vm_compute. reflexivity.
  - apply (bool_decide_unpack _). vm_compute. reflexivity.
  - vm_compute. reflexivity.
  - vm_compute. reflexivity.
  - vm_compute. reflexivity.
  - vm_compute. reflexivity.
  - exists s1. split; [exact Hburn|]. split; [now rewrite Hgame|].
    apply (Hcrash _ "candles" candles);
      [reflexivity | reflexivity | | vm_compute; reflexivity].
    rewrite Hgame. cbn [objects set_objects]. rewrite get_del_ne by discriminate.
    vm_compute. reflexivity.
Defined.

(** *** The grue *)

(** X23: in the dark the grue strikes one time in four.  When the room is
    not lit and nothing gives light, [_check_light] prints the warning and
    draws a number from 1 to 4: on a 1 the grue's message follows and the
    player dies; on 2, 3 or 4 nothing more happens. *)
Theorem the_grue_strikes_one_time_in_four (s : Sys) (room : Room.t)
    (draw : Z) (rest : list Z) :
  rooms (game s) !! current_room (game s) = Some room ->
  Room.has_flag room RoomFlag.LIT = false ->
  _can_see s = Ok false s ->
  draws s = draw :: rest ->
  let warned :=
    mkSys (game s)
      (stdout s ++ ["It is pitch black. You are likely to be eaten by a grue."])
      (stdin s) (files s) rest in
  (draw mod 4 <> 0 -> _check_light s = Ok tt warned) /\
  (draw mod 4 = 0 ->
   _check_light s
   = _death "You have died."
       (say (Py.nl +:+ "Oh, no! You have walked into the slavering fangs of a lurking grue!")
          warned)).
Proof.
  intros Hroom Hlit Hsee Hdraws warned.
  assert (forall k : Z -> M unit,
            (roll <- randint 1 4 ;; k roll)
              (say "It is pitch black. You are likely to be eaten by a grue." s)
            = k (1 + draw mod (4 - 1 + 1)) warned) as Hroll.
  { intros k. unfold bind, randint. cbn [draws say]. now rewrite Hdraws. }
  split; intros Hdraw.
  - unfold _check_light. erewrite bind_ok by reflexivity.
    erewrite bind_ok by (apply room_at_ok; exact Hroom). rewrite Hlit.
    rewrite (bind_ok _ _ _ _ _ Hsee). cbn [negb when].
    erewrite bind_ok by reflexivity. rewrite Hroll.
    destruct (Z.eqb_spec (1 + draw mod (4 - 1 + 1)) 1) as [Heq|_]; [|reflexivity].
    exfalso. apply Hdraw. change (4 - 1 + 1) with 4 in Heq. lia.
  - unfold _check_light. erewrite bind_ok by reflexivity.
    erewrite bind_ok by (apply room_at_ok; exact Hroom). rewrite Hlit.
    rewrite (bind_ok _ _ _ _ _ Hsee). cbn [negb when].
    erewrite bind_ok by reflexivity. rewrite Hroll.
    change (4 - 1 + 1) with 4. rewrite Hdraw. reflexivity.
Qed.

Lemma the_grue_strikes_one_time_in_four_witness :
  stdout (final (_check_light in_the_dark))
  = (stdout in_the_dark
       ++ ["It is pitch black. You are likely to be eaten by a grue."])%list.
Proof.
  pose (room := default (Room.mk "" "" "" 0 ∅) (rooms world !! "cellar")).
  destruct (the_grue_strikes_one_time_in_four in_the_dark room 2 []) as [Hsafe _].
  - vm_compute. reflexivity.
  - vm_compute. reflexivity.
  - unfold _can_see. erewrite bind_ok by reflexivity.
    erewrite bind_ok by (apply room_at_ok; vm_compute; reflexivity).
    assert (player_inventory (game in_the_dark) = []) as -> by (vm_compute; reflexivity).
    assert (current_room (game in_the_dark) = "cellar") as -> by (vm_compute; reflexivity).
    change (Room.has_flag _ RoomFlag.LIT) with false. cbv iota.
    erewrite bind_ok by reflexivity. cbv iota. unfold ret. f_equal.
  - vm_compute. reflexivity.
  - rewrite Hsafe by (vm_compute; discriminate). reflexivity.
Defined.

(** *** The spirits *)

Lemma go_at_the_gate (s : Sys) (room : Room.t) (spirits : Actor.t)
    (barred : string) :
  current_room (game s) = "entrance_to_hades" ->
  rooms (game s) !! "entrance_to_hades" = Some room ->
  OrderedDict.get "spirits" (actors (game s)) = Some spirits ->
  Actor.messages spirits !! "block" = Some barred ->
  _go Direction.SOUTH s =
  if negb (spirits_released (game s)) then Ok tt (say barred s)
  else match Room.exits room !! Direction.SOUTH with
       | Some new_room =>
           if String.eqb new_room "entrance_to_hades"
           then print "You can't go that way." s
           else (move_to new_room ;; _check_light ;; _look None) s
       | None => print "You can't go that way." s
       end.
Proof.
  intros Hhere Hroom Hspirits Hbarred. unfold _go.
  erewrite bind_ok by reflexivity. cbv zeta. rewrite Hhere.
  erewrite bind_ok by (apply room_at_ok; exact Hroom).
  cbn [String.eqb Ascii.eqb Bool.eqb andb].
  erewrite bind_ok by reflexivity. cbv iota.
  erewrite bind_ok by reflexivity. cbv iota.
  change (Direction.eqb Direction.SOUTH Direction.SOUTH) with true. cbn [andb].
  destruct (spirits_released (game s)); cbn [negb].
  - erewrite bind_ok by reflexivity. cbv iota.
    destruct (Room.exits room !! Direction.SOUTH) as [new_room|]; [|reflexivity].
    now destruct (String.eqb new_room "entrance_to_hades").
  - erewrite bind_ok; cycle 1.
    { unfold actor_at. erewrite bind_ok; cycle 1.
      { erewrite bind_ok by reflexivity. rewrite Hspirits. reflexivity. }
      cbv beta. rewrite Hbarred. reflexivity. }
    reflexivity.
Qed.

(** X24: the bell opens Hades.  At the entrance, with the spirits there, a
    move south is answered with their message and nothing changes.  Ringing
    the bell, carried, once the book has been read and the candles are lit,
    performs the exorcism: the spirits are released, made inactive and
    taken away, the exit south to the land of the dead is written, and the
    same move south now goes through. *)
Theorem the_bell_opens_hades (s : Sys) (command : ParsedCommand.t)
    (room : Room.t) (spirits : Actor.t) (barred banished : string) :
  current_room (game s) = "entrance_to_hades" ->
  rooms (game s) !! "entrance_to_hades" = Some room ->
  OrderedDict.get "spirits" (actors (game s)) = Some spirits ->
  Actor.messages spirits !! "block" = Some barred ->
  Actor.messages spirits !! "exorcise" = Some banished ->
  spirits_released (game s) = false ->
  book_read (game s) = true ->
  candles_lit (game s) = true ->
  ParsedCommand.direct_object command = Some "bell" ->
  "bell" ∈ player_inventory (game s) ->
  _go Direction.SOUTH s = Ok tt (say barred s) /\
  exists s1 : Sys,
    _ring command s = Ok tt s1 /\
    stdout s1 = (stdout s ++ ["Ding, dong.";
                              Py.nl +:+ "Suddenly, the bell, book, and candles begin to glow!";
                              banished])%list /\
    spirits_released (game s1) = true /\
    OrderedDict.get "spirits" (actors (game s1))
      = Some (Actor.with_location None (Actor.with_active false spirits)) /\
    has_exit (game s1) "entrance_to_hades" Direction.SOUTH "land_of_the_dead" /\
    _go Direction.SOUTH s1
      = (move_to "land_of_the_dead" ;; _check_light ;; _look None) s1.
Proof.
  intros Hhere Hroom Hspirits Hbarred Hbanished Hreleased Hbook Hcandles Hdo Hbell.
  split.
  { rewrite (go_at_the_gate s room spirits barred Hhere Hroom Hspirits Hbarred).
    now rewrite Hreleased. }
  set (gone := Actor.with_location None (Actor.with_active false spirits)).
  set (room' := Room.with_exits (<[Direction.SOUTH := "land_of_the_dead"]> (Room.exits room))
                  room).
  set (g1 := set_rooms (<["entrance_to_hades" := room']> (rooms (game s)))
               (set_actors (OrderedDict.set "spirits" gone (actors (game s)))
                  (set_spirits_released true (set_bell_rung true (game s))))).
  exists (with_game g1
            (says ["Ding, dong.";
                   Py.nl +:+ "Suddenly, the bell, book, and candles begin to glow!";
                   banished] s)).
  split.
  { unfold _ring, with_direct_object. rewrite Hdo. cbn [Py.truthy].
    erewrite bind_ok by reflexivity.
    apply mem_In in Hbell. rewrite Hbell. cbn [String.eqb Ascii.eqb Bool.eqb andb].
    erewrite bind_ok by reflexivity. erewrite bind_ok by reflexivity.
    unfold _check_exorcism. erewrite bind_ok by reflexivity.
    cbn [game current_room book_read candles_lit bell_rung set_bell_rung].
    rewrite Hhere, Hbook, Hcandles. cbn [String.eqb Ascii.eqb Bool.eqb andb when].
    erewrite bind_ok by reflexivity.
    erewrite bind_ok by (unfold actor_at; erewrite bind_ok by reflexivity;
                         cbn [game actors set_bell_rung]; rewrite Hspirits; reflexivity).
    unfold message_of. rewrite Hbanished.
    erewrite bind_ok by reflexivity. erewrite bind_ok by reflexivity.
    erewrite bind_ok by reflexivity.
    erewrite bind_ok by (apply update_actor_ok; cbn [game actors set_bell_rung
                           set_spirits_released]; exact Hspirits).
    erewrite bind_ok by (apply update_actor_ok; cbn [game with_game actors set_actors];
                         apply get_set_eq).
    erewrite set_exit_ok by (cbn [game with_game rooms set_actors set_bell_rung
                                  set_spirits_released]; exact Hroom).
    unfold with_game, says, say, g1, gone, room'. cbn. rewrite set_set.
    now rewrite <- !app_assoc. }
  split; [reflexivity|]. split; [reflexivity|].
  split; [cbn; apply get_set_eq|].
  split.
  { exists room'. split; [cbn; apply lookup_insert_eq|]. cbn. apply lookup_insert_eq. }
  erewrite (go_at_the_gate _ room' gone barred); cbn [game with_game g1 says
    current_room set_rooms set_actors set_spirits_released set_bell_rung rooms actors
    spirits_released negb]; try assumption.
  - unfold room'. cbn [Room.exits Room.with_exits]. rewrite lookup_insert_eq.
    reflexivity.
  - apply lookup_insert_eq.
  - apply get_set_eq.
Qed.

Lemma the_bell_opens_hades_witness :
  exists s1 : Sys,
    _ring (_parse_command (game at_the_gate) "ring bell") at_the_gate = Ok tt s1 /\
    spirits_released (game at_the_gate) = false /\
    spirits_released (game s1) = true /\
    has_exit (game s1) "entrance_to_hades" Direction.SOUTH "land_of_the_dead".
Proof.
  pose (room := default (Room.mk "" "" "" 0 ∅) (rooms world !! "entrance_to_hades")).
  pose (spirits := default (Actor.mk "" "" "" None 0 false false ∅)
                     (OrderedDict.get "spirits" (actors world))).
  destruct (the_bell_opens_hades at_the_gate
              (_parse_command (game at_the_gate) "ring bell") room spirits
              (default "" (Actor.messages spirits !! "block"))
              (default "" (Actor.messages spirits !! "exorcise")))
    as (_ & s1 & Hring & _ & Hreleased & _ & Hexit & _).
  - vm_compute. reflexivity.
  - vm_compute. reflexivity.
  - vm_compute. reflexivity.
  - vm_compute. reflexivity.
  - vm_compute. reflexivity.
  - vm_compute. reflexivity.
  - vm_compute. reflexivity.
  - vm_compute. reflexivity.
  - vm_compute. reflexivity.
  - apply mem_In. vm_compute. reflexivity.
  - exists s1. split; [exact Hring|]. split; [vm_compute; reflexivity|].
    split; assumption.
Defined.

(** ** Things that are carried but are no more *)

Lemma bind_assoc {A B C} (m : M A) (k : A -> M B) (n : B -> M C) (s : Sys) :
  (y <- (x <- m ;; k x) ;; n y) s = (x <- m ;; y <- k x ;; n y) s.
Proof. unfold bind. now destruct (m s). Qed.

Lemma inventory_lines (s : Sys) (carried : list string) (next : M unit) :
  Forall (fun obj_id => is_Some (OrderedDict.get obj_id (objects (game s)))) carried ->
  (for_each carried (fun obj_id =>
     obj <- object_at obj_id ;;
     print ("  A " +:+ GameObject.description obj) ;;
     when (GameObject.has_flag obj ObjectFlag.TURNEDON)
       (print "    (providing light)")) ;; next) s
  = next (says (concat (map (listing (game s)) carried)) s).
Proof.
  intros Hall. revert s Hall.
  induction carried as [|obj_id rest IH]; intros s Hall.
  - cbn. now rewrite says_nil.
  - apply Forall_cons in Hall as [[obj Hobj] Hrest].
    cbn [for_each map concat]. unfold listing at 1. rewrite Hobj.
    set (body := fun obj_id : string => _) in *.
    assert (body obj_id s
            = Ok tt (says (("  A " +:+ GameObject.description obj)
                           :: (if GameObject.has_flag obj ObjectFlag.TURNEDON
                               then ["    (providing light)"] else [])) s)) as Hbody.
    { unfold body. erewrite bind_ok by (apply object_at_ok; exact Hobj).
      erewrite bind_ok by reflexivity.
      destruct (GameObject.has_flag obj ObjectFlag.TURNEDON);
        unfold when, print, says, ret; cbn; now rewrite <- ?app_assoc. }
    rewrite bind_assoc. rewrite (bind_ok _ _ _ _ _ Hbody).
    rewrite IH by exact Hrest. cbn [game says]. now rewrite says_says.
Qed.

Lemma for_each_app {A} (l1 l2 : list A) (body : A -> M unit) (s : Sys) :
  for_each (l1 ++ l2) body s = (for_each l1 body ;; for_each l2 body) s.
Proof.
  revert s. induction l1 as [|x l1 IH]; intros s; cbn [app for_each].
  - reflexivity.
  - rewrite bind_assoc.
    change ((body x ;; for_each (l1 ++ l2) body) s
            = (body x ;; (for_each l1 body ;; for_each l2 body)) s).
    unfold bind at 1 2. destruct (body x s); [apply IH | reflexivity].
Qed.

(** X25: a thing that is carried but is no object any more makes
    [inventory] fail.  The things listed before it are printed, then the
    lookup [self.objects[obj_id]] raises KeyError with its id, which nothing
    catches.  Such a state is reached by saving with the thing in hand,
    destroying it (eating the lunch) and restoring: restore brings back the
    inventory list, not the deleted object. *)
Theorem inventory_fails_on_a_thing_that_is_gone (s : Sys)
    (command : ParsedCommand.t) (carried : list string) (missing : string)
    (rest : list string) :
  player_inventory (game s) = (carried ++ missing :: rest)%list ->
  Forall (fun obj_id => is_Some (OrderedDict.get obj_id (objects (game s)))) carried ->
  OrderedDict.get missing (objects (game s)) = None ->
  _inventory command s
  = Raise (KeyError missing)
      (says ("You are carrying:" :: concat (map (listing (game s)) carried)) s).
Proof.
  intros Hinv Hcarried Hmissing. unfold _inventory.
  erewrite bind_ok by reflexivity. rewrite Hinv.
  assert (exists x l', (carried ++ missing :: rest)%list = x :: l') as (x & l' & Hl)
    by (destruct carried; cbn; eauto).
  rewrite Hl. cbv iota. rewrite <- Hl.
  erewrite bind_ok by reflexivity.
  rewrite for_each_app. rewrite inventory_lines by exact Hcarried.
  cbn [for_each]. erewrite bind_raise; cycle 1.
  { unfold object_at, bind, self. cbn [game says]. rewrite Hmissing. reflexivity. }
  unfold says, say. cbn. now rewrite <- app_assoc.
Qed.

Lemma inventory_fails_on_a_thing_that_is_gone_witness :
  player_inventory (game lunch_eaten_and_restored) = ["sack"; "lunch"] /\
  exists s' : Sys,
    _inventory (_parse_command (game lunch_eaten_and_restored) "inventory")
      lunch_eaten_and_restored
    = Raise (KeyError "lunch") s'.
Proof.
  split; [vm_compute; reflexivity|]. eexists.
  apply (inventory_fails_on_a_thing_that_is_gone lunch_eaten_and_restored _
           ["sack"] "lunch" []).
  - vm_compute. reflexivity.
  - constructor; [|constructor]. apply (bool_decide_unpack _). vm_compute. reflexivity.
  - vm_compute. reflexivity.
Defined.
